(** * AegisClaim Engine: classification, extraction, validation, decision

    A shallow embedding of the claim pipeline of the AegisClaim Engine
    ([app/services/claim_processor.py], [app/services/agents/*.py] and
    [app/schemas/claim.py]) together with the properties its design
    document states about it.

    Conventions of the embedding:
    - Python [str] values are [string]s of ASCII text;
    - Python [dict]s with string keys are [gmap string _]; [d.update(e)]
      is the left-biased union [e ∪ d];
    - Python [float]s are binary64 [float]s;
    - a Python call that may raise returns [Exn + A]; code that also
      talks to the text-intelligence backend runs in the monad [M],
      which threads the list of prompts handed to the backend;
    - everything outside the pipeline (the backend, the file system, the
      clock, [json], the regular-expression batteries) is a field of the
      record [World]. *)

From Stdlib Require Import ZArith String Ascii List Floats Lia Bool.
From stdpp Require Import base option list gmap strings fin_maps.
Import ListNotations.

Local Open Scope string_scope.
Local Open Scope list_scope.
Local Open Scope Z_scope.

(** ** Python string operations used by the pipeline *)

Module PyStr.

Definition code (c : ascii) : Z := Z.of_N (N_of_ascii c).

(** [str.isspace] on ASCII: TAB..CR, FS..US and the space. *)
Definition isspace (c : ascii) : bool :=
  let n := code c in
  ((9 <=? n) && (n <=? 13)) || ((28 <=? n) && (n <=? 32)).

Definition isdigit (c : ascii) : bool :=
  let n := code c in (48 <=? n) && (n <=? 57).

Definition digit_val (c : ascii) : option Z :=
  if isdigit c then Some (code c - 48) else None.

Definition lower_char (c : ascii) : ascii :=
  let n := code c in
  if (65 <=? n) && (n <=? 90) then ascii_of_N (Z.to_N (n + 32)) else c.

Fixpoint lower (s : string) : string :=
  match s with
  | EmptyString => EmptyString
  | String c s' => String (lower_char c) (lower s')
  end.

Fixpoint lstrip (s : string) : string :=
  match s with
  | EmptyString => EmptyString
  | String c s' => if isspace c then lstrip s' else s
  end.

Fixpoint rstrip (s : string) : string :=
  match s with
  | EmptyString => EmptyString
  | String c s' =>
      match rstrip s' with
      | EmptyString => if isspace c then EmptyString else String c EmptyString
      | r => String c r
      end
  end.

Definition strip (s : string) : string := rstrip (lstrip s).

(** [s[:n]] *)
Fixpoint take (n : nat) (s : string) : string :=
  match n, s with
  | S n', String c s' => String c (take n' s')
  | _, _ => EmptyString
  end.

(** [s[n:]] *)
Fixpoint drop (n : nat) (s : string) : string :=
  match n, s with
  | S n', String _ s' => drop n' s'
  | _, _ => s
  end.

Fixpoint startswith (p s : string) : bool :=
  match p, s with
  | EmptyString, _ => true
  | String a p', String b s' => if Ascii.eqb a b then startswith p' s' else false
  | String _ _, EmptyString => false
  end.

Definition endswith (s suffix : string) : bool :=
  let n := String.length s in
  let k := String.length suffix in
  (k <=? n)%nat && String.eqb (drop (n - k) s) suffix.

(** [s.find(c)]: index of the first occurrence of [c], if any. *)
Fixpoint find (c : ascii) (s : string) : option nat :=
  match s with
  | EmptyString => None
  | String a s' =>
      if Ascii.eqb a c then Some 0%nat else S <$> find c s'
  end.

(** [s.rfind(c)]: index of the last occurrence of [c], if any. *)
Fixpoint rfind (c : ascii) (s : string) : option nat :=
  match s with
  | EmptyString => None
  | String a s' =>
      match rfind c s' with
      | Some i => Some (S i)
      | None => if Ascii.eqb a c then Some 0%nat else None
      end
  end.

(** [sep.join(l)] *)
Fixpoint join (sep : string) (l : list string) : string :=
  match l with
  | [] => EmptyString
  | [x] => x
  | x :: rest => x +:+ sep +:+ join sep rest
  end.

End PyStr.

(** ** [datetime.strptime] and [strftime] for the formats the agents use *)

Module Datetime.

Record date := mkdate { year : Z; month : Z; day : Z }.

Definition is_leap (y : Z) : bool :=
  (y mod 4 =? 0) && (negb (y mod 100 =? 0) || (y mod 400 =? 0)).

Definition days_in_month (y m : Z) : Z :=
  if m =? 2 then (if is_leap y then 29 else 28)
  else if (m =? 4) || (m =? 6) || (m =? 9) || (m =? 11) then 30
  else 31.

(** The check made by the [date] constructor ([MINYEAR = 1],
    [MAXYEAR = 9999]). *)
Definition valid_date (d : date) : bool :=
  (1 <=? year d) && (year d <=? 9999) &&
  (1 <=? month d) && (month d <=? 12) &&
  (1 <=? day d) && (day d <=? days_in_month (year d) (month d)).

(** Format directives. [strptime] turns a format into a regular
    expression, one group per directive; a run of white space in the
    format becomes [\s+] and any other character stands for itself. *)
Inductive directive :=
| DY          (* %Y  \d\d\d\d *)
| Dm          (* %m  1[0-2]|0[1-9]|[1-9] *)
| Dd          (* %d  3[0-1]|[1-2]\d|0[1-9]|[1-9]| [1-9] *)
| Dy          (* %y  \d\d *)
| Db          (* %b  abbreviated month name *)
| DB          (* %B  full month name *)
| DSpace      (* \s+ *)
| DLit (c : ascii).

Fixpoint compile (fmt : string) : list directive :=
  match fmt with
  | EmptyString => []
  | String "%" (String "Y" r) => DY :: compile r
  | String "%" (String "m" r) => Dm :: compile r
  | String "%" (String "d" r) => Dd :: compile r
  | String "%" (String "y" r) => Dy :: compile r
  | String "%" (String "b" r) => Db :: compile r
  | String "%" (String "B" r) => DB :: compile r
  | String c r =>
      if PyStr.isspace c then
        match compile r with
        | DSpace :: ds => DSpace :: ds
        | ds => DSpace :: ds
        end
      else DLit c :: compile r
  end.

(** What the groups matched so far; the defaults are those of
    [strptime] (1900-01-01). *)
Record found := mkfound { fY : Z; fm : Z; fd : Z }.
Definition found0 : found := mkfound 1900 1 1.

Definition month_abbr : list (string * Z) :=
  [("jan", 1); ("feb", 2); ("mar", 3); ("apr", 4); ("may", 5); ("jun", 6);
   ("jul", 7); ("aug", 8); ("sep", 9); ("oct", 10); ("nov", 11); ("dec", 12)].

(** Alternatives are sorted by decreasing length, as [_strptime] does. *)
Definition month_name : list (string * Z) :=
  [("september", 9); ("february", 2); ("november", 11); ("december", 12);
   ("january", 1); ("october", 10); ("august", 8); ("march", 3);
   ("april", 4); ("june", 6); ("july", 7); ("may", 5)].

Definition in_range (lo hi : Z) (c : ascii) : option Z :=
  match PyStr.digit_val c with
  | Some v => if (lo <=? v) && (v <=? hi) then Some v else None
  | None => None
  end.

(** One digit in [lo..hi] at the head of [s]. *)
Definition digit1 (lo hi : Z) (s : string) : list (Z * string) :=
  match s with
  | String c r =>
      match in_range lo hi c with Some v => [(v, r)] | None => [] end
  | EmptyString => []
  end.

(** Two digits, the first in [lo1..hi1], the second in [lo2..hi2]. *)
Definition digit2 (lo1 hi1 lo2 hi2 : Z) (s : string) : list (Z * string) :=
  '(a, r) ← digit1 lo1 hi1 s;
  '(b, r') ← digit1 lo2 hi2 r;
  [(10 * a + b, r')].

Definition names (tbl : list (string * Z)) (s : string) : list (Z * string) :=
  '(n, v) ← tbl;
  if PyStr.startswith n (PyStr.lower s)
  then [(v, PyStr.drop (String.length n) s)] else [].

(** [\s+] is greedy: the longest run first, then shorter ones. *)
Fixpoint spaces (s : string) : list string :=
  match s with
  | String c r => if PyStr.isspace c then spaces r ++ [r] else []
  | EmptyString => []
  end.

(** The ways one directive can match a prefix of [s], in the order the
    regular-expression engine tries them. *)
Definition alternatives (d : directive) (f : found) (s : string)
  : list (found * string) :=
  match d with
  | DY =>
      '(a, r) ← digit2 0 9 0 9 s;
      '(b, r') ← digit2 0 9 0 9 r;
      [(mkfound (100 * a + b) (fm f) (fd f), r')]
  | Dm =>
      '(v, r) ← digit2 1 1 0 2 s ++ digit2 0 0 1 9 s ++ digit1 1 9 s;
      [(mkfound (fY f) v (fd f), r)]
  | Dd =>
      '(v, r) ← digit2 3 3 0 1 s ++ digit2 1 2 0 9 s ++ digit2 0 0 1 9 s
                 ++ digit1 1 9 s
                 ++ match s with
                    | String " " r => digit1 1 9 r
                    | _ => []
                    end;
      [(mkfound (fY f) (fm f) v, r)]
  | Dy =>
      '(v, r) ← digit2 0 9 0 9 s;
      [(mkfound (if v <=? 68 then 2000 + v else 1900 + v) (fm f) (fd f), r)]
  | Db => '(v, r) ← names month_abbr s; [(mkfound (fY f) v (fd f), r)]
  | DB => '(v, r) ← names month_name s; [(mkfound (fY f) v (fd f), r)]
  | DSpace => r ← spaces s; [(f, r)]
  | DLit c =>
      match s with
      | String a r =>
          if Ascii.eqb (PyStr.lower_char a) (PyStr.lower_char c)
          then [(f, r)] else []
      | EmptyString => []
      end
  end.

(** All matches of a directive list against a prefix of [s], in
    backtracking order; the head is the match [re.match] reports. *)
Fixpoint matches (ds : list directive) (f : found) (s : string)
  : list (found * string) :=
  match ds with
  | [] => [(f, s)]
  | d :: ds' => '(f', r) ← alternatives d f s; matches ds' f' r
  end.

(** [datetime.strptime(s, fmt)]; [None] stands for [ValueError] (no
    match, unconverted data, or a day that is out of range). *)
Definition strptime (s fmt : string) : option date :=
  match matches (compile fmt) found0 s with
  | (f, EmptyString) :: _ =>
      let d := mkdate (fY f) (fm f) (fd f) in
      if valid_date d then Some d else None
  | _ => None
  end.

Definition digit_char (v : Z) : ascii := ascii_of_N (Z.to_N (48 + v mod 10)).

Definition pad2 (v : Z) : string :=
  String (digit_char (v / 10)) (String (digit_char v) EmptyString).

Definition pad4 (v : Z) : string := pad2 (v / 100) +:+ pad2 v.

(** [%Y] as the C library writes it on Linux, where CPython hands
    [strftime] to glibc: the year in decimal without padding, so that a
    year below 1000 has fewer than four digits ([date(999, 1,
    1).strftime('%Y')] is ['999']). Years are those a [date] can have,
    1 to 9999. *)
Definition year_digits (y : Z) : string :=
  if y <? 10 then String (digit_char y) EmptyString
  else if y <? 100 then pad2 y
  else if y <? 1000 then String (digit_char (y / 100)) (pad2 y)
  else pad4 y.

(** [d.strftime('%Y-%m-%d')] *)
Definition strftime_Ymd (d : date) : string :=
  year_digits (year d) +:+ "-" +:+ pad2 (month d) +:+ "-" +:+ pad2 (day d).

(** The shape [dddd-dd-dd]. *)
Definition is_Ymd (s : string) : bool :=
  match s with
  | String y1 (String y2 (String y3 (String y4 (String "-"
      (String m1 (String m2 (String "-"
        (String d1 (String d2 EmptyString))))))))) =>
      forallb PyStr.isdigit [y1; y2; y3; y4; m1; m2; d1; d2]
  | _ => false
  end.

(** The first format of [fmts] under which [s] parses. *)
Fixpoint first_format (fmts : list string) (s : string) : option date :=
  match fmts with
  | [] => None
  | fmt :: rest =>
      match strptime s fmt with
      | Some d => Some d
      | None => first_format rest s
      end
  end.

End Datetime.

(** ** Document types ([app/schemas/claim.py]) *)

Inductive DocumentType :=
| BILL | DISCHARGE_SUMMARY | ID_CARD | PRESCRIPTION | LAB_REPORT | UNKNOWN.

#[global] Instance DocumentType_eq_dec : EqDecision DocumentType.
Proof. solve_decision. Defined.

(** The [str] value of each member of the enumeration. *)
Definition DocumentType_value (t : DocumentType) : string :=
  match t with
  | BILL => "bill"
  | DISCHARGE_SUMMARY => "discharge_summary"
  | ID_CARD => "id_card"
  | PRESCRIPTION => "prescription"
  | LAB_REPORT => "lab_report"
  | UNKNOWN => "unknown"
  end.

(** The name of each member ([doc_type.name]). *)
Definition DocumentType_name (t : DocumentType) : string :=
  match t with
  | BILL => "BILL"
  | DISCHARGE_SUMMARY => "DISCHARGE_SUMMARY"
  | ID_CARD => "ID_CARD"
  | PRESCRIPTION => "PRESCRIPTION"
  | LAB_REPORT => "LAB_REPORT"
  | UNKNOWN => "UNKNOWN"
  end.

(** ** Python values held in the extraction dictionaries *)

#[local] Unset Elimination Schemes.
Inductive PyVal :=
| VNone
| VBool (b : bool)
| VInt (z : Z)
| VFloat (f : float)
| VStr (s : string)
| VDate (d : Datetime.date)
| VDocType (t : DocumentType)
| VList (l : list PyVal)
| VDict (m : gmap string PyVal).
#[local] Set Elimination Schemes.

Abbreviation PyDict := (gmap string PyVal).

(** [d.update(e)]: the entries of [e] are written over those of [d]. *)
Definition dict_update (d e : PyDict) : PyDict := e ∪ d.

(** [all(k in d for k in keys)] *)
Definition all_in (keys : list string) (d : PyDict) : bool :=
  forallb (fun k => bool_decide (is_Some (d !! k))) keys.

(** [[f for f in keys if f not in d]] *)
Definition missing_in (keys : list string) (d : PyDict) : list string :=
  List.filter (fun k => negb (bool_decide (is_Some (d !! k)))) keys.

(** ** Exceptions and effects *)

Inductive ExnKind :=
| ValueError | TypeError | AttributeError | ValidationError | AgentError
| JSONDecodeError | OSError | BackendError.

(** An exception instance; [exn_msg] is what [str(e)] returns. *)
Record Exn := mkExn { exn_kind : ExnKind; exn_msg : string }.

(** The result of a call that may raise. *)
Definition Result (A : Type) : Type := Exn + A.

Definition Ok {A} (x : A) : Result A := inr x.
Definition Raise {A} (k : ExnKind) (msg : string) : Result A := inl (mkExn k msg).

#[global] Instance Result_ret : MRet Result := fun A x => inr x.
#[global] Instance Result_bind : MBind Result := fun A B f m =>
  match m with
  | inl e => inl e
  | inr x => f x
  end.

(** The prompts handed to the text-intelligence backend so far. *)
Definition Log : Type := list string.

(** Code that may raise and may call the backend. *)
Definition M (A : Type) : Type := Log -> Result A * Log.

#[global] Instance M_ret : MRet M := fun A x log => (inr x, log).
#[global] Instance M_bind : MBind M := fun A B f m log =>
  match m log with
  | (inl e, log') => (inl e, log')
  | (inr x, log') => f x log'
  end.

(** A call that raises or returns without touching the backend. *)
Definition lift {A} (r : Result A) : M A := fun log => (r, log).

Definition raise {A} (k : ExnKind) (msg : string) : M A := lift (Raise k msg).

(** [try: body except Exception as e: handler(e)] *)
Definition try_except {A} (body : M A) (handler : Exn -> M A) : M A :=
  fun log =>
    match body log with
    | (inl e, log') => handler e log'
    | (inr x, log') => (inr x, log')
    end.

(** [await asyncio.gather] over the tasks [f x]. Each task here issues
    its backend call before it first suspends, so the calls leave in
    list order and the results come back in list order. *)
Fixpoint gather {A B} (f : A -> M B) (xs : list A) : M (list B) :=
  match xs with
  | [] => mret []
  | x :: rest => y ← f x; ys ← gather f rest; mret (y :: ys)
  end.

(** ** The world outside the pipeline *)

Inductive AgentName := Bill | Discharge | IdCard | Prescription | LabReport.

#[global] Instance AgentName_eq_dec : EqDecision AgentName.
Proof. solve_decision. Defined.

(** The name of each agent's class, as it appears in error messages. *)
Definition class_name (a : AgentName) : string :=
  match a with
  | Bill => "BillAgent"
  | Discharge => "DischargeAgent"
  | IdCard => "IdCardAgent"
  | Prescription => "PrescriptionAgent"
  | LabReport => "LabReportAgent"
  end.

Record World := {
  (** [BaseAgent._extract_text]: the text of a file (PDF text layer or
      plain text), [AgentError] when it cannot be read. *)
  _extract_text : string -> Result string;
  (** [model.generate_content_async]: the backend's answer to a prompt,
      given the prompts it was sent before. *)
  generate_content : Log -> string -> Result string;
  (** [json.loads] *)
  json_loads : string -> Result PyVal;
  (** [datetime.now()], as a calendar date. *)
  today : Datetime.date;
  (** [file_path.stat().st_size] *)
  st_size : string -> Result Z;
  (** [file_path.exists()] and reading a file as text. *)
  path_exists : string -> bool;
  read_text : string -> Result string;
  (** [BillAgent._extract_text_from_pdf] (PyMuPDF and Tesseract). *)
  _extract_text_from_pdf : string -> Result string;
  (** The deterministic pass of each agent, [_extract_with_regex], on a
      [str]: a battery of regular expressions over the text. *)
  _extract_with_regex : AgentName -> string -> Result PyDict;
  (** [_create_classification_prompt(filename, text)] and each agent's
      [_create_extraction_prompt(text)]: fixed templates around the text. *)
  _create_classification_prompt : string -> string -> string;
  _create_extraction_prompt : AgentName -> string -> string;
  (** The order in which the set [{BILL, ID_CARD}] is iterated
      ([true]: [BILL] first). *)
  bill_first : bool
}.

(** [BaseAgent._call_llm]: hand the prompt to the backend and return its
    text; an exception of the backend is logged and raised again. Only
    the classifier, which derives from [BaseAgent], has this method. *)
Definition _call_llm (w : World) (prompt : string) : M string :=
  fun log => (generate_content w log prompt, log ++ [prompt]).

(** [obj.name] for a method the class of [obj] does not have. *)
Definition no_attribute {A} (cls name : string) : Result A :=
  Raise AttributeError ("'" +:+ cls +:+ "' object has no attribute '" +:+ name +:+ "'").

(** [self._call_llm(prompt, ...)] in an extraction agent. The agents
    derive from [BaseExtractionAgent] alone, and neither it nor they
    define [_call_llm]: looking the method up raises [AttributeError]
    before anything is handed to the backend. *)
Definition agent_call_llm (a : AgentName) (prompt : string) : M string :=
  lift (no_attribute (class_name a) "_call_llm").

(** [Path(p).name]: the part of the path after the last separator. *)
Definition path_name (p : string) : string :=
  match PyStr.rfind "/" p with
  | Some i => PyStr.drop (S i) p
  | None => p
  end.

(** What [process] and [extract] of an agent are handed as [text]: a
    [str], or a [pathlib.Path] (here by its text) as the claim processor
    does. *)
Inductive TextArg := TStr (s : string) | TPath (p : string).

(** [str(text)] *)
Definition str_of (text : TextArg) : string :=
  match text with TStr s => s | TPath p => p end.

(** The truth value of [text]: a [str] is false when empty, a [Path]
    is always true. *)
Definition truthy (text : TextArg) : bool :=
  match text with TStr s => negb (String.eqb s "") | TPath _ => true end.

(** What a string operation raises when it is given a [Path]:
    [re.findall(pattern, text)] and [re.search], [text[:n]],
    [text.lower()]. *)
Definition re_on_path {A} : Result A :=
  Raise TypeError "expected string or bytes-like object, got 'PosixPath'".
Definition slice_on_path {A} : Result A :=
  Raise TypeError "'PosixPath' object is not subscriptable".
Definition lower_on_path {A} : Result A :=
  Raise AttributeError "'PosixPath' object has no attribute 'lower'".
Definition in_on_path {A} : Result A :=
  Raise TypeError "argument of type 'PosixPath' is not iterable".

(** ** The classifier ([app/services/agents/classifier_agent.py]) *)

Module ClassifierAgent.

Definition type_mapping : gmap string DocumentType :=
  list_to_map
    [("bill", BILL);
     ("discharge", DISCHARGE_SUMMARY);
     ("discharge summary", DISCHARGE_SUMMARY);
     ("discharge_summary", DISCHARGE_SUMMARY);
     ("id", ID_CARD);
     ("id card", ID_CARD);
     ("id_card", ID_CARD);
     ("insurance card", ID_CARD);
     ("prescription", PRESCRIPTION);
     ("lab", LAB_REPORT);
     ("lab report", LAB_REPORT);
     ("lab_report", LAB_REPORT);
     ("test results", LAB_REPORT)].

Definition _parse_classification_response (response : string) : DocumentType :=
  let doc_type := PyStr.lower (PyStr.strip response) in
  default UNKNOWN (type_mapping !! doc_type).

Definition classify_document (w : World) (file_path : string) : M DocumentType :=
  try_except
    (text ← lift (_extract_text w file_path);
     let prompt :=
       _create_classification_prompt w (path_name file_path) (PyStr.take 2000 text) in
     response ← _call_llm w prompt;
     mret (_parse_classification_response response))
    (fun _ => mret UNKNOWN).

End ClassifierAgent.

(** ** The document models ([app/schemas/claim.py])

    Each model is a record; [validate] is what calling the model on the
    entries of a dictionary does (a missing required field or a value the
    field does not accept raises [ValidationError], entries the model
    does not declare are ignored) and [dict] is the model's [.dict()].
    The embedding accepts a value of the type the field declares, an
    [int] or a [bool] for a float field and an ISO [YYYY-MM-DD] string
    for a date field, which covers the values the agents' passes produce
    ([float] amounts, [str] names and dates, lists); further coercions
    of pydantic's lax mode (a numeric string for a float field, a
    timestamp for a date field) are outside it. *)

Module Pydantic.

(** The correctly rounded [float] of an integer. *)
Definition float_of_Z (z : Z) : float :=
  SF2Prim (SpecFloat.binary_normalize prec emax z 0 false).

Definition date_fromisoformat (s : string) : option Datetime.date :=
  if Datetime.is_Ymd s then Datetime.strptime s "%Y-%m-%d" else None.

Definition as_str (v : PyVal) : option string :=
  match v with VStr s => Some s | _ => None end.

(** A float field: a [float] as it is, a [bool] as 1.0 or 0.0, an [int]
    as its nearest float unless it is too large to have one. *)
Definition as_float (v : PyVal) : option float :=
  match v with
  | VFloat f => Some f
  | VBool b => Some (if b then 1%float else 0%float)
  | VInt z =>
      let f := float_of_Z z in
      if PrimFloat.is_infinity f then None else Some f
  | _ => None
  end.

(** [Field(..., gt=0)] *)
Definition as_float_gt0 (v : PyVal) : option float :=
  f ← as_float v; if PrimFloat.ltb 0 f then Some f else None.

Definition as_date (v : PyVal) : option Datetime.date :=
  match v with
  | VDate d => Some d
  | VStr s => date_fromisoformat s
  | _ => None
  end.

Definition as_dict (v : PyVal) : option PyDict :=
  match v with VDict m => Some m | _ => None end.

Definition as_list {T} (f : PyVal -> option T) (v : PyVal) : option (list T) :=
  match v with VList l => mapM f l | _ => None end.

(** [Optional[T]] *)
Definition as_opt {T} (f : PyVal -> option T) (v : PyVal) : option (option T) :=
  match v with VNone => Some None | _ => Some <$> f v end.

(** [Literal[DocumentType.X]]: the member itself or its [str] value. *)
Definition as_literal (t : DocumentType) (v : PyVal) : option unit :=
  match v with
  | VDocType t' => if decide (t' = t) then Some () else None
  | VStr s => if String.eqb s (DocumentType_value t) then Some () else None
  | _ => None
  end.

Definition invalid {T} (k : string) : Result T :=
  Raise ValidationError (k +:+ ": Input is not valid").

(** A field declared with [Field(...)]. *)
Definition required {T} (d : PyDict) (k : string) (f : PyVal -> option T)
  : Result T :=
  match d !! k with
  | None => Raise ValidationError (k +:+ ": Field required")
  | Some v => match f v with Some x => Ok x | None => invalid k end
  end.

(** A field declared with a default. *)
Definition defaulted {T} (d : PyDict) (k : string) (f : PyVal -> option T)
    (dflt : T) : Result T :=
  match d !! k with
  | None => Ok dflt
  | Some v => match f v with Some x => Ok x | None => invalid k end
  end.

Definition of_opt {T} (f : T -> PyVal) (o : option T) : PyVal :=
  match o with Some x => f x | None => VNone end.

Definition of_list {T} (f : T -> PyVal) (l : list T) : PyVal := VList (f <$> l).

End Pydantic.

Module BillDocument.
Import Pydantic.

Record t := mk {
  hospital_name : option string;
  total_amount : float;
  date_of_service : Datetime.date;
  patient_name : option string;
  patient_id : option string;
  items : option (list PyDict);
  diagnosis_codes : option (list string);
  procedure_codes : option (list string)
}.

Definition validate (d : PyDict) : Result t :=
  _ ← defaulted d "type" (as_literal BILL) ();
  hospital_name ← required d "hospital_name" (as_opt as_str);
  total_amount ← required d "total_amount" as_float_gt0;
  date_of_service ← required d "date_of_service" as_date;
  patient_name ← defaulted d "patient_name" (as_opt as_str) None;
  patient_id ← defaulted d "patient_id" (as_opt as_str) None;
  items ← defaulted d "items" (as_opt (as_list as_dict)) (Some []);
  diagnosis_codes ← defaulted d "diagnosis_codes" (as_opt (as_list as_str)) (Some []);
  procedure_codes ← defaulted d "procedure_codes" (as_opt (as_list as_str)) (Some []);
  Ok (mk hospital_name total_amount date_of_service patient_name patient_id
         items diagnosis_codes procedure_codes).

Definition dict (b : t) : PyDict :=
  list_to_map
    [("type", VDocType BILL);
     ("hospital_name", of_opt VStr (hospital_name b));
     ("total_amount", VFloat (total_amount b));
     ("date_of_service", VDate (date_of_service b));
     ("patient_name", of_opt VStr (patient_name b));
     ("patient_id", of_opt VStr (patient_id b));
     ("items", of_opt (of_list VDict) (items b));
     ("diagnosis_codes", of_opt (of_list VStr) (diagnosis_codes b));
     ("procedure_codes", of_opt (of_list VStr) (procedure_codes b))].
End BillDocument.

Module DischargeSummaryDocument.
Import Pydantic.

Record t := mk {
  patient_name : string;
  patient_id : option string;
  admission_date : Datetime.date;
  discharge_date : Datetime.date;
  diagnosis : string;
  secondary_diagnoses : option (list string);
  procedures : option (list string);
  discharge_instructions : option string
}.

Definition validate (d : PyDict) : Result t :=
  _ ← defaulted d "type" (as_literal DISCHARGE_SUMMARY) ();
  patient_name ← required d "patient_name" as_str;
  patient_id ← defaulted d "patient_id" (as_opt as_str) None;
  admission_date ← required d "admission_date" as_date;
  discharge_date ← required d "discharge_date" as_date;
  diagnosis ← required d "diagnosis" as_str;
  secondary_diagnoses ← defaulted d "secondary_diagnoses" (as_opt (as_list as_str)) (Some []);
  procedures ← defaulted d "procedures" (as_opt (as_list as_str)) (Some []);
  discharge_instructions ← defaulted d "discharge_instructions" (as_opt as_str) None;
  Ok (mk patient_name patient_id admission_date discharge_date diagnosis
         secondary_diagnoses procedures discharge_instructions).

Definition dict (x : t) : PyDict :=
  list_to_map
    [("type", VDocType DISCHARGE_SUMMARY);
     ("patient_name", VStr (patient_name x));
     ("patient_id", of_opt VStr (patient_id x));
     ("admission_date", VDate (admission_date x));
     ("discharge_date", VDate (discharge_date x));
     ("diagnosis", VStr (diagnosis x));
     ("secondary_diagnoses", of_opt (of_list VStr) (secondary_diagnoses x));
     ("procedures", of_opt (of_list VStr) (procedures x));
     ("discharge_instructions", of_opt VStr (discharge_instructions x))].
End DischargeSummaryDocument.

Module IdCardDocument.
Import Pydantic.

Record t := mk {
  insurance_provider : string;
  policy_number : string;
  group_number : option string;
  member_id : string;
  member_name : string;
  relationship : option string;
  effective_date : option Datetime.date;
  expiration_date : option Datetime.date
}.

Definition validate (d : PyDict) : Result t :=
  _ ← defaulted d "type" (as_literal ID_CARD) ();
  insurance_provider ← required d "insurance_provider" as_str;
  policy_number ← required d "policy_number" as_str;
  group_number ← defaulted d "group_number" (as_opt as_str) None;
  member_id ← required d "member_id" as_str;
  member_name ← required d "member_name" as_str;
  relationship ← defaulted d "relationship" (as_opt as_str) (Some "self");
  effective_date ← defaulted d "effective_date" (as_opt as_date) None;
  expiration_date ← defaulted d "expiration_date" (as_opt as_date) None;
  Ok (mk insurance_provider policy_number group_number member_id member_name
         relationship effective_date expiration_date).

Definition dict (x : t) : PyDict :=
  list_to_map
    [("type", VDocType ID_CARD);
     ("insurance_provider", VStr (insurance_provider x));
     ("policy_number", VStr (policy_number x));
     ("group_number", of_opt VStr (group_number x));
     ("member_id", VStr (member_id x));
     ("member_name", VStr (member_name x));
     ("relationship", of_opt VStr (relationship x));
     ("effective_date", of_opt VDate (effective_date x));
     ("expiration_date", of_opt VDate (expiration_date x))].
End IdCardDocument.

Module PrescriptionDocument.
Import Pydantic.

Record t := mk {
  patient_name : string;
  date_prescribed : Datetime.date;
  medications : list PyDict;
  prescriber_name : option string;
  prescriber_license : option string;
  instructions : option string
}.

Definition validate (d : PyDict) : Result t :=
  _ ← defaulted d "type" (as_literal PRESCRIPTION) ();
  patient_name ← required d "patient_name" as_str;
  date_prescribed ← required d "date_prescribed" as_date;
  medications ← required d "medications" (as_list as_dict);
  prescriber_name ← defaulted d "prescriber_name" (as_opt as_str) None;
  prescriber_license ← defaulted d "prescriber_license" (as_opt as_str) None;
  instructions ← defaulted d "instructions" (as_opt as_str) None;
  Ok (mk patient_name date_prescribed medications prescriber_name
         prescriber_license instructions).

Definition dict (x : t) : PyDict :=
  list_to_map
    [("type", VDocType PRESCRIPTION);
     ("patient_name", VStr (patient_name x));
     ("date_prescribed", VDate (date_prescribed x));
     ("medications", of_list VDict (medications x));
     ("prescriber_name", of_opt VStr (prescriber_name x));
     ("prescriber_license", of_opt VStr (prescriber_license x));
     ("instructions", of_opt VStr (instructions x))].
End PrescriptionDocument.

Module LabReportDocument.
Import Pydantic.

Record t := mk {
  patient_name : string;
  patient_id : option string;
  date_collected : Datetime.date;
  date_reported : Datetime.date;
  test_results : list PyDict;
  lab_name : option string;
  ordering_physician : option string
}.

Definition validate (d : PyDict) : Result t :=
  _ ← defaulted d "type" (as_literal LAB_REPORT) ();
  patient_name ← required d "patient_name" as_str;
  patient_id ← defaulted d "patient_id" (as_opt as_str) None;
  date_collected ← required d "date_collected" as_date;
  date_reported ← required d "date_reported" as_date;
  test_results ← required d "test_results" (as_list as_dict);
  lab_name ← defaulted d "lab_name" (as_opt as_str) None;
  ordering_physician ← defaulted d "ordering_physician" (as_opt as_str) None;
  Ok (mk patient_name patient_id date_collected date_reported test_results
         lab_name ordering_physician).

Definition dict (x : t) : PyDict :=
  list_to_map
    [("type", VDocType LAB_REPORT);
     ("patient_name", VStr (patient_name x));
     ("patient_id", of_opt VStr (patient_id x));
     ("date_collected", VDate (date_collected x));
     ("date_reported", VDate (date_reported x));
     ("test_results", of_list VDict (test_results x));
     ("lab_name", of_opt VStr (lab_name x));
     ("ordering_physician", of_opt VStr (ordering_physician x))].
End LabReportDocument.

(** An instance of one of the five models. *)
Inductive Document :=
| DBill (x : BillDocument.t)
| DDischarge (x : DischargeSummaryDocument.t)
| DIdCard (x : IdCardDocument.t)
| DPrescription (x : PrescriptionDocument.t)
| DLabReport (x : LabReportDocument.t).

(** The [type] field of a model instance (a literal fixed by the model). *)
Definition Document_type (x : Document) : DocumentType :=
  match x with
  | DBill _ => BILL
  | DDischarge _ => DISCHARGE_SUMMARY
  | DIdCard _ => ID_CARD
  | DPrescription _ => PRESCRIPTION
  | DLabReport _ => LAB_REPORT
  end.

(** [x.dict()] *)
Definition Document_dict (x : Document) : PyDict :=
  match x with
  | DBill b => BillDocument.dict b
  | DDischarge s => DischargeSummaryDocument.dict s
  | DIdCard c => IdCardDocument.dict c
  | DPrescription p => PrescriptionDocument.dict p
  | DLabReport r => LabReportDocument.dict r
  end.

(** [ClaimDocument]: the union of the five models. The processor reads
    [type], [patient_name] and [total_amount] off a claim document
    (behind [hasattr] for the last two); the embedding resolves these
    reads on the model instance the union holds. *)
Module ClaimDocument.

(** [ClaimDocument] is a pydantic [RootModel]: an instance wraps one
    model instance in its single field [root]. *)
Record t := mk { root : Document }.

(** [ClaimDocument.parse_obj]: validation against the union of the five
    models. Pydantic resolves a union in its smart mode; on a dictionary
    that carries a [type] entry the [type] literal lets at most one
    member accept it, so the result is that member's whatever the mode,
    and every dictionary the processor passes carries one. The members
    are tried here in the order of declaration. *)
Definition parse_obj (d : PyDict) : Result t :=
  match BillDocument.validate d with
  | inr x => Ok (mk (DBill x))
  | inl _ =>
  match DischargeSummaryDocument.validate d with
  | inr x => Ok (mk (DDischarge x))
  | inl _ =>
  match IdCardDocument.validate d with
  | inr x => Ok (mk (DIdCard x))
  | inl _ =>
  match PrescriptionDocument.validate d with
  | inr x => Ok (mk (DPrescription x))
  | inl _ =>
  match LabReportDocument.validate d with
  | inr x => Ok (mk (DLabReport x))
  | inl _ => Raise ValidationError "validation errors for ClaimDocument"
  end end end end end.

(** [getattr(doc, name)] for a data attribute. A [RootModel] does not
    forward attribute reads to the model it wraps: the one field of a
    [ClaimDocument] is [root] (given here by the fields of the wrapped
    model), and reading any other name, [type], [patient_name] and
    [total_amount] included, raises [AttributeError]. *)
Definition getattr (doc : t) (name : string) : Result PyVal :=
  if String.eqb name "root" then Ok (VDict (Document_dict (root doc)))
  else no_attribute "ClaimDocument" name.

(** [hasattr(doc, name)]: whether [getattr] returns. *)
Definition hasattr (doc : t) (name : string) : bool :=
  match getattr doc name with inr _ => true | inl _ => false end.

End ClaimDocument.

(** ** The extraction agents ([app/services/agents/]) *)

(** [BaseExtractionAgent]: an agent supplies [extract] and names its
    output model; [validate] and [process] are inherited. *)
Record BaseExtractionAgent := {
  extract : World -> TextArg -> option string -> M PyDict;
  output_model : PyDict -> Result Document
}.

(** [validate]: build the output model; a [ValidationError] is logged
    and raised again. *)
Definition validate (a : BaseExtractionAgent) (data : PyDict) : Result Document :=
  output_model a data.

Definition process (a : BaseExtractionAgent) (w : World) (text : TextArg)
    (file_path : option string) : M Document :=
  extracted_data ← extract a w text file_path;
  lift (validate a extracted_data).

(** [response[json_start:json_end]] with [json_start = response.find('{')]
    and [json_end = response.rfind('}') + 1], shared by the response
    parsers; [None] stands for [-1] and for [0] respectively. *)
Definition json_start (response : string) : option nat := PyStr.find "{" response.
Definition json_end (response : string) : option nat := S <$> PyStr.rfind "}" response.
Definition slice (a b : nat) (s : string) : string := PyStr.take (b - a) (PyStr.drop a s).

(** The deterministic pass on the argument of [extract]. The pass is
    written for a [str]; handed a [Path], its first string operation
    raises: [text.lower()] in the ID card agent, the membership test
    ['HOSPITAL BILL' in text] in the bill agent, [re.findall] in the
    other three. *)
Definition extract_with_regex (w : World) (a : AgentName) (text : TextArg)
  : Result PyDict :=
  match text with
  | TStr s => _extract_with_regex w a s
  | TPath _ =>
      match a with
      | IdCard => lower_on_path
      | Bill => in_on_path
      | _ => re_on_path
      end
  end.

(** [_extract_with_llm] up to the call of the backend: the prompt is
    built from [text[:4000]], then [self._call_llm] is looked up. *)
Definition call_llm_for (w : World) (a : AgentName) (text : TextArg) : M string :=
  match text with
  | TStr s =>
      let prompt := _create_extraction_prompt w a (PyStr.take 4000 s) in
      agent_call_llm a prompt
  | TPath _ => lift slice_on_path
  end.

Module BillAgent.

Definition date_formats : list string :=
  ["%Y-%m-%d"; "%m/%d/%Y"; "%m-%d-%Y"; "%d/%m/%Y"; "%d-%m-%Y"].

Definition _parse_date (date_str : string) : string :=
  if String.eqb date_str "" then ""
  else
    let date_str := PyStr.strip date_str in
    match Datetime.first_format date_formats date_str with
    | Some dt => Datetime.strftime_Ymd dt
    | None => date_str
    end.

Definition _parse_llm_response (w : World) (response : string) : Result PyDict :=
  match json_start response, json_end response with
  | Some js, Some je =>
      if (js <? je)%nat then
        match json_loads w (slice js je response) with
        | inr (VDict data) =>
            match data !! "date_of_service" with
            | Some (VStr s) =>
                let parsed_date := _parse_date s in
                if String.eqb parsed_date "" then Ok data
                else Ok (<["date_of_service" := VStr parsed_date]> data)
            | _ => Ok data
            end
        | inr _ => Raise TypeError "JSON object expected"
        | inl e =>
            match exn_kind e with
            | JSONDecodeError => Ok ∅
            | _ => inl e
            end
        end
      else Ok ∅
  | _, _ => Ok ∅
  end.

Definition _extract_with_llm (w : World) (text : TextArg) : M PyDict :=
  response ← call_llm_for w Bill text;
  lift (_parse_llm_response w response).

Definition required_fields : list string := ["total_amount"; "date_of_service"].

Definition extract (w : World) (text : TextArg) (file_path : option string)
  : M PyDict :=
  try_except
    (text ←
       (if PyStr.endswith (str_of text) ".pdf" then
          s ← lift (_extract_text_from_pdf w (str_of text)); mret (TStr s)
        else match file_path with
             | Some p =>
                 if PyStr.endswith p ".pdf" then
                   s ← lift (_extract_text_from_pdf w p); mret (TStr s)
                 else mret text
             | None => mret text
             end);
     text ←
       (match file_path with
        | Some p =>
            if negb (truthy text) && path_exists w p then
              s ← lift (read_text w p); mret (TStr s)
            else mret text
        | None => mret text
        end);
     if negb (truthy text) then
       raise ValueError "No text content found in the document"
     else
       (* the log line that follows takes [text[:500]] *)
       match text with
       | TPath _ => lift slice_on_path
       | TStr _ =>
           extracted ← lift (extract_with_regex w Bill text);
           extracted ←
             (if negb (all_in required_fields extracted) then
                llm_data ← _extract_with_llm w text;
                mret (dict_update extracted llm_data)
              else mret extracted);
           if negb (all_in required_fields extracted) then
             raise ValueError "Missing required fields in bill data"
           else mret extracted
       end)
    (fun e => lift (inl e)).

Definition agent : BaseExtractionAgent :=
  Build_BaseExtractionAgent extract
    (fun d => x ← BillDocument.validate d; Ok (DBill x)).

End BillAgent.

(** The date helper of the ID card, prescription and lab report agents:
    the first format that parses, written back by
    [strftime('%Y-%m-%d')], and [None] when the string is empty or no
    format parses. *)
Definition parse_date_formats (date_formats : list string) (date_str : string)
  : option string :=
  if String.eqb date_str "" then None
  else Datetime.strftime_Ymd <$> Datetime.first_format date_formats (PyStr.strip date_str).

(** The common body of [_extract_with_llm] of these three agents: after
    the backend call the response goes to [self._parse_llm_response],
    which these agents do not define either. *)
Definition extract_with_llm (w : World) (a : AgentName) (text : TextArg) : M PyDict :=
  response ← call_llm_for w a text;
  lift (no_attribute (class_name a) "_parse_llm_response").

Definition missing_fields_error {A} (what : string) (required_fields : list string)
    (extracted : PyDict) : M A :=
  raise ValueError
    ("Missing required fields in " +:+ what +:+ ": "
       +:+ PyStr.join ", " (missing_in required_fields extracted)).

Module IdCardAgent.

Definition date_formats : list string :=
  ["%Y-%m-%d"; "%m/%d/%Y"; "%m-%d-%Y"; "%d/%m/%Y"; "%d-%m-%Y";
   "%m/%d/%y"; "%m-%d-%y"; "%Y/%m/%d"; "%b %d, %Y"; "%B %d, %Y"].

Definition _parse_date : string -> option string := parse_date_formats date_formats.

Definition _extract_with_llm (w : World) : TextArg -> M PyDict :=
  extract_with_llm w IdCard.

Definition required_fields : list string :=
  ["insurance_provider"; "policy_number"; "member_id"; "member_name"].

Definition extract (w : World) (text : TextArg) (file_path : option string)
  : M PyDict :=
  try_except
    (extracted ← lift (extract_with_regex w IdCard text);
     llm_data ← _extract_with_llm w text;
     let extracted := dict_update extracted llm_data in
     if negb (all_in required_fields extracted) then
       missing_fields_error "ID card" required_fields extracted
     else mret extracted)
    (fun e => lift (inl e)).

Definition agent : BaseExtractionAgent :=
  Build_BaseExtractionAgent extract
    (fun d => x ← IdCardDocument.validate d; Ok (DIdCard x)).

End IdCardAgent.

Module PrescriptionAgent.

Definition date_formats : list string :=
  ["%Y-%m-%d"; "%m/%d/%Y"; "%m-%d-%Y"; "%d/%m/%Y"; "%d-%m-%Y";
   "%Y/%m/%d"; "%b %d, %Y"; "%B %d, %Y"].

Definition _parse_date : string -> option string := parse_date_formats date_formats.

Definition _extract_with_llm (w : World) : TextArg -> M PyDict :=
  extract_with_llm w Prescription.

Definition required_fields : list string :=
  ["patient_name"; "date_prescribed"; "medications"].

Definition extract (w : World) (text : TextArg) (file_path : option string)
  : M PyDict :=
  try_except
    (extracted ← lift (extract_with_regex w Prescription text);
     llm_data ← _extract_with_llm w text;
     let extracted := dict_update extracted llm_data in
     if negb (all_in required_fields extracted) then
       missing_fields_error "prescription" required_fields extracted
     else mret extracted)
    (fun e => lift (inl e)).

Definition agent : BaseExtractionAgent :=
  Build_BaseExtractionAgent extract
    (fun d => x ← PrescriptionDocument.validate d; Ok (DPrescription x)).

End PrescriptionAgent.

Module LabReportAgent.

Definition date_formats : list string :=
  ["%Y-%m-%d"; "%m/%d/%Y"; "%m-%d-%Y"; "%d/%m/%Y"; "%d-%m-%Y";
   "%Y/%m/%d"; "%b %d, %Y"; "%B %d, %Y";
   "%m/%d/%y"; "%m-%d-%y"; "%d/%m/%y"; "%d-%m-%y"].

Definition _parse_date : string -> option string := parse_date_formats date_formats.

Definition _extract_with_llm (w : World) : TextArg -> M PyDict :=
  extract_with_llm w LabReport.

Definition required_fields : list string :=
  ["patient_name"; "test_results"; "date_collected"].

Definition extract (w : World) (text : TextArg) (file_path : option string)
  : M PyDict :=
  try_except
    (extracted ← lift (extract_with_regex w LabReport text);
     llm_data ← _extract_with_llm w text;
     let extracted := dict_update extracted llm_data in
     if negb (all_in required_fields extracted) then
       missing_fields_error "lab report" required_fields extracted
     else
       (* Set default reported date if not present *)
       match extracted !! "date_reported" with
       | None =>
           mret (<["date_reported" := VStr (Datetime.strftime_Ymd (today w))]> extracted)
       | Some _ => mret extracted
       end)
    (fun e => lift (inl e)).

Definition agent : BaseExtractionAgent :=
  Build_BaseExtractionAgent extract
    (fun d => x ← LabReportDocument.validate d; Ok (DLabReport x)).

End LabReportAgent.

Module DischargeAgent.

(** The discharge agent accepts the ISO form only and yields a date
    object. *)
Definition _parse_date (date_str : string) : option Datetime.date :=
  if String.eqb date_str "" then None
  else Datetime.strptime date_str "%Y-%m-%d".

Definition fill_missing (data : PyDict) : PyDict :=
  fold_left
    (fun data '(field, dflt) =>
       match data !! field with
       | None => <[field := dflt]> data
       | Some _ => data
       end)
    [("patient_name", VNone); ("diagnosis", VNone);
     ("procedures", VList []); ("medications", VList [])]
    data.

Definition _parse_extraction_response (w : World) (response : string)
  : Result PyDict :=
  match json_start response, json_end response with
  | Some js, Some je =>
      match json_loads w (slice js je response) with
      | inr (VDict data) => Ok (fill_missing data)
      | inr _ =>
          Raise AgentError "Failed to process discharge summary: JSON object expected"
      | inl e =>
          match exn_kind e with
          | JSONDecodeError =>
              Raise AgentError
                "Failed to parse discharge summary information from document"
          | _ =>
              Raise AgentError
                ("Failed to process discharge summary: " +:+ exn_msg e)
          end
      end
  | _, _ =>
      Raise AgentError
        "Failed to process discharge summary: No JSON object found in response"
  end.

Definition _extract_with_llm (w : World) (text : TextArg) : M PyDict :=
  response ← call_llm_for w Discharge text;
  lift (_parse_extraction_response w response).

Definition required_fields : list string :=
  ["patient_name"; "diagnosis"; "admission_date"; "discharge_date"].

Definition extract (w : World) (text : TextArg) (file_path : option string)
  : M PyDict :=
  try_except
    (extracted ← lift (extract_with_regex w Discharge text);
     llm_data ← _extract_with_llm w text;
     let extracted := dict_update extracted llm_data in
     if negb (all_in required_fields extracted) then
       missing_fields_error "discharge summary" required_fields extracted
     else mret extracted)
    (fun e => lift (inl e)).

Definition agent : BaseExtractionAgent :=
  Build_BaseExtractionAgent extract
    (fun d => x ← DischargeSummaryDocument.validate d; Ok (DDischarge x)).

End DischargeAgent.

(** ** The claim processor ([app/services/claim_processor.py]) *)

Record ClaimValidation := {
  missing_documents : list string;
  discrepancies : list PyDict;
  is_valid : bool
}.

Inductive Status := approved | rejected | pending.

Record ClaimDecision := {
  status : Status;
  reason : string;
  amount_approved : option float;
  amount_rejected : option float
}.

Record ProcessedClaim := {
  documents : list ClaimDocument.t;
  validation : ClaimValidation;
  decision : ClaimDecision
}.

Module ClaimProcessor.

(** [self.agents] *)
Definition agents (t : DocumentType) : option BaseExtractionAgent :=
  match t with
  | BILL => Some BillAgent.agent
  | DISCHARGE_SUMMARY => Some DischargeAgent.agent
  | ID_CARD => Some IdCardAgent.agent
  | PRESCRIPTION => Some PrescriptionAgent.agent
  | LAB_REPORT => Some LabReportAgent.agent
  | UNKNOWN => None
  end.

(** [self.required_docs], in the order the set is iterated. *)
Definition required_docs (w : World) : list DocumentType :=
  if bill_first w then [BILL; ID_CARD] else [ID_CARD; BILL].

(** [self.doc_descriptions] *)
Definition doc_descriptions (t : DocumentType) : option string :=
  match t with
  | BILL => Some "medical bill"
  | DISCHARGE_SUMMARY => Some "discharge summary"
  | ID_CARD => Some "insurance ID card"
  | PRESCRIPTION => Some "prescription"
  | LAB_REPORT => Some "lab report"
  | UNKNOWN => None
  end.

(** [self.doc_descriptions.get(t, t)]; the members are [str]s. *)
Definition description (t : DocumentType) : string :=
  default (DocumentType_value t) (doc_descriptions t).

(** [required == v] for a member [required] of [DocumentType] and an
    attribute value [v]: the members are [str]s and compare equal to
    themselves and to their value. *)
Definition is_type (required : DocumentType) (v : PyVal) : bool :=
  match v with
  | VDocType t => bool_decide (t = required)
  | VStr s => String.eqb s (DocumentType_value required)
  | _ => false
  end.

Definition _classify_single_doc (w : World) (file_path : string)
  : M (string * DocumentType) :=
  try_except
    (doc_type ← ClassifierAgent.classify_document w file_path;
     mret (file_path, doc_type))
    (fun _ => mret (file_path, UNKNOWN)).

Definition _classify_documents (w : World) (file_paths : list string)
  : M (list (string * DocumentType)) :=
  gather (_classify_single_doc w) file_paths.

(** The dictionary built in the [except] branch of [_process_documents]. *)
Definition error_document (doc_type : DocumentType) (file_path : string) (e : Exn)
  : PyDict :=
  list_to_map
    [("type", VDocType doc_type);
     ("file_name", VStr (path_name file_path));
     ("error", VStr (exn_msg e));
     ("status", VStr "error")].

(** One turn of the loop of [_process_documents]: what is appended to
    [processed], if anything. *)
Definition process_one (w : World) (file_path : string) (doc_type : DocumentType)
  : M (option ClaimDocument.t) :=
  if decide (doc_type = UNKNOWN) then mret None
  else
    try_except
      (match agents doc_type with
       | None => mret None
       | Some agent =>
           result ← process agent w (TPath file_path) None;
           let result_dict := Document_dict result in
           let result_dict := <["file_name" := VStr (path_name file_path)]> result_dict in
           size ← lift (st_size w file_path);
           let result_dict := <["file_size" := VInt size]> result_dict in
           doc ← lift (ClaimDocument.parse_obj result_dict);
           mret (Some doc)
       end)
      (fun e =>
         (* Create a minimal document with error information *)
         doc ← lift (ClaimDocument.parse_obj (error_document doc_type file_path e));
         mret (Some doc)).

Fixpoint process_from (w : World) (classified_docs : list (string * DocumentType))
    (processed : list ClaimDocument.t) : M (list ClaimDocument.t) :=
  match classified_docs with
  | [] => mret processed
  | (file_path, doc_type) :: rest =>
      r ← process_one w file_path doc_type;
      process_from w rest
        (match r with Some doc => processed ++ [doc] | None => processed end)
  end.

Definition _process_documents (w : World)
    (classified_docs : list (string * DocumentType)) : M (list ClaimDocument.t) :=
  process_from w classified_docs [].

(** The [patient_names] dictionary of [_validate_claim]: for each
    document that has a [patient_name] attribute holding a non-empty
    [str], the name under the description of [doc.type] (or under the
    type's value when it has no description). The read of [doc.type] is
    not behind [hasattr]. *)
Definition patient_names_step (names : gmap string string) (doc : ClaimDocument.t)
  : Result (gmap string string) :=
  match ClaimDocument.getattr doc "patient_name" with
  | inr (VStr name) =>
      if String.eqb name "" then Ok names
      else
        doc_type ← ClaimDocument.getattr doc "type";
        let key :=
          match doc_type with
          | VDocType t => description t
          | VStr s => s
          | _ => ""
          end in
        Ok (<[key := name]> names)
  | _ => Ok names
  end.

Fixpoint patient_names_from (documents : list ClaimDocument.t)
    (names : gmap string string) : Result (gmap string string) :=
  match documents with
  | [] => Ok names
  | doc :: rest =>
      names ← patient_names_step names doc;
      patient_names_from rest names
  end.

Definition patient_names (documents : list ClaimDocument.t)
  : Result (gmap string string) :=
  patient_names_from documents ∅.

(** [set(patient_names.values())] *)
Definition distinct_values (names : gmap string string) : gset string :=
  list_to_set (snd <$> map_to_list names).

Definition _validate_claim (w : World) (documents : list ClaimDocument.t)
  : Result ClaimValidation :=
  (* {doc.type for doc in documents if hasattr(doc, 'type')} *)
  let found_types :=
    omap
      (fun doc =>
         match ClaimDocument.getattr doc "type" with
         | inr v => Some v
         | inl _ => None
         end)
      documents in
  let missing_docs :=
    omap
      (fun doc_type =>
         if existsb (is_type doc_type) found_types then None
         else Some (default (DocumentType_name doc_type) (doc_descriptions doc_type)))
      (required_docs w) in
  discrepancies ←
    (if (1 <? length documents)%nat then
       names ← patient_names documents;
       if (1 <? size (distinct_values names))%nat then
         Ok [ (list_to_map
                 [("field", VStr "patient_name");
                  ("message", VStr "Patient name mismatch across documents");
                  ("details", VDict (VStr <$> names))] : PyDict) ]
       else Ok []
     else Ok []);
  Ok {| missing_documents := missing_docs;
        discrepancies := discrepancies;
        is_valid :=
          (length missing_docs =? 0)%nat && (length discrepancies =? 0)%nat |}.

(** [_calculate_total_amount]: the [total_amount] of every document
    that has the attribute, not [None], added up from [0.0]; an amount,
    where there is one, is the [float] its model declares. *)
Definition _calculate_total_amount (documents : list ClaimDocument.t) : float :=
  fold_left
    (fun total doc =>
       match ClaimDocument.getattr doc "total_amount" with
       | inr (VFloat amount) => PrimFloat.add total amount
       | _ => total
       end)
    documents 0%float.

(** Nothing in the [try] block of [_make_decision] can raise here, so
    its [except] branch is left out. *)
Definition _make_decision (documents : list ClaimDocument.t)
    (validation : ClaimValidation) : ClaimDecision :=
  match missing_documents validation with
  | _ :: _ =>
      let missing_list := PyStr.join ", " (missing_documents validation) in
      {| status := rejected;
         reason := "Missing required documents: " +:+ missing_list;
         amount_approved := Some 0%float;
         amount_rejected := Some (_calculate_total_amount documents) |}
  | [] =>
      match discrepancies validation with
      | _ :: _ =>
          {| status := pending;
             reason := "Data discrepancies found, requires manual review";
             amount_approved := Some 0%float;
             amount_rejected := Some 0%float |}
      | [] =>
          let total_amount := _calculate_total_amount documents in
          if PrimFloat.leb total_amount 10000%float then
            {| status := approved;
               reason := "Claim meets all requirements";
               amount_approved := Some total_amount;
               amount_rejected := Some 0%float |}
          else
            {| status := pending;
               reason := "Claim amount exceeds automatic approval limit";
               amount_approved := Some 0%float;
               amount_rejected := Some 0%float |}
      end
  end.

Definition process_claim (w : World) (file_paths : list string) : M ProcessedClaim :=
  classified_docs ← _classify_documents w file_paths;
  processed_docs ← _process_documents w classified_docs;
  validation ← lift (_validate_claim w processed_docs);
  let decision := _make_decision processed_docs validation in
  mret {| documents := processed_docs;
          validation := validation;
          decision := decision |}.

End ClaimProcessor.

(** ** Concrete worlds, for running the embedding *)

(** A world given by its backend, its regular-expression pass and its
    clock: every file reads as its own path, [json.loads] rejects
    everything, files have size 1. *)
Definition make_world
    (backend : Log -> string -> Result string)
    (regex : AgentName -> string -> Result PyDict)
    (clock : Datetime.date) : World :=
  {| _extract_text := fun p => Ok p;
     generate_content := backend;
     json_loads := fun _ => Raise JSONDecodeError "Expecting value";
     today := clock;
     st_size := fun _ => Ok 1;
     path_exists := fun _ => true;
     read_text := fun p => Ok p;
     _extract_text_from_pdf := fun p => Ok p;
     _extract_with_regex := regex;
     _create_classification_prompt := fun filename text => filename +:+ ": " +:+ text;
     _create_extraction_prompt := fun _ text => text;
     bill_first := true |}.

(** A backend that is down. *)
Definition backend_down : Log -> string -> Result string :=
  fun _ _ => Raise BackendError "backend unavailable".

(** A backend that answers every prompt with the same text. *)
Definition backend_says (answer : string) : Log -> string -> Result string :=
  fun _ _ => Ok answer.

(** ** Notions used to state the properties *)

(** The totals of the bill documents of a list, in order. *)
Definition bill_totals (documents : list ClaimDocument.t) : list float :=
  omap
    (fun doc =>
       match ClaimDocument.root doc with
       | DBill x => Some (BillDocument.total_amount x)
       | _ => None
       end)
    documents.

(** The sum of a list of floats, accumulated from [0.0] left to right. *)
Definition float_sum (l : list float) : float := fold_left PrimFloat.add l 0%float.

(** [s] occurs in [r]. *)
Definition occurs_in (s r : string) : Prop :=
  exists pre post, r = pre +:+ s +:+ post.

(** Sample documents. *)
Definition sample_bill (name : option string) (total : float) : ClaimDocument.t :=
  ClaimDocument.mk
    (DBill
       (BillDocument.mk (Some "General Hospital") total (Datetime.mkdate 2024 4 10)
          name None (Some []) (Some []) (Some []))).

Definition sample_id_card : ClaimDocument.t :=
  ClaimDocument.mk
    (DIdCard
       (IdCardDocument.mk "Aetna" "GP123456789" None "MEMBER12345" "John Doe"
          (Some "self") None None)).

(** A world whose backend is down and whose deterministic passes find
    nothing. *)
Definition quiet_world : World :=
  make_world backend_down (fun _ _ => Ok ∅) (Datetime.mkdate 2024 4 10).

(** The agents by name. *)
Definition extract_of (a : AgentName)
  : World -> TextArg -> option string -> M PyDict :=
  match a with
  | Bill => BillAgent.extract
  | Discharge => DischargeAgent.extract
  | IdCard => IdCardAgent.extract
  | Prescription => PrescriptionAgent.extract
  | LabReport => LabReportAgent.extract
  end.

(** The fallback pass of each agent. *)
Definition fallback_of (a : AgentName) : World -> TextArg -> M PyDict :=
  match a with
  | Bill => BillAgent._extract_with_llm
  | Discharge => DischargeAgent._extract_with_llm
  | IdCard => IdCardAgent._extract_with_llm
  | Prescription => PrescriptionAgent._extract_with_llm
  | LabReport => LabReportAgent._extract_with_llm
  end.

Definition required_fields_of (a : AgentName) : list string :=
  match a with
  | Bill => BillAgent.required_fields
  | Discharge => DischargeAgent.required_fields
  | IdCard => IdCardAgent.required_fields
  | Prescription => PrescriptionAgent.required_fields
  | LabReport => LabReportAgent.required_fields
  end.

(** What looking up [_call_llm] on an agent raises. *)
Definition call_error (a : AgentName) : Exn :=
  mkExn AttributeError
    ("'" +:+ class_name a +:+ "' object has no attribute '_call_llm'").

(** The text the bill agent hands to its passes: a path that ends in
    [.pdf] is read through the PDF extractor, an empty text is replaced
    by the content of the file when there is one, an empty result is an
    error, and so is a [Path] that is still a [Path] when the text is
    sliced for the log. *)
Definition bill_text (w : World) (text : TextArg) (file_path : option string)
  : Result string :=
  text ←
    (if PyStr.endswith (str_of text) ".pdf" then
       s ← _extract_text_from_pdf w (str_of text); Ok (TStr s)
     else match file_path with
          | Some p =>
              if PyStr.endswith p ".pdf" then s ← _extract_text_from_pdf w p; Ok (TStr s)
              else Ok text
          | None => Ok text
          end);
  text ←
    (match file_path with
     | Some p =>
         if negb (truthy text) && path_exists w p then s ← read_text w p; Ok (TStr s)
         else Ok text
     | None => Ok text
     end);
  if negb (truthy text) then Raise ValueError "No text content found in the document"
  else match text with
       | TPath _ => slice_on_path
       | TStr s => Ok s
       end.

(** The [str] an agent hands to its deterministic pass, or what it
    raises before getting there. *)
Definition effective_text (w : World) (a : AgentName) (text : TextArg)
    (file_path : option string) : Result string :=
  match a, text with
  | Bill, _ => bill_text w text file_path
  | _, TStr s => Ok s
  | IdCard, TPath _ => lower_on_path
  | _, TPath _ => re_on_path
  end.

(** What validation guarantees of a model instance beyond its types: a
    bill's total is positive. *)
Definition Document_wf (x : Document) : Prop :=
  match x with
  | DBill b => PrimFloat.ltb 0 (BillDocument.total_amount b) = true
  | _ => True
  end.

(** The dictionary handed to [ClaimDocument.parse_obj] on the success
    path: the record's fields and the file's name and size. *)
Definition with_file_metadata (x : Document) (file_path : string) (size : Z) : PyDict :=
  <["file_size" := VInt size]>
    (<["file_name" := VStr (path_name file_path)]> (Document_dict x)).

(** A classified document that is handed to an agent. *)
Definition known (cd : string * DocumentType) : bool :=
  negb (bool_decide (cd.2 = UNKNOWN)).

(** What escapes when no member of the union accepts a dictionary. *)
Definition union_error : Exn :=
  mkExn ValidationError "validation errors for ClaimDocument".

(** The verdict of the validator when it finds none of the required
    types: both descriptions, in the order the set is iterated. *)
Definition both_missing (w : World) : list string :=
  if bill_first w then ["medical bill"; "insurance ID card"]
  else ["insurance ID card"; "medical bill"].

(** A billing desk. Every file reads as its own path; the backend takes
    a file whose name starts with [notes] for meeting notes and anything
    else for a bill. The deterministic pass reads a bill completely
    unless its text starts with [claims/b], where it finds no amount and
    no date. *)
Definition desk_backend : Log -> string -> Result string :=
  fun _ prompt =>
    if PyStr.startswith "notes" prompt then Ok "meeting notes" else Ok "bill".

Definition bill_regex_record : PyDict :=
  list_to_map
    [("hospital_name", VStr "General Hospital");
     ("total_amount", VFloat 1250.75);
     ("date_of_service", VStr "2024-04-10");
     ("patient_name", VStr "John Doe")].

Definition bill_regex_partial : PyDict :=
  list_to_map
    [("hospital_name", VStr "General Hospital");
     ("patient_name", VStr "John Doe")].

Definition desk_regex : AgentName -> string -> Result PyDict :=
  fun a text =>
    match a with
    | Bill =>
        if PyStr.startswith "claims/b" text then Ok bill_regex_partial
        else Ok bill_regex_record
    | _ => Ok ∅
    end.

Definition desk_world : World :=
  make_world desk_backend desk_regex (Datetime.mkdate 2024 4 10).

Definition desk_bill : Document :=
  DBill
    (BillDocument.mk (Some "General Hospital") 1250.75 (Datetime.mkdate 2024 4 10)
       (Some "John Doe") None (Some []) (Some []) (Some [])).

(** [doc] is the outcome of the classified document [cd]: a document
    wrapping a model of the type the classifier assigned, which is the
    record that type's agent returned for the file. *)
Definition outcome_of (w : World) (cd : string * DocumentType) (doc : ClaimDocument.t)
  : Prop :=
  Document_type (ClaimDocument.root doc) = cd.2 /\
  exists ag log log',
    ClaimProcessor.agents cd.2 = Some ag /\
    process ag w (TPath cd.1) None log = (inr (ClaimDocument.root doc), log').

(** The batches used below. *)
Definition three_bills : list string :=
  ["claims/a.pdf"; "claims/b.pdf"; "claims/c.pdf"].

Definition two_bills : list string := ["claims/a.pdf"; "claims/c.pdf"].

Definition bills_and_notes : list string :=
  ["claims/a.pdf"; "claims/notes.txt"; "claims/c.pdf"].

(** A world whose deterministic pass already finds every required field
    of the bill and of the ID card. *)
Definition complete_regex_record : PyDict :=
  list_to_map
    [("total_amount", VFloat 1250.75);
     ("date_of_service", VStr "2024-04-10");
     ("insurance_provider", VStr "Aetna");
     ("policy_number", VStr "GP123456789");
     ("member_id", VStr "MEMBER12345");
     ("member_name", VStr "John Doe")].

Definition complete_regex_world : World :=
  make_world (backend_says "{}") (fun _ _ => Ok complete_regex_record)
    (Datetime.mkdate 2024 4 10).



(** A lab report of which the deterministic pass finds everything but
    the date it was reported. *)
Definition lab_record : PyDict :=
  list_to_map
    [("patient_name", VStr "John Doe");
     ("test_results", VList []);
     ("date_collected", VStr "2024-04-10")].

Definition lab_world : World :=
  make_world (backend_says "{}") (fun _ _ => Ok lab_record) (Datetime.mkdate 2024 4 10).

(** The fields each document model declares with [Field(...)], which a
    dictionary must carry to validate ([app/schemas/claim.py]). *)
Definition model_required (t : DocumentType) : list string :=
  match t with
  | BILL => ["hospital_name"; "total_amount"; "date_of_service"]
  | DISCHARGE_SUMMARY => ["patient_name"; "admission_date"; "discharge_date"; "diagnosis"]
  | ID_CARD => ["insurance_provider"; "policy_number"; "member_id"; "member_name"]
  | PRESCRIPTION => ["patient_name"; "date_prescribed"; "medications"]
  | LAB_REPORT => ["patient_name"; "date_collected"; "date_reported"; "test_results"]
  | UNKNOWN => []
  end.

(** A world whose deterministic pass reads the amount and the date of a
    bill but not the hospital. *)
Definition nameless_bill_record : PyDict :=
  list_to_map
    [("total_amount", VFloat 1250.75);
     ("date_of_service", VStr "2024-04-10")].

Definition nameless_bill_world : World :=
  make_world backend_down (fun _ _ => Ok nameless_bill_record)
    (Datetime.mkdate 2024 4 10).

(** A world in which [json.loads] reads every span as a bill whose date
    is written the American way, and one in which the PDF extractor
    finds no text in any file. *)
Definition american_bill_json : PyDict :=
  list_to_map
    [("total_amount", VFloat 1250.75);
     ("date_of_service", VStr " 04/10/2024 ")].

Definition american_bill_world : World :=
  {| _extract_text := fun p => Ok p;
     generate_content := backend_says "{}";
     json_loads := fun _ => Ok (VDict american_bill_json);
     today := Datetime.mkdate 2024 4 10;
     st_size := fun _ => Ok 1;
     path_exists := fun _ => true;
     read_text := fun p => Ok p;
     _extract_text_from_pdf := fun p => Ok p;
     _extract_with_regex := fun _ _ => Ok ∅;
     _create_classification_prompt := fun filename text => filename +:+ ": " +:+ text;
     _create_extraction_prompt := fun _ text => text;
     bill_first := true |}.

Definition blank_pdf_world : World :=
  {| _extract_text := fun p => Ok p;
     generate_content := backend_says "bill";
     json_loads := fun _ => Raise JSONDecodeError "Expecting value";
     today := Datetime.mkdate 2024 4 10;
     st_size := fun _ => Ok 1;
     path_exists := fun _ => true;
     read_text := fun p => Ok p;
     _extract_text_from_pdf := fun _ => Ok "";
     _extract_with_regex := fun _ _ => Ok bill_regex_record;
     _create_classification_prompt := fun filename text => filename +:+ ": " +:+ text;
     _create_extraction_prompt := fun _ text => text;
     bill_first := true |}.

(** A world for the discharge agent's response parser: [json.loads]
    reads exactly the empty object. *)
Definition empty_object_world : World :=
  {| _extract_text := fun p => Ok p;
     generate_content := backend_says "Here it is: {} (end)";
     json_loads := fun s =>
       if String.eqb s "{}" then Ok (VDict ∅)
       else Raise JSONDecodeError "Expecting value";
     today := Datetime.mkdate 2024 4 10;
     st_size := fun _ => Ok 1;
     path_exists := fun _ => true;
     read_text := fun p => Ok p;
     _extract_text_from_pdf := fun p => Ok p;
     _extract_with_regex := fun _ _ => Ok ∅;
     _create_classification_prompt := fun filename text => filename +:+ ": " +:+ text;
     _create_extraction_prompt := fun _ text => text;
     bill_first := true |}.

(** ** Text extraction of the agents' base class
    ([app/services/agents/base_agent.py]) *)

Module BaseAgent.

(** What [_extract_text] asks of the file system: whether a path
    exists, the texts of the pages of a PDF ([page.extract_text() or ""]
    for each page of [PyPDF2.PdfReader], or the exception opening or
    reading it raises; PyPDF2 is taken to be importable) and the content
    of a text file opened with [errors='replace']. *)
Record Disk := {
  path_is_there : string -> bool;
  pdf_pages : string -> Result (list string);
  read_replace : string -> Result string
}.

(** [file_path.suffix]: the part of the final component from its last
    dot on, when that dot is neither its first nor its last character. *)
Definition suffix (file_path : string) : string :=
  let name := path_name file_path in
  match PyStr.rfind "." name with
  | Some i =>
      if (0 <? i)%nat && (i <? String.length name - 1)%nat then PyStr.drop i name
      else ""
  | None => ""
  end.

Definition newline : string := String (ascii_of_nat 10) EmptyString.

Definition text_suffixes : list string := [".txt"; ".md"; ".csv"].

Definition _extract_text (dk : Disk) (file_path : string) : Result string :=
  let body : Result string :=
    if negb (path_is_there dk file_path) then
      Raise AgentError ("File not found: " +:+ file_path)
    else if String.eqb (PyStr.lower (suffix file_path)) ".pdf" then
      match pdf_pages dk file_path with
      | inr text_parts => Ok (PyStr.join newline text_parts)
      | inl e =>
          Raise AgentError
            ("Failed to extract text from PDF " +:+ file_path +:+ ": " +:+ exn_msg e)
      end
    else if bool_decide (PyStr.lower (suffix file_path) ∈ text_suffixes) then
      read_replace dk file_path
    else Raise AgentError ("Unsupported file format: " +:+ suffix file_path)
  in
  match body with
  | inl e => Raise AgentError ("Failed to extract text: " +:+ exn_msg e)
  | inr text => Ok text
  end.

End BaseAgent.

(** The suffixes [_extract_text] can read, letter case aside. *)
Definition readable_suffix (file_path : string) : bool :=
  String.eqb (PyStr.lower (BaseAgent.suffix file_path)) ".pdf"
  || bool_decide (PyStr.lower (BaseAgent.suffix file_path) ∈ BaseAgent.text_suffixes).

(** The world [w] with the classifier reading files through
    [BaseAgent._extract_text] on the disk [dk]. *)
Definition with_disk (dk : BaseAgent.Disk) (w : World) : World :=
  {| _extract_text := BaseAgent._extract_text dk;
     generate_content := generate_content w;
     json_loads := json_loads w;
     today := today w;
     st_size := st_size w;
     path_exists := path_exists w;
     read_text := read_text w;
     _extract_text_from_pdf := _extract_text_from_pdf w;
     _extract_with_regex := _extract_with_regex w;
     _create_classification_prompt := _create_classification_prompt w;
     _create_extraction_prompt := _create_extraction_prompt w;
     bill_first := bill_first w |}.

(** A disk on which every path exists, a PDF has one page holding its
    own path and a text file reads as its own path; and the billing desk
    on that disk. *)
Definition full_disk : BaseAgent.Disk :=
  {| BaseAgent.path_is_there := fun _ => true;
     BaseAgent.pdf_pages := fun p => Ok [p];
     BaseAgent.read_replace := fun p => Ok p |}.

Definition desk_on_disk : World := with_disk full_disk desk_world.

Definition scans : list string := ["claims/scan.jpg"; "claims/photo.PNG"; "claims/bill"].

(** * Properties of the pipeline *)

(** * Properties *)

(** ** Sanity checks of the embedding *)

Example strptime_iso :
  Datetime.strptime "2024-04-10" "%Y-%m-%d" = Some (Datetime.mkdate 2024 4 10).
Proof. reflexivity. Qed.

Example strptime_us :
  Datetime.strptime "04/10/2024" "%m/%d/%Y" = Some (Datetime.mkdate 2024 4 10).
Proof. reflexivity. Qed.

Example strptime_month_name :
  Datetime.strptime "April 1, 2024" "%B %d, %Y" = Some (Datetime.mkdate 2024 4 1).
Proof. reflexivity. Qed.

Example strptime_bad_day :
  Datetime.strptime "2023-02-29" "%Y-%m-%d" = None.
Proof. reflexivity. Qed.

Example strptime_trailing :
  Datetime.strptime "2024-04-101" "%Y-%m-%d" = None.
Proof. reflexivity. Qed.

Example strftime_short_year :
  Datetime.strftime_Ymd (Datetime.mkdate 999 1 1) = "999-01-01".
Proof. reflexivity. Qed.

Example parse_classification_bill :
  ClassifierAgent._parse_classification_response "  BILL  " = BILL.
Proof. vm_compute. reflexivity. Qed.

Example parse_classification_discharge :
  ClassifierAgent._parse_classification_response "discharge summary" = DISCHARGE_SUMMARY.
Proof. vm_compute. reflexivity. Qed.

Example parse_classification_invalid :
  ClassifierAgent._parse_classification_response "invalid" = UNKNOWN.
Proof. vm_compute. reflexivity. Qed.

Example claim_document_has_no_type :
  ClaimDocument.hasattr (sample_bill (Some "John Doe") 250) "type" = false /\
  ClaimDocument.hasattr (sample_bill (Some "John Doe") 250) "root" = true.
Proof. split; reflexivity. Qed.

(** ** The classifier *)

Lemma classify_document_run (w : World) (file_path : string) (log : Log) :
  ClassifierAgent.classify_document w file_path log =
    match _extract_text w file_path with
    | inl _ => (inr UNKNOWN, log)
    | inr text =>
        let prompt :=
          _create_classification_prompt w (path_name file_path) (PyStr.take 2000 text) in
        match generate_content w log prompt with
        | inl _ => (inr UNKNOWN, log ++ [prompt])
        | inr response =>
            (inr (ClassifierAgent._parse_classification_response response),
             log ++ [prompt])
        end
    end.
Proof.
  unfold ClassifierAgent.classify_document, try_except, mbind, M_bind, lift, _call_llm.
  destruct (_extract_text w file_path) as [e|text]; [reflexivity|].
  cbn. destruct (generate_content w log _); reflexivity.
Qed.

(** C5. Classification never raises: whatever the file, the backend and
    the prompts sent so far, [classify_document] returns a document
    type; it returns [UNKNOWN] when text extraction raises and when the
    backend call raises, and a response whose trimmed, lower-cased label
    is not a key of the synonym table is parsed to [UNKNOWN]. *)
Theorem classify_document_never_raises (w : World) (file_path : string) (log : Log) :
  (exists t log', ClassifierAgent.classify_document w file_path log = (inr t, log'))
  /\ (forall e, _extract_text w file_path = inl e ->
        ClassifierAgent.classify_document w file_path log = (inr UNKNOWN, log))
  /\ (forall text e,
        _extract_text w file_path = inr text ->
        generate_content w log
          (_create_classification_prompt w (path_name file_path) (PyStr.take 2000 text))
          = inl e ->
        exists log',
          ClassifierAgent.classify_document w file_path log = (inr UNKNOWN, log'))
  /\ (forall response,
        ClassifierAgent.type_mapping !! PyStr.lower (PyStr.strip response) = None ->
        ClassifierAgent._parse_classification_response response = UNKNOWN).
Proof.
  repeat split.
  - rewrite classify_document_run.
    destruct (_extract_text w file_path); [eauto|].
    cbv zeta. destruct (generate_content w log _); eauto.
  - intros e H. rewrite classify_document_run, H. reflexivity.
  - intros text e H1 H2. rewrite classify_document_run, H1.
    cbv zeta. rewrite H2. eauto.
  - intros response H. unfold ClassifierAgent._parse_classification_response.
    cbv zeta. rewrite H. reflexivity.
Qed.

(** With the backend down, a readable file is classified [UNKNOWN]. *)
Lemma classify_document_backend_down :
  exists log',
    ClassifierAgent.classify_document quiet_world "claims/bill.txt" []
    = (inr UNKNOWN, log').
Proof.
  apply (proj1 (proj2 (proj2 (classify_document_never_raises _ "claims/bill.txt" [])))
           "claims/bill.txt" (mkExn BackendError "backend unavailable"));
    reflexivity.
Defined.

(** ** The validator *)

(** Whatever the two lists turn out to be, [is_valid] says that both
    are empty. *)
Lemma is_valid_spec (w : World) (documents : list ClaimDocument.t) (v : ClaimValidation) :
  ClaimProcessor._validate_claim w documents = inr v ->
  (is_valid v = true <-> missing_documents v = [] /\ discrepancies v = []).
Proof.
  unfold ClaimProcessor._validate_claim. cbv zeta.
  match goal with
  | |- mbind _ ?m = _ -> _ => destruct m as [e|ds]; [discriminate|]
  end.
  cbn [mbind Result_bind]. intros [= <-].
  cbn [is_valid missing_documents discrepancies].
  rewrite andb_true_iff, !Nat.eqb_eq, !length_zero_iff_nil. reflexivity.
Qed.

(** No attribute the validator asks for is found on a claim document. *)
Lemma found_types_empty (documents : list ClaimDocument.t) :
  omap
    (fun doc =>
       match ClaimDocument.getattr doc "type" with
       | inr v => Some v
       | inl _ => None
       end)
    documents = [].
Proof. induction documents as [|doc rest IH]; [reflexivity|exact IH]. Qed.

Lemma patient_names_from_run (documents : list ClaimDocument.t)
    (names : gmap string string) :
  ClaimProcessor.patient_names_from documents names = inr names.
Proof.
  revert names. induction documents as [|doc rest IH]; intros names; [reflexivity|].
  cbn [ClaimProcessor.patient_names_from]. apply IH.
Qed.

(** What the validator returns, whatever the documents. *)
Lemma validate_claim_run (w : World) (documents : list ClaimDocument.t) :
  ClaimProcessor._validate_claim w documents
  = inr {| missing_documents := both_missing w;
           discrepancies := [];
           is_valid := false |}.
Proof.
  unfold ClaimProcessor._validate_claim. cbv zeta. rewrite found_types_empty.
  assert (Hd : (if (1 <? length documents)%nat
                then names ← ClaimProcessor.patient_names documents;
                     if (1 <? size (ClaimProcessor.distinct_values names))%nat
                     then Ok [ (list_to_map
                                  [("field", VStr "patient_name");
                                   ("message", VStr "Patient name mismatch across documents");
                                   ("details", VDict (VStr <$> names))] : PyDict) ]
                     else Ok []
                else Ok []) = inr []).
  { destruct (1 <? length documents)%nat; [|reflexivity].
    unfold ClaimProcessor.patient_names. rewrite patient_names_from_run.
    reflexivity. }
  rewrite Hd. unfold ClaimProcessor.required_docs, both_missing.
  destruct (bill_first w); reflexivity.
Qed.

(** C4. [is_valid] is true exactly when the validator found no missing
    required document and no discrepancy. *)
Theorem validate_claim_is_valid_iff (w : World) (documents : list ClaimDocument.t) :
  exists v,
    ClaimProcessor._validate_claim w documents = inr v /\
    (is_valid v = true <-> missing_documents v = [] /\ discrepancies v = []).
Proof.
  destruct (ClaimProcessor._validate_claim w documents) as [e|v] eqn:E.
  - rewrite validate_claim_run in E. discriminate E.
  - exists v. split; [reflexivity|]. eapply is_valid_spec, E.
Qed.


(** ** The decision engine *)

Lemma fold_total_amount (documents : list ClaimDocument.t) (acc : float) :
  fold_left
    (fun total doc =>
       match ClaimDocument.getattr doc "total_amount" with
       | inr (VFloat amount) => PrimFloat.add total amount
       | _ => total
       end) documents acc
  = acc.
Proof.
  revert acc. induction documents as [|doc rest IH]; intros acc; [reflexivity|].
  cbn [fold_left]. apply IH.
Qed.

(** No document adds to the total. *)
Lemma calculate_total_amount_zero (documents : list ClaimDocument.t) :
  ClaimProcessor._calculate_total_amount documents = 0%float.
Proof. apply fold_total_amount. Qed.

Lemma append_empty_r (s : string) : s +:+ "" = s.
Proof.
  induction s as [|c s IH]; [reflexivity|].
  change (String c (s +:+ "") = String c s). now rewrite IH.
Qed.

Lemma append_assoc (a b c : string) : (a +:+ b) +:+ c = a +:+ (b +:+ c).
Proof.
  induction a as [|x a IH]; [reflexivity|].
  change (String x ((a +:+ b) +:+ c) = String x (a +:+ (b +:+ c))). now rewrite IH.
Qed.

Lemma join_occurs (sep m : string) (l : list string) :
  In m l -> occurs_in m (PyStr.join sep l).
Proof.
  induction l as [|x rest IH]; [intros []|].
  intros [->|Hin].
  - destruct rest as [|y rest'].
    + exists "", "". change (m = m +:+ ""). now rewrite append_empty_r.
    + exists "", (sep +:+ PyStr.join sep (y :: rest')). reflexivity.
  - destruct rest as [|y rest']; [destruct Hin|].
    destruct (IH Hin) as (pre & post & E).
    exists (x +:+ sep +:+ pre), post.
    change (PyStr.join sep (x :: y :: rest'))
      with (x +:+ sep +:+ PyStr.join sep (y :: rest')).
    rewrite E, !append_assoc. reflexivity.
Qed.

Lemma occurs_in_prefixed (p m r : string) : occurs_in m r -> occurs_in m (p +:+ r).
Proof.
  intros (pre & post & ->). exists (p +:+ pre), post. now rewrite append_assoc.
Qed.

(** C3 on the code. The priority order of the rules is the claim's:
    missing documents reject, naming them; otherwise discrepancies leave
    the claim pending. But the total is read off [ClaimDocument] objects,
    which have no [total_amount] attribute, so it is 0.0 whatever the
    bills: nothing is ever counted as rejected, every claim that reaches
    the third rule is approved, for 0.0, and the limit of 10000 is never
    exceeded. A bill of 10000.01 is approved for 0.0, and the bill of
    1250.75 that the billing desk submits alone is rejected with
    [amount_rejected = 0.0]. *)
Theorem make_decision_total_is_zero :
  (forall documents : list ClaimDocument.t,
     ClaimProcessor._calculate_total_amount documents = 0%float)
  /\ (forall (documents : list ClaimDocument.t) (v : ClaimValidation),
        ClaimProcessor._make_decision documents v =
        match missing_documents v with
        | _ :: _ =>
            {| status := rejected;
               reason := "Missing required documents: "
                           +:+ PyStr.join ", " (missing_documents v);
               amount_approved := Some 0%float;
               amount_rejected := Some 0%float |}
        | [] =>
            match discrepancies v with
            | _ :: _ =>
                {| status := pending;
                   reason := "Data discrepancies found, requires manual review";
                   amount_approved := Some 0%float;
                   amount_rejected := Some 0%float |}
            | [] =>
                {| status := approved;
                   reason := "Claim meets all requirements";
                   amount_approved := Some 0%float;
                   amount_rejected := Some 0%float |}
            end
        end)
  /\ (forall (documents : list ClaimDocument.t) (v : ClaimValidation) (m : string),
        In m (missing_documents v) ->
        occurs_in m (reason (ClaimProcessor._make_decision documents v)))
  /\ ClaimProcessor._make_decision
       [sample_bill (Some "John Doe") 0x1.3880147ae147bp+13; sample_id_card]
       {| missing_documents := []; discrepancies := []; is_valid := true |}
     = {| status := approved;
          reason := "Claim meets all requirements";
          amount_approved := Some 0%float;
          amount_rejected := Some 0%float |}
  /\ ClaimProcessor.process_claim desk_world ["claims/a.pdf"] []
     = (inr {| documents := [ClaimDocument.mk desk_bill];
               validation :=
                 {| missing_documents := ["medical bill"; "insurance ID card"];
                    discrepancies := [];
                    is_valid := false |};
               decision :=
                 {| status := rejected;
                    reason :=
                      "Missing required documents: medical bill, insurance ID card";
                    amount_approved := Some 0%float;
                    amount_rejected := Some 0%float |} |},
        ["a.pdf: claims/a.pdf"]).
Proof.
  assert (Hrun : forall (documents : list ClaimDocument.t) (v : ClaimValidation),
    ClaimProcessor._make_decision documents v =
    match missing_documents v with
    | _ :: _ =>
        {| status := rejected;
           reason := "Missing required documents: "
                       +:+ PyStr.join ", " (missing_documents v);
           amount_approved := Some 0%float;
           amount_rejected := Some 0%float |}
    | [] =>
        match discrepancies v with
        | _ :: _ =>
            {| status := pending;
               reason := "Data discrepancies found, requires manual review";
               amount_approved := Some 0%float;
               amount_rejected := Some 0%float |}
        | [] =>
            {| status := approved;
               reason := "Claim meets all requirements";
               amount_approved := Some 0%float;
               amount_rejected := Some 0%float |}
        end
    end).
  { intros documents v. unfold ClaimProcessor._make_decision.
    rewrite calculate_total_amount_zero.
    destruct (missing_documents v); [|reflexivity].
    destruct (discrepancies v); reflexivity. }
  split; [exact calculate_total_amount_zero|].
  split; [exact Hrun|]. split.
  - intros documents v m Hin. rewrite Hrun.
    destruct (missing_documents v) as [|x xs] eqn:E; [destruct Hin|].
    cbn [reason]. apply occurs_in_prefixed, join_occurs, Hin.
  - split; vm_compute; reflexivity.
Qed.

(** ** The two extraction passes *)

(** A handler that only logs and raises again changes nothing. *)
Lemma try_except_reraise {A} (m : M A) (log : Log) :
  try_except m (fun e => lift (inl e)) log = m log.
Proof. unfold try_except, lift. destruct (m log) as [[e|x] log']; reflexivity. Qed.

Lemma lift_bind {A B} (r : Result A) (k : A -> M B) (log : Log) :
  (x ← lift r; k x) log =
  match r with inl e => (inl e, log) | inr x => k x log end.
Proof. destruct r; reflexivity. Qed.

(** The fallback pass gets as far as looking up [_call_llm]. *)
Lemma fallback_of_run (w : World) (a : AgentName) (s : string) (log : Log) :
  fallback_of a w (TStr s) log = (inl (call_error a), log).
Proof. destruct a; reflexivity. Qed.

(** The agents other than the bill agent enter the fallback pass
    whatever the deterministic pass found. *)
Lemma extract_run (w : World) (a : AgentName) (text : TextArg)
    (file_path : option string) (log : Log) :
  a <> Bill ->
  extract_of a w text file_path log =
  match effective_text w a text file_path with
  | inl e => (inl e, log)
  | inr s =>
      match _extract_with_regex w a s with
      | inl e => (inl e, log)
      | inr ex => (inl (call_error a), log)
      end
  end.
Proof.
  intros Ha.
  destruct a; try (now contradiction Ha); cbn [extract_of effective_text];
    unfold DischargeAgent.extract, IdCardAgent.extract, PrescriptionAgent.extract,
      LabReportAgent.extract;
    rewrite try_except_reraise, lift_bind;
    destruct text as [s|p]; cbn [extract_with_regex];
    try reflexivity;
    (destruct (_extract_with_regex w _ s) as [e|ex]; [reflexivity|]);
    reflexivity.
Qed.

(** The bill agent enters the fallback pass only when the deterministic
    pass left a required field out. *)
Lemma bill_extract_run (w : World) (text : TextArg) (file_path : option string)
    (log : Log) :
  BillAgent.extract w text file_path log =
  match bill_text w text file_path with
  | inl e => (inl e, log)
  | inr s =>
      match _extract_with_regex w Bill s with
      | inl e => (inl e, log)
      | inr ex =>
          if all_in BillAgent.required_fields ex then (inr ex, log)
          else (inl (call_error Bill), log)
      end
  end.
Proof.
  unfold BillAgent.extract. rewrite try_except_reraise. unfold bill_text.
  assert (Hpasses : forall s,
    (extracted ← lift (extract_with_regex w Bill (TStr s));
     extracted ←
       (if negb (all_in BillAgent.required_fields extracted) then
          llm_data ← BillAgent._extract_with_llm w (TStr s);
          mret (dict_update extracted llm_data)
        else mret extracted);
     if negb (all_in BillAgent.required_fields extracted) then
       raise ValueError "Missing required fields in bill data"
     else mret extracted) log
    = match _extract_with_regex w Bill s with
      | inl e => (inl e, log)
      | inr ex =>
          if all_in BillAgent.required_fields ex then (inr ex, log)
          else (inl (call_error Bill), log)
      end).
  { intros s. rewrite lift_bind. cbn [extract_with_regex].
    destruct (_extract_with_regex w Bill s) as [e|ex]; [reflexivity|].
    unfold mbind at 1; unfold M_bind at 1.
    destruct (all_in BillAgent.required_fields ex) eqn:Eall; cbn [negb].
    - unfold mret at 1; unfold M_ret at 1. rewrite Eall. reflexivity.
    - reflexivity. }
  assert (Hcheck : forall text2 : TextArg,
    (if negb (truthy text2) then
       raise ValueError "No text content found in the document"
     else
       match text2 with
       | TPath _ => lift slice_on_path
       | TStr _ =>
           extracted ← lift (extract_with_regex w Bill text2);
           extracted ←
             (if negb (all_in BillAgent.required_fields extracted) then
                llm_data ← BillAgent._extract_with_llm w text2;
                mret (dict_update extracted llm_data)
              else mret extracted);
           if negb (all_in BillAgent.required_fields extracted) then
             raise ValueError "Missing required fields in bill data"
           else mret extracted
       end) log
    = match
        (if negb (truthy text2) then
           Raise ValueError "No text content found in the document"
         else match text2 with
              | TPath _ => slice_on_path
              | TStr s => Ok s
              end)
      with
      | inl e => (inl e, log)
      | inr s =>
          match _extract_with_regex w Bill s with
          | inl e => (inl e, log)
          | inr ex =>
              if all_in BillAgent.required_fields ex then (inr ex, log)
              else (inl (call_error Bill), log)
          end
      end).
  { intros text2. destruct (negb (truthy text2)); [reflexivity|].
    destruct text2 as [s|p]; [apply Hpasses|reflexivity]. }
  assert (Hstep2 : forall text1 : TextArg,
    (text ←
       (match file_path with
        | Some p =>
            if negb (truthy text1) && path_exists w p then
              s ← lift (read_text w p); mret (TStr s)
            else mret text1
        | None => mret text1
        end);
     if negb (truthy text) then
       raise ValueError "No text content found in the document"
     else
       match text with
       | TPath _ => lift slice_on_path
       | TStr _ =>
           extracted ← lift (extract_with_regex w Bill text);
           extracted ←
             (if negb (all_in BillAgent.required_fields extracted) then
                llm_data ← BillAgent._extract_with_llm w text;
                mret (dict_update extracted llm_data)
              else mret extracted);
           if negb (all_in BillAgent.required_fields extracted) then
             raise ValueError "Missing required fields in bill data"
           else mret extracted
       end) log
    = match
        (text ←
           (match file_path with
            | Some p =>
                if negb (truthy text1) && path_exists w p then
                  s ← read_text w p; Ok (TStr s)
                else Ok text1
            | None => Ok text1
            end);
         if negb (truthy text) then
           Raise ValueError "No text content found in the document"
         else match text with
              | TPath _ => slice_on_path
              | TStr s => Ok s
              end)
      with
      | inl e => (inl e, log)
      | inr s =>
          match _extract_with_regex w Bill s with
          | inl e => (inl e, log)
          | inr ex =>
              if all_in BillAgent.required_fields ex then (inr ex, log)
              else (inl (call_error Bill), log)
          end
      end).
  { intros text1. destruct file_path as [p|]; [|apply Hcheck].
    destruct (negb (truthy text1) && path_exists w p); [|apply Hcheck].
    unfold mbind at 1; unfold M_bind at 1. rewrite lift_bind.
    destruct (read_text w p) as [e|s]; [reflexivity|]. apply Hcheck. }
  assert (Hpdf : forall q : string,
    (text ← (s ← lift (_extract_text_from_pdf w q); mret (TStr s));
     text ←
       (match file_path with
        | Some p =>
            if negb (truthy text) && path_exists w p then
              s ← lift (read_text w p); mret (TStr s)
            else mret text
        | None => mret text
        end);
     if negb (truthy text) then
       raise ValueError "No text content found in the document"
     else
       match text with
       | TPath _ => lift slice_on_path
       | TStr _ =>
           extracted ← lift (extract_with_regex w Bill text);
           extracted ←
             (if negb (all_in BillAgent.required_fields extracted) then
                llm_data ← BillAgent._extract_with_llm w text;
                mret (dict_update extracted llm_data)
              else mret extracted);
           if negb (all_in BillAgent.required_fields extracted) then
             raise ValueError "Missing required fields in bill data"
           else mret extracted
       end) log
    = match
        (text ← (s ← _extract_text_from_pdf w q; Ok (TStr s));
         text ←
           (match file_path with
            | Some p =>
                if negb (truthy text) && path_exists w p then
                  s ← read_text w p; Ok (TStr s)
                else Ok text
            | None => Ok text
            end);
         if negb (truthy text) then
           Raise ValueError "No text content found in the document"
         else match text with
              | TPath _ => slice_on_path
              | TStr s => Ok s
              end)
      with
      | inl e => (inl e, log)
      | inr s =>
          match _extract_with_regex w Bill s with
          | inl e => (inl e, log)
          | inr ex =>
              if all_in BillAgent.required_fields ex then (inr ex, log)
              else (inl (call_error Bill), log)
          end
      end).
  { intros q. unfold mbind at 1; unfold M_bind at 1. rewrite lift_bind.
    destruct (_extract_text_from_pdf w q) as [e|s]; [reflexivity|]. apply Hstep2. }
  destruct (PyStr.endswith (str_of text) ".pdf"); [apply Hpdf|].
  destruct file_path as [p|]; [|apply (Hstep2 text)].
  destruct (PyStr.endswith p ".pdf"); [apply Hpdf|apply (Hstep2 text)].
Qed.

(** Every agent by name. *)
Lemma extract_of_run (w : World) (a : AgentName) (text : TextArg)
    (file_path : option string) (log : Log) :
  extract_of a w text file_path log =
  match effective_text w a text file_path with
  | inl e => (inl e, log)
  | inr s =>
      match _extract_with_regex w a s with
      | inl e => (inl e, log)
      | inr ex =>
          if bool_decide (a = Bill) && all_in BillAgent.required_fields ex
          then (inr ex, log)
          else (inl (call_error a), log)
      end
  end.
Proof.
  destruct a; try (rewrite extract_run by discriminate; reflexivity).
  apply bill_extract_run.
Qed.



(** What [extract] returns, when it returns. *)
Lemma extract_of_returns (w : World) (a : AgentName) (text : TextArg)
    (file_path : option string) (log log' : Log) (r : PyDict) :
  extract_of a w text file_path log = (inr r, log') <->
  a = Bill /\ log' = log /\
  exists s, bill_text w text file_path = inr s /\
            _extract_with_regex w Bill s = inr r /\
            all_in BillAgent.required_fields r = true.
Proof.
  rewrite extract_of_run. split.
  - destruct (effective_text w a text file_path) as [e|s] eqn:Et; [discriminate|].
    destruct (_extract_with_regex w a s) as [e|ex] eqn:Ex; [discriminate|].
    destruct (bool_decide (a = Bill) && all_in BillAgent.required_fields ex) eqn:Eg;
      [|discriminate].
    apply andb_true_iff in Eg as [Ea Eall]. apply bool_decide_eq_true in Ea. subst a.
    intros H. injection H as <- <-. split; [reflexivity|]. split; [reflexivity|].
    exists s. auto.
  - intros (-> & -> & s & Et & Ex & Eall). cbn [effective_text].
    rewrite Et, Ex, Eall. reflexivity.
Qed.

Lemma extract_of_log (w : World) (a : AgentName) (text : TextArg)
    (file_path : option string) (log : Log) :
  snd (extract_of a w text file_path log) = log.
Proof.
  rewrite extract_of_run.
  destruct (effective_text w a text file_path) as [e|s]; [reflexivity|].
  destruct (_extract_with_regex w a s) as [e|ex]; [reflexivity|].
  destruct (bool_decide (a = Bill) && all_in BillAgent.required_fields ex); reflexivity.
Qed.


(** The merge of the design document, were it reached: the fallback
    value of [total_amount] wins and [hospital_name] is added. *)
Example dict_update_example :
  dict_update
    (list_to_map [("total_amount", VFloat 100)])
    (list_to_map [("total_amount", VInt 150); ("hospital_name", VStr "X")])
  = list_to_map [("total_amount", VInt 150); ("hospital_name", VStr "X")].
Proof. vm_compute. reflexivity. Qed.

(** C7, as the code has it. Only the bill agent gates the fallback pass:
    when its deterministic pass found [total_amount] and
    [date_of_service] it returns the deterministic record and the
    fallback pass is not entered. In every other case (the bill agent
    with a required field left out; the discharge, ID card, prescription
    and lab report agents whatever their deterministic pass found) the
    fallback pass is entered, and what it raises is what [extract]
    raises. *)
Theorem fallback_pass_gating
    (w : World) (a : AgentName) (text : TextArg) (file_path : option string)
    (log : Log) (s : string) (ex : PyDict) :
  effective_text w a text file_path = inr s ->
  _extract_with_regex w a s = inr ex ->
  (a = Bill -> all_in BillAgent.required_fields ex = true ->
     extract_of a w text file_path log = (inr ex, log))
  /\ ((a = Bill -> all_in BillAgent.required_fields ex = false) ->
      forall (e : Exn) (log' : Log),
        fallback_of a w (TStr s) log = (inl e, log') ->
        extract_of a w text file_path log = (inl e, log')).
Proof.
  intros Et Ex. rewrite extract_of_run, Et, Ex. split.
  - intros -> ->. reflexivity.
  - intros Hb e log' Hf. rewrite fallback_of_run in Hf. injection Hf as <- <-.
    destruct (decide (a = Bill)) as [Ha|Ha].
    + rewrite (Hb Ha), andb_false_r. reflexivity.
    + rewrite bool_decide_eq_false_2 by exact Ha. reflexivity.
Qed.

(** A bill whose deterministic pass is complete: the deterministic
    record is returned. *)
Lemma fallback_pass_gating_bill :
  extract_of Bill complete_regex_world (TStr "HOSPITAL BILL") None []
    = (inr complete_regex_record, []).
Proof.
  apply (proj1 (fallback_pass_gating complete_regex_world Bill (TStr "HOSPITAL BILL")
                  None [] "HOSPITAL BILL" complete_regex_record eq_refl eq_refl));
    reflexivity.
Defined.

(** The ID card agent enters the fallback pass although its
    deterministic pass found every required field: [extract] ends with
    the fallback pass's exception instead of returning the deterministic
    record, contrary to the design document. *)
Lemma id_card_fallback_despite_complete_regex :
  _extract_with_regex complete_regex_world IdCard "ID CARD" = inr complete_regex_record
  /\ all_in IdCardAgent.required_fields complete_regex_record = true
  /\ IdCardAgent._extract_with_llm complete_regex_world (TStr "ID CARD") []
       = (inl (call_error IdCard), [])
  /\ IdCardAgent.extract complete_regex_world (TStr "ID CARD") None []
       = (inl (call_error IdCard), [])
  /\ ~ (forall (w : World) (s : string) (log : Log) (ex : PyDict),
          _extract_with_regex w IdCard s = inr ex ->
          all_in IdCardAgent.required_fields ex = true ->
          IdCardAgent.extract w (TStr s) None log = (inr ex, log)).
Proof.
  split; [reflexivity|]. split; [vm_compute; reflexivity|].
  split; [reflexivity|]. split; [vm_compute; reflexivity|].
  intros H.
  specialize (H complete_regex_world "ID CARD" [] complete_regex_record eq_refl).
  assert (Hall : all_in IdCardAgent.required_fields complete_regex_record = true)
    by (vm_compute; reflexivity).
  specialize (H Hall).
  change (IdCardAgent.extract complete_regex_world (TStr "ID CARD") None [])
    with (extract_of IdCard complete_regex_world (TStr "ID CARD") None []) in H.
  rewrite extract_run in H by discriminate. discriminate H.
Qed.

(** ** The lab report agent's reported date *)

(** C10. The lab report agent never gets to the line that fills in
    [date_reported]: on a [str] its deterministic pass is followed by the
    fallback pass, which raises [AttributeError] when it looks up
    [_call_llm]; on a [Path], which is what the claim processor hands it,
    [re.findall] raises [TypeError]. No lab report extraction returns, no
    record carries the processing date, and the outcome does not depend
    on the clock. *)
Theorem lab_report_extract_never_returns :
  (forall (w : World) (text : TextArg) (file_path : option string) (log : Log),
     LabReportAgent.extract w text file_path log =
       match text with
       | TPath _ =>
           (inl (mkExn TypeError
                   "expected string or bytes-like object, got 'PosixPath'"), log)
       | TStr s =>
           match _extract_with_regex w LabReport s with
           | inl e => (inl e, log)
           | inr _ =>
               (inl (mkExn AttributeError
                       "'LabReportAgent' object has no attribute '_call_llm'"), log)
           end
       end)
  /\ (forall (w : World) (text : TextArg) (file_path : option string)
             (log log' : Log) (r : PyDict),
        LabReportAgent.extract w text file_path log <> (inr r, log'))
  /\ (_extract_with_regex lab_world LabReport "Glucose: 95 mg/dL" = inr lab_record
      /\ all_in LabReportAgent.required_fields lab_record = true
      /\ lab_record !! "date_reported" = None
      /\ LabReportAgent.extract lab_world (TStr "Glucose: 95 mg/dL") None []
           = (inl (call_error LabReport), [])
      /\ LabReportAgent.extract lab_world (TPath "claims/lab.pdf") None []
           = (inl (mkExn TypeError
                     "expected string or bytes-like object, got 'PosixPath'"), []))
  /\ (forall (backend : Log -> string -> Result string)
             (regex : AgentName -> string -> Result PyDict)
             (c1 c2 : Datetime.date) (text : TextArg) (file_path : option string)
             (log : Log),
        LabReportAgent.extract (make_world backend regex c1) text file_path log
        = LabReportAgent.extract (make_world backend regex c2) text file_path log).
Proof.
  assert (Hrun : forall w text file_path log,
    LabReportAgent.extract w text file_path log =
      match text with
      | TPath _ =>
          (inl (mkExn TypeError
                  "expected string or bytes-like object, got 'PosixPath'"), log)
      | TStr s =>
          match _extract_with_regex w LabReport s with
          | inl e => (inl e, log)
          | inr _ =>
              (inl (mkExn AttributeError
                      "'LabReportAgent' object has no attribute '_call_llm'"), log)
          end
      end).
  { intros w text file_path log.
    change (LabReportAgent.extract w text file_path log)
      with (extract_of LabReport w text file_path log).
    rewrite extract_run by discriminate.
    destruct text as [s|p]; cbn [effective_text]; [|reflexivity].
    unfold Ok. destruct (_extract_with_regex w LabReport s); reflexivity. }
  split; [exact Hrun|]. split.
  { intros w text file_path log log' r. rewrite Hrun.
    destruct text as [s|p]; [|discriminate].
    destruct (_extract_with_regex w LabReport s); discriminate. }
  split.
  { split; [reflexivity|]. split; [vm_compute; reflexivity|].
    split; [vm_compute; reflexivity|]. split; rewrite Hrun; reflexivity. }
  intros backend regex c1 c2 text file_path log. rewrite !Hrun. reflexivity.
Qed.

(** X9. The only record an extraction agent ever returns is the bill
    agent's deterministic record: [extract] of an agent returns exactly
    when the agent is the bill agent, the bill's text is there and its
    deterministic pass found [total_amount] and [date_of_service]; the
    record returned is what that pass found, unchanged. The discharge,
    ID card, prescription and lab report agents never return. *)
Theorem extract_returns_bill_regex_record
    (w : World) (a : AgentName) (text : TextArg) (file_path : option string)
    (log log' : Log) (r : PyDict) :
  extract_of a w text file_path log = (inr r, log') <->
  a = Bill /\ log' = log /\
  exists s, bill_text w text file_path = inr s /\
            _extract_with_regex w Bill s = inr r /\
            all_in BillAgent.required_fields r = true.
Proof. apply extract_of_returns. Qed.

Example extract_returns_bill_regex_record_desk :
  extract_of Bill desk_world (TPath "claims/a.pdf") None []
    = (inr bill_regex_record, []).
Proof.
  apply extract_returns_bill_regex_record. split; [reflexivity|].
  split; [reflexivity|]. exists "claims/a.pdf".
  split; [reflexivity|]. split; [reflexivity|]. vm_compute. reflexivity.
Qed.

Lemma agent_process_log (t : DocumentType) (ag : BaseExtractionAgent) (w : World)
    (text : TextArg) (file_path : option string) (log : Log) :
  ClaimProcessor.agents t = Some ag ->
  snd (process ag w text file_path log) = log.
Proof.
  intros Hag. unfold process, mbind, M_bind.
  assert (Hlog : snd (extract ag w text file_path log) = log).
  { destruct t; try discriminate Hag; injection Hag as <-;
      cbn [extract BillAgent.agent DischargeAgent.agent IdCardAgent.agent
           PrescriptionAgent.agent LabReportAgent.agent].
    - apply (extract_of_log w Bill).
    - apply (extract_of_log w Discharge).
    - apply (extract_of_log w IdCard).
    - apply (extract_of_log w Prescription).
    - apply (extract_of_log w LabReport). }
  destruct (extract ag w text file_path log) as [[e|d] log1]; cbn [snd] in Hlog |- *;
    [exact Hlog|].
  unfold lift. cbn [snd]. exact Hlog.
Qed.

(** X10. No extraction agent ever sends a prompt: whatever the argument
    and the world, [extract] and [process] of the five agents leave the
    sequence of prompts sent to the backend as it was. *)
Theorem extraction_sends_no_prompt
    (w : World) (a : AgentName) (text : TextArg) (file_path : option string)
    (log : Log) :
  snd (extract_of a w text file_path log) = log
  /\ forall (t : DocumentType) (ag : BaseExtractionAgent),
       ClaimProcessor.agents t = Some ag ->
       snd (process ag w text file_path log) = log.
Proof.
  split; [apply extract_of_log|].
  intros t ag Hag. eapply agent_process_log, Hag.
Qed.

(** ** Model validation and [ClaimDocument.parse_obj] *)

Lemma mapM_as_dict (l : list PyDict) : mapM Pydantic.as_dict (VDict <$> l) = Some l.
Proof. induction l as [|x l IH]; [reflexivity|]. cbn. rewrite IH. reflexivity. Qed.

Lemma mapM_as_str (l : list string) : mapM Pydantic.as_str (VStr <$> l) = Some l.
Proof. induction l as [|x l IH]; [reflexivity|]. cbn. rewrite IH. reflexivity. Qed.

Lemma as_opt_str (o : option string) :
  Pydantic.as_opt Pydantic.as_str (Pydantic.of_opt VStr o) = Some o.
Proof. destruct o; reflexivity. Qed.

Lemma as_opt_date (o : option Datetime.date) :
  Pydantic.as_opt Pydantic.as_date (Pydantic.of_opt VDate o) = Some o.
Proof. destruct o; reflexivity. Qed.

Lemma as_list_dict (l : list PyDict) :
  Pydantic.as_list Pydantic.as_dict (Pydantic.of_list VDict l) = Some l.
Proof. apply mapM_as_dict. Qed.

Lemma as_opt_list_dict (o : option (list PyDict)) :
  Pydantic.as_opt (Pydantic.as_list Pydantic.as_dict)
    (Pydantic.of_opt (Pydantic.of_list VDict) o) = Some o.
Proof. destruct o as [l|]; [|reflexivity]. cbn. rewrite mapM_as_dict. reflexivity. Qed.

Lemma as_opt_list_str (o : option (list string)) :
  Pydantic.as_opt (Pydantic.as_list Pydantic.as_str)
    (Pydantic.of_opt (Pydantic.of_list VStr) o) = Some o.
Proof. destruct o as [l|]; [|reflexivity]. cbn. rewrite mapM_as_str. reflexivity. Qed.

Lemma as_float_gt0_pos (f : float) :
  PrimFloat.ltb 0 f = true -> Pydantic.as_float_gt0 (VFloat f) = Some f.
Proof. intros H. unfold Pydantic.as_float_gt0. cbn. rewrite H. reflexivity. Qed.

Lemma as_literal_same (t : DocumentType) : Pydantic.as_literal t (VDocType t) = Some ().
Proof. unfold Pydantic.as_literal. rewrite decide_True by reflexivity. reflexivity. Qed.

Lemma as_literal_other (t t' : DocumentType) :
  t' <> t -> Pydantic.as_literal t (VDocType t') = None.
Proof. intros H. unfold Pydantic.as_literal. rewrite decide_False by exact H. reflexivity. Qed.

Ltac lookup_simpl :=
  repeat first
    [ rewrite lookup_insert_eq
    | rewrite lookup_insert_ne by discriminate
    | rewrite lookup_empty ].

Ltac roundtrip_simpl :=
  rewrite ?as_literal_same, ?as_opt_str, ?as_opt_date, ?as_opt_list_dict,
    ?as_opt_list_str, ?as_list_dict;
  cbn [Pydantic.as_str Pydantic.as_date mbind Result_bind Ok].

Lemma bill_roundtrip (x : BillDocument.t) (file_name : string) (size : Z) :
  PrimFloat.ltb 0 (BillDocument.total_amount x) = true ->
  BillDocument.validate
    (<["file_size" := VInt size]> (<["file_name" := VStr file_name]> (BillDocument.dict x)))
  = inr x.
Proof.
  intros Hpos. destruct x. cbn [BillDocument.total_amount] in Hpos.
  unfold BillDocument.validate, BillDocument.dict, Pydantic.required, Pydantic.defaulted.
  cbn [list_to_map foldr fst snd BillDocument.hospital_name BillDocument.total_amount
       BillDocument.date_of_service BillDocument.patient_name BillDocument.patient_id
       BillDocument.items BillDocument.diagnosis_codes BillDocument.procedure_codes].
  lookup_simpl. rewrite (as_float_gt0_pos _ Hpos). roundtrip_simpl. reflexivity.
Qed.

Lemma discharge_roundtrip (x : DischargeSummaryDocument.t) (file_name : string) (size : Z) :
  DischargeSummaryDocument.validate
    (<["file_size" := VInt size]>
       (<["file_name" := VStr file_name]> (DischargeSummaryDocument.dict x)))
  = inr x.
Proof.
  destruct x.
  unfold DischargeSummaryDocument.validate, DischargeSummaryDocument.dict,
    Pydantic.required, Pydantic.defaulted.
  cbn [list_to_map foldr fst snd DischargeSummaryDocument.patient_name
       DischargeSummaryDocument.patient_id DischargeSummaryDocument.admission_date
       DischargeSummaryDocument.discharge_date DischargeSummaryDocument.diagnosis
       DischargeSummaryDocument.secondary_diagnoses DischargeSummaryDocument.procedures
       DischargeSummaryDocument.discharge_instructions].
  lookup_simpl. roundtrip_simpl. reflexivity.
Qed.

Lemma id_card_roundtrip (x : IdCardDocument.t) (file_name : string) (size : Z) :
  IdCardDocument.validate
    (<["file_size" := VInt size]> (<["file_name" := VStr file_name]> (IdCardDocument.dict x)))
  = inr x.
Proof.
  destruct x.
  unfold IdCardDocument.validate, IdCardDocument.dict, Pydantic.required, Pydantic.defaulted.
  cbn [list_to_map foldr fst snd IdCardDocument.insurance_provider
       IdCardDocument.policy_number IdCardDocument.group_number IdCardDocument.member_id
       IdCardDocument.member_name IdCardDocument.relationship
       IdCardDocument.effective_date IdCardDocument.expiration_date].
  lookup_simpl. roundtrip_simpl. reflexivity.
Qed.

Lemma prescription_roundtrip (x : PrescriptionDocument.t) (file_name : string) (size : Z) :
  PrescriptionDocument.validate
    (<["file_size" := VInt size]>
       (<["file_name" := VStr file_name]> (PrescriptionDocument.dict x)))
  = inr x.
Proof.
  destruct x.
  unfold PrescriptionDocument.validate, PrescriptionDocument.dict,
    Pydantic.required, Pydantic.defaulted.
  cbn [list_to_map foldr fst snd PrescriptionDocument.patient_name
       PrescriptionDocument.date_prescribed PrescriptionDocument.medications
       PrescriptionDocument.prescriber_name PrescriptionDocument.prescriber_license
       PrescriptionDocument.instructions].
  lookup_simpl. roundtrip_simpl. reflexivity.
Qed.

Lemma lab_report_roundtrip (x : LabReportDocument.t) (file_name : string) (size : Z) :
  LabReportDocument.validate
    (<["file_size" := VInt size]>
       (<["file_name" := VStr file_name]> (LabReportDocument.dict x)))
  = inr x.
Proof.
  destruct x.
  unfold LabReportDocument.validate, LabReportDocument.dict,
    Pydantic.required, Pydantic.defaulted.
  cbn [list_to_map foldr fst snd LabReportDocument.patient_name
       LabReportDocument.patient_id LabReportDocument.date_collected
       LabReportDocument.date_reported LabReportDocument.test_results
       LabReportDocument.lab_name LabReportDocument.ordering_physician].
  lookup_simpl. roundtrip_simpl. reflexivity.
Qed.

Lemma with_file_metadata_type (x : Document) (file_path : string) (size : Z) :
  with_file_metadata x file_path size !! "type" = Some (VDocType (Document_type x)).
Proof.
  unfold with_file_metadata. rewrite !lookup_insert_ne by discriminate.
  destruct x; unfold Document_dict, BillDocument.dict, DischargeSummaryDocument.dict,
    IdCardDocument.dict, PrescriptionDocument.dict, LabReportDocument.dict;
    cbn [list_to_map foldr fst snd]; apply lookup_insert_eq.
Qed.

(** A model rejects a dictionary whose [type] entry is another member
    of the enumeration. *)
Lemma bill_validate_type (d : PyDict) (t : DocumentType) (x : BillDocument.t) :
  d !! "type" = Some (VDocType t) -> BillDocument.validate d = inr x -> t = BILL.
Proof.
  intros Ht. unfold BillDocument.validate, Pydantic.defaulted. rewrite Ht.
  destruct (decide (t = BILL)) as [->|Hne]; [reflexivity|].
  rewrite (as_literal_other _ _ Hne). discriminate.
Qed.

Lemma discharge_validate_type (d : PyDict) (t : DocumentType)
    (x : DischargeSummaryDocument.t) :
  d !! "type" = Some (VDocType t) ->
  DischargeSummaryDocument.validate d = inr x -> t = DISCHARGE_SUMMARY.
Proof.
  intros Ht. unfold DischargeSummaryDocument.validate, Pydantic.defaulted. rewrite Ht.
  destruct (decide (t = DISCHARGE_SUMMARY)) as [->|Hne]; [reflexivity|].
  rewrite (as_literal_other _ _ Hne). discriminate.
Qed.

Lemma id_card_validate_type (d : PyDict) (t : DocumentType) (x : IdCardDocument.t) :
  d !! "type" = Some (VDocType t) -> IdCardDocument.validate d = inr x -> t = ID_CARD.
Proof.
  intros Ht. unfold IdCardDocument.validate, Pydantic.defaulted. rewrite Ht.
  destruct (decide (t = ID_CARD)) as [->|Hne]; [reflexivity|].
  rewrite (as_literal_other _ _ Hne). discriminate.
Qed.

Lemma prescription_validate_type (d : PyDict) (t : DocumentType)
    (x : PrescriptionDocument.t) :
  d !! "type" = Some (VDocType t) ->
  PrescriptionDocument.validate d = inr x -> t = PRESCRIPTION.
Proof.
  intros Ht. unfold PrescriptionDocument.validate, Pydantic.defaulted. rewrite Ht.
  destruct (decide (t = PRESCRIPTION)) as [->|Hne]; [reflexivity|].
  rewrite (as_literal_other _ _ Hne). discriminate.
Qed.

Lemma lab_report_validate_type (d : PyDict) (t : DocumentType) (x : LabReportDocument.t) :
  d !! "type" = Some (VDocType t) -> LabReportDocument.validate d = inr x -> t = LAB_REPORT.
Proof.
  intros Ht. unfold LabReportDocument.validate, Pydantic.defaulted. rewrite Ht.
  destruct (decide (t = LAB_REPORT)) as [->|Hne]; [reflexivity|].
  rewrite (as_literal_other _ _ Hne). discriminate.
Qed.

(** The union yields a document of the type its dictionary names. *)
Lemma parse_obj_type (d : PyDict) (t : DocumentType) (doc : ClaimDocument.t) :
  d !! "type" = Some (VDocType t) ->
  ClaimDocument.parse_obj d = inr doc -> Document_type (ClaimDocument.root doc) = t.
Proof.
  intros Ht. unfold ClaimDocument.parse_obj.
  destruct (BillDocument.validate d) eqn:E1.
  2:{ intros [= <-]. symmetry. eapply bill_validate_type; eauto. }
  destruct (DischargeSummaryDocument.validate d) eqn:E2.
  2:{ intros [= <-]. symmetry. eapply discharge_validate_type; eauto. }
  destruct (IdCardDocument.validate d) eqn:E3.
  2:{ intros [= <-]. symmetry. eapply id_card_validate_type; eauto. }
  destruct (PrescriptionDocument.validate d) eqn:E4.
  2:{ intros [= <-]. symmetry. eapply prescription_validate_type; eauto. }
  destruct (LabReportDocument.validate d) eqn:E5.
  2:{ intros [= <-]. symmetry. eapply lab_report_validate_type; eauto. }
  discriminate.
Qed.

Lemma validate_other_type {T} (v : PyDict -> Result T) (d : PyDict) (t t0 : DocumentType) :
  (forall x, d !! "type" = Some (VDocType t) -> v d = inr x -> t = t0) ->
  d !! "type" = Some (VDocType t) -> t <> t0 -> exists e, v d = inl e.
Proof.
  intros H Ht Hne. destruct (v d) as [e|x] eqn:E; [eauto|].
  contradiction Hne. eapply H; eauto.
Qed.

(** Re-validating a record together with the file's name and size gives
    the record back. *)
Lemma parse_obj_roundtrip (x : Document) (file_path : string) (size : Z) :
  Document_wf x ->
  ClaimDocument.parse_obj (with_file_metadata x file_path size)
  = inr (ClaimDocument.mk x).
Proof.
  intros Hwf. pose proof (with_file_metadata_type x file_path size) as Ht.
  unfold ClaimDocument.parse_obj.
  destruct x as [x|x|x|x|x]; cbn [Document_type] in Ht.
  - unfold with_file_metadata, Document_dict. rewrite bill_roundtrip by exact Hwf.
    reflexivity.
  - destruct (validate_other_type BillDocument.validate _ _ BILL
                (bill_validate_type _ _) Ht) as [e ->]; [discriminate|].
    unfold with_file_metadata, Document_dict. rewrite discharge_roundtrip. reflexivity.
  - destruct (validate_other_type BillDocument.validate _ _ BILL
                (bill_validate_type _ _) Ht) as [e ->]; [discriminate|].
    destruct (validate_other_type DischargeSummaryDocument.validate _ _ DISCHARGE_SUMMARY
                (discharge_validate_type _ _) Ht) as [e' ->]; [discriminate|].
    unfold with_file_metadata, Document_dict. rewrite id_card_roundtrip. reflexivity.
  - destruct (validate_other_type BillDocument.validate _ _ BILL
                (bill_validate_type _ _) Ht) as [e ->]; [discriminate|].
    destruct (validate_other_type DischargeSummaryDocument.validate _ _ DISCHARGE_SUMMARY
                (discharge_validate_type _ _) Ht) as [e' ->]; [discriminate|].
    destruct (validate_other_type IdCardDocument.validate _ _ ID_CARD
                (id_card_validate_type _ _) Ht) as [e'' ->]; [discriminate|].
    unfold with_file_metadata, Document_dict. rewrite prescription_roundtrip. reflexivity.
  - destruct (validate_other_type BillDocument.validate _ _ BILL
                (bill_validate_type _ _) Ht) as [e ->]; [discriminate|].
    destruct (validate_other_type DischargeSummaryDocument.validate _ _ DISCHARGE_SUMMARY
                (discharge_validate_type _ _) Ht) as [e' ->]; [discriminate|].
    destruct (validate_other_type IdCardDocument.validate _ _ ID_CARD
                (id_card_validate_type _ _) Ht) as [e'' ->]; [discriminate|].
    destruct (validate_other_type PrescriptionDocument.validate _ _ PRESCRIPTION
                (prescription_validate_type _ _) Ht) as [e''' ->]; [discriminate|].
    unfold with_file_metadata, Document_dict. rewrite lab_report_roundtrip. reflexivity.
Qed.

(** No model accepts the dictionary built in the [except] branch: it
    holds none of their required fields. *)
Lemma parse_obj_error_document (t : DocumentType) (file_path : string) (e : Exn) :
  ClaimDocument.parse_obj (ClaimProcessor.error_document t file_path e) = inl union_error.
Proof.
  unfold ClaimDocument.parse_obj.
  assert (H1 : exists x, BillDocument.validate
                 (ClaimProcessor.error_document t file_path e) = inl x).
  { unfold BillDocument.validate, Pydantic.required, Pydantic.defaulted,
      ClaimProcessor.error_document.
    cbn [list_to_map foldr fst snd]. lookup_simpl.
    destruct (Pydantic.as_literal BILL (VDocType t)); cbn; eauto. }
  assert (H2 : exists x, DischargeSummaryDocument.validate
                 (ClaimProcessor.error_document t file_path e) = inl x).
  { unfold DischargeSummaryDocument.validate, Pydantic.required, Pydantic.defaulted,
      ClaimProcessor.error_document.
    cbn [list_to_map foldr fst snd]. lookup_simpl.
    destruct (Pydantic.as_literal DISCHARGE_SUMMARY (VDocType t)); cbn; eauto. }
  assert (H3 : exists x, IdCardDocument.validate
                 (ClaimProcessor.error_document t file_path e) = inl x).
  { unfold IdCardDocument.validate, Pydantic.required, Pydantic.defaulted,
      ClaimProcessor.error_document.
    cbn [list_to_map foldr fst snd]. lookup_simpl.
    destruct (Pydantic.as_literal ID_CARD (VDocType t)); cbn; eauto. }
  assert (H4 : exists x, PrescriptionDocument.validate
                 (ClaimProcessor.error_document t file_path e) = inl x).
  { unfold PrescriptionDocument.validate, Pydantic.required, Pydantic.defaulted,
      ClaimProcessor.error_document.
    cbn [list_to_map foldr fst snd]. lookup_simpl.
    destruct (Pydantic.as_literal PRESCRIPTION (VDocType t)); cbn; eauto. }
  assert (H5 : exists x, LabReportDocument.validate
                 (ClaimProcessor.error_document t file_path e) = inl x).
  { unfold LabReportDocument.validate, Pydantic.required, Pydantic.defaulted,
      ClaimProcessor.error_document.
    cbn [list_to_map foldr fst snd]. lookup_simpl.
    destruct (Pydantic.as_literal LAB_REPORT (VDocType t)); cbn; eauto. }
  destruct H1 as [? ->], H2 as [? ->], H3 as [? ->], H4 as [? ->], H5 as [? ->].
  reflexivity.
Qed.

Lemma required_ok {T} (d : PyDict) (k : string) (f : PyVal -> option T) (x : T) :
  Pydantic.required d k f = inr x -> exists v, d !! k = Some v /\ f v = Some x.
Proof.
  unfold Pydantic.required. destruct (d !! k) as [v|]; [|discriminate].
  destruct (f v) as [y|] eqn:E; [|discriminate]. intros [= <-]. eauto.
Qed.

Lemma as_float_gt0_ok (v : PyVal) (f : float) :
  Pydantic.as_float_gt0 v = Some f -> PrimFloat.ltb 0 f = true.
Proof.
  unfold Pydantic.as_float_gt0. destruct (Pydantic.as_float v) as [g|]; [|discriminate].
  cbn. destruct (PrimFloat.ltb 0 g) eqn:E; [|discriminate]. intros [= <-]. exact E.
Qed.

(** A validated bill has a positive total. *)
Lemma bill_validate_wf (d : PyDict) (x : BillDocument.t) :
  BillDocument.validate d = inr x ->
  PrimFloat.ltb 0 (BillDocument.total_amount x) = true.
Proof.
  unfold BillDocument.validate.
  destruct (Pydantic.defaulted d "type" _ _); [discriminate|]. cbn [mbind Result_bind].
  destruct (Pydantic.required d "hospital_name" _); [discriminate|].
  cbn [mbind Result_bind].
  destruct (Pydantic.required d "total_amount" _) as [|total] eqn:Et; [discriminate|].
  cbn [mbind Result_bind].
  destruct (Pydantic.required d "date_of_service" _); [discriminate|].
  cbn [mbind Result_bind].
  destruct (Pydantic.defaulted d "patient_name" _ _); [discriminate|].
  cbn [mbind Result_bind].
  destruct (Pydantic.defaulted d "patient_id" _ _); [discriminate|].
  cbn [mbind Result_bind].
  destruct (Pydantic.defaulted d "items" _ _); [discriminate|].
  cbn [mbind Result_bind].
  destruct (Pydantic.defaulted d "diagnosis_codes" _ _); [discriminate|].
  cbn [mbind Result_bind].
  destruct (Pydantic.defaulted d "procedure_codes" _ _); [discriminate|].
  cbn [mbind Result_bind]. intros [= <-]. cbn [BillDocument.total_amount].
  apply required_ok in Et as (v & _ & Hv). eapply as_float_gt0_ok, Hv.
Qed.

(** What an agent's [validate] returns is an instance of its own model. *)
Lemma agent_validate (t : DocumentType) (ag : BaseExtractionAgent) (d : PyDict)
    (x : Document) :
  ClaimProcessor.agents t = Some ag -> validate ag d = inr x ->
  Document_type x = t /\ Document_wf x.
Proof.
  unfold validate.
  destruct t; intros [= <-]; cbn [output_model BillAgent.agent DischargeAgent.agent
    IdCardAgent.agent PrescriptionAgent.agent LabReportAgent.agent].
  - destruct (BillDocument.validate d) as [|b] eqn:E; [discriminate|].
    intros [= <-]. split; [reflexivity|]. cbn. eapply bill_validate_wf, E.
  - destruct (DischargeSummaryDocument.validate d); [discriminate|].
    intros [= <-]. split; [reflexivity|exact I].
  - destruct (IdCardDocument.validate d); [discriminate|].
    intros [= <-]. split; [reflexivity|exact I].
  - destruct (PrescriptionDocument.validate d); [discriminate|].
    intros [= <-]. split; [reflexivity|exact I].
  - destruct (LabReportDocument.validate d); [discriminate|].
    intros [= <-]. split; [reflexivity|exact I].
Qed.

Lemma process_result (ag : BaseExtractionAgent) (w : World) (text : TextArg)
    (file_path : option string) (log log' : Log) (x : Document) :
  process ag w text file_path log = (inr x, log') ->
  exists d, validate ag d = inr x.
Proof.
  unfold process, mbind, M_bind, lift.
  destruct (extract ag w text file_path log) as [[e|d] l]; [discriminate|].
  intros [= H _]. eauto.
Qed.


(** ** The orchestrator, one document at a time *)

Lemma process_one_unknown (w : World) (file_path : string) (log : Log) :
  ClaimProcessor.process_one w file_path UNKNOWN log = (inr None, log).
Proof. reflexivity. Qed.

(** A document whose agent raises: the [except] branch raises in turn. *)
Lemma process_one_raises (w : World) (file_path : string) (t : DocumentType)
    (ag : BaseExtractionAgent) (log log' : Log) (e : Exn) :
  ClaimProcessor.agents t = Some ag ->
  process ag w (TPath file_path) None log = (inl e, log') ->
  ClaimProcessor.process_one w file_path t log = (inl union_error, log').
Proof.
  intros Hag Hp. unfold ClaimProcessor.process_one.
  destruct (decide (t = UNKNOWN)) as [->|_]; [discriminate|].
  rewrite Hag. unfold try_except.
  unfold mbind at 1; unfold M_bind at 1. rewrite Hp.
  unfold mbind, M_bind, lift. rewrite parse_obj_error_document. reflexivity.
Qed.

(** A document whose agent returns and whose size can be read is
    appended as the agent's record. *)
Lemma process_one_returns (w : World) (file_path : string) (t : DocumentType)
    (ag : BaseExtractionAgent) (log log' : Log) (x : Document) (size : Z) :
  ClaimProcessor.agents t = Some ag ->
  process ag w (TPath file_path) None log = (inr x, log') ->
  st_size w file_path = inr size ->
  ClaimProcessor.process_one w file_path t log = (inr (Some (ClaimDocument.mk x)), log').
Proof.
  intros Hag Hp Hs. unfold ClaimProcessor.process_one.
  destruct (decide (t = UNKNOWN)) as [->|_]; [discriminate|].
  rewrite Hag. unfold try_except.
  unfold mbind at 1; unfold M_bind at 1. rewrite Hp.
  unfold mbind at 1; unfold M_bind at 1; unfold lift at 1. rewrite Hs.
  destruct (process_result _ _ _ _ _ _ _ Hp) as [d Hd].
  destruct (agent_validate _ _ _ _ Hag Hd) as [_ Hwf].
  unfold mbind at 1; unfold M_bind at 1; unfold lift at 1.
  change (<["file_size":=VInt size]> (<["file_name":=VStr (path_name file_path)]>
            (Document_dict x)))
    with (with_file_metadata x file_path size).
  rewrite (parse_obj_roundtrip _ _ _ Hwf). reflexivity.
Qed.

(** Whatever [process_one] appends is the record its type's agent
    returned for the file. *)
Lemma process_one_some (w : World) (file_path : string) (t : DocumentType)
    (log log' : Log) (doc : ClaimDocument.t) :
  ClaimProcessor.process_one w file_path t log = (inr (Some doc), log') ->
  t <> UNKNOWN /\ Document_type (ClaimDocument.root doc) = t /\
  exists ag, ClaimProcessor.agents t = Some ag /\
             process ag w (TPath file_path) None log = (inr (ClaimDocument.root doc), log').
Proof.
  intros H.
  destruct (decide (t = UNKNOWN)) as [->|Hne]; [discriminate H|].
  split; [exact Hne|].
  destruct (ClaimProcessor.agents t) as [ag|] eqn:Hag; [|destruct t; discriminate || now contradiction Hne].
  destruct (process ag w (TPath file_path) None log) as [[e|x] l] eqn:Hp.
  - rewrite (process_one_raises _ _ _ _ _ _ _ Hag Hp) in H. discriminate H.
  - destruct (st_size w file_path) as [e|size] eqn:Hs.
    + unfold ClaimProcessor.process_one in H.
      destruct (decide (t = UNKNOWN)); [contradiction|].
      rewrite Hag in H. unfold try_except in H.
      unfold mbind at 1 in H; unfold M_bind at 1 in H. rewrite Hp in H.
      unfold mbind at 1 in H; unfold M_bind at 1 in H; unfold lift at 1 in H.
      rewrite Hs in H. unfold mbind, M_bind, lift in H.
      rewrite parse_obj_error_document in H. discriminate H.
    + rewrite (process_one_returns _ _ _ _ _ _ _ _ Hag Hp Hs) in H.
      injection H as <- <-. cbn [ClaimDocument.root].
      destruct (process_result _ _ _ _ _ _ _ Hp) as [d Hd].
      destruct (agent_validate _ _ _ _ Hag Hd) as [Ht _].
      split; [exact Ht|]. exists ag. split; [reflexivity|exact Hp].
Qed.

Lemma process_one_none (w : World) (file_path : string) (t : DocumentType)
    (log log' : Log) :
  ClaimProcessor.process_one w file_path t log = (inr None, log') -> t = UNKNOWN.
Proof.
  intros H. destruct (decide (t = UNKNOWN)) as [|Hne]; [assumption|]. exfalso.
  destruct (ClaimProcessor.agents t) as [ag|] eqn:Hag;
    [|destruct t; discriminate || now contradiction Hne].
  destruct (process ag w (TPath file_path) None log) as [[e|x] l] eqn:Hp.
  - rewrite (process_one_raises _ _ _ _ _ _ _ Hag Hp) in H. discriminate H.
  - destruct (st_size w file_path) as [e|size] eqn:Hs.
    + unfold ClaimProcessor.process_one in H.
      destruct (decide (t = UNKNOWN)); [contradiction|].
      rewrite Hag in H. unfold try_except in H.
      unfold mbind at 1 in H; unfold M_bind at 1 in H. rewrite Hp in H.
      unfold mbind at 1 in H; unfold M_bind at 1 in H; unfold lift at 1 in H.
      rewrite Hs in H. unfold mbind, M_bind, lift in H.
      rewrite parse_obj_error_document in H. discriminate H.
    + rewrite (process_one_returns _ _ _ _ _ _ _ _ Hag Hp Hs) in H. discriminate H.
Qed.

(** ** The orchestrator over a batch *)

Lemma process_from_outcomes (w : World) (cds : list (string * DocumentType)) :
  forall (acc : list ClaimDocument.t) (log log' : Log) (out : list ClaimDocument.t),
    ClaimProcessor.process_from w cds acc log = (inr out, log') ->
    exists docs,
      out = acc ++ docs /\ Forall2 (outcome_of w) (List.filter known cds) docs.
Proof.
  induction cds as [|[p t] rest IH]; intros acc log log' out H.
  - injection H as <- _. exists []. rewrite app_nil_r. split; [reflexivity|constructor].
  - cbn [ClaimProcessor.process_from] in H.
    unfold mbind at 1 in H; unfold M_bind at 1 in H.
    destruct (ClaimProcessor.process_one w p t log) as [[e|[doc|]] l] eqn:E;
      [discriminate H| |].
    + destruct (process_one_some _ _ _ _ _ _ E) as (Hne & Ht & ag & Hag & Hp).
      destruct (IH _ _ _ _ H) as (docs & -> & HF).
      exists (doc :: docs). rewrite <- app_assoc. split; [reflexivity|].
      cbn [List.filter]. unfold known at 1. cbn [snd].
      rewrite bool_decide_eq_false_2 by exact Hne. cbn [negb].
      constructor; [|exact HF]. split; [exact Ht|]. exists ag, log, l. auto.
    + apply process_one_none in E as ->.
      destruct (IH _ _ _ _ H) as (docs & -> & HF).
      exists docs. split; [reflexivity|exact HF].
Qed.

(** C2, as the code has it. When [_process_documents] returns, its list
    holds one document for every input that was not classified
    [UNKNOWN], in input order, each of the type assigned to its input and
    holding the record that type's agent returned; inputs classified
    [UNKNOWN] add nothing. A document whose agent returns and whose size
    can be read is appended as that record. *)
Theorem process_documents_outcomes :
  (forall (w : World) (cds : list (string * DocumentType)) (log log' : Log)
          (out : list ClaimDocument.t),
     ClaimProcessor._process_documents w cds log = (inr out, log') ->
     length out = length (List.filter known cds) /\
     Forall2 (outcome_of w) (List.filter known cds) out)
  /\ (forall (w : World) (file_path : string) (log : Log),
        ClaimProcessor.process_one w file_path UNKNOWN log = (inr None, log))
  /\ (forall (w : World) (file_path : string) (t : DocumentType)
             (ag : BaseExtractionAgent) (log log' : Log) (x : Document) (size : Z),
        ClaimProcessor.agents t = Some ag ->
        process ag w (TPath file_path) None log = (inr x, log') ->
        st_size w file_path = inr size ->
        ClaimProcessor.process_one w file_path t log
          = (inr (Some (ClaimDocument.mk x)), log')).
Proof.
  split; [|split].
  - intros w cds log log' out H.
    destruct (process_from_outcomes _ _ _ _ _ _ H) as (docs & -> & HF).
    cbn [app]. split; [|exact HF]. symmetry. eapply Forall2_length, HF.
  - intros. apply process_one_unknown.
  - intros. eapply process_one_returns; eauto.
Qed.

(** Two bills and a file of notes, classified: the two bills come back,
    in the order of their inputs. *)
Lemma process_documents_outcomes_desk :
  length [ClaimDocument.mk desk_bill; ClaimDocument.mk desk_bill]
  = length
      (List.filter known
         [("claims/a.pdf", BILL); ("claims/notes.txt", UNKNOWN);
          ("claims/c.pdf", BILL)])
  /\ Forall2 (outcome_of desk_world)
       (List.filter known
          [("claims/a.pdf", BILL); ("claims/notes.txt", UNKNOWN);
           ("claims/c.pdf", BILL)])
       [ClaimDocument.mk desk_bill; ClaimDocument.mk desk_bill].
Proof.
  apply (proj1 process_documents_outcomes desk_world
           [("claims/a.pdf", BILL); ("claims/notes.txt", UNKNOWN);
            ("claims/c.pdf", BILL)]
           [] []).
  vm_compute. reflexivity.
Defined.

(** A file the classifier does not recognise leaves no trace in the
    result: three files in, two documents out, the second of which
    belongs to the third file; a batch of notes alone comes back empty.
    The design document promises one outcome per input. *)
Lemma unknown_document_is_dropped :
  (exists claim log',
     ClaimProcessor.process_claim desk_world bills_and_notes [] = (inr claim, log') /\
     documents claim = [ClaimDocument.mk desk_bill; ClaimDocument.mk desk_bill] /\
     length (documents claim) <> length bills_and_notes)
  /\ (exists claim log',
        ClaimProcessor.process_claim desk_world ["claims/notes.txt"] []
          = (inr claim, log') /\
        documents claim = []).
Proof.
  split.
  - eexists _, _. split; [vm_compute; reflexivity|].
    split; [reflexivity|]. cbn. discriminate.
  - eexists _, _. split; [vm_compute; reflexivity|reflexivity].
Qed.

(** C1 on the code. Three bills, of the second of which the
    deterministic pass finds neither amount nor date: the bill agent
    enters its fallback pass, which raises [AttributeError] when it looks
    up [_call_llm], before anything is sent to the backend. The [except]
    branch of [_process_documents] then asks the union for a document
    with keys [type], [file_name], [error] and [status], which no member
    accepts, and its [ValidationError] leaves [process_claim]: no
    [ProcessedClaim] is returned, and the only prompts sent are the three
    of the classifier. Without the second bill the batch returns both
    documents. *)
Theorem process_claim_extraction_failure_escapes :
  (forall log : Log,
     BillAgent.extract desk_world (TPath "claims/b.pdf") None log
       = (inl (mkExn AttributeError "'BillAgent' object has no attribute '_call_llm'"),
          log))
  /\ ClaimDocument.parse_obj
       (ClaimProcessor.error_document BILL "claims/b.pdf"
          (mkExn AttributeError "'BillAgent' object has no attribute '_call_llm'"))
     = inl union_error
  /\ ClaimProcessor.process_claim desk_world three_bills []
     = (inl union_error,
        ["a.pdf: claims/a.pdf"; "b.pdf: claims/b.pdf"; "c.pdf: claims/c.pdf"])
  /\ (exists claim,
        ClaimProcessor.process_claim desk_world two_bills []
          = (inr claim, ["a.pdf: claims/a.pdf"; "c.pdf: claims/c.pdf"]) /\
        documents claim = [ClaimDocument.mk desk_bill; ClaimDocument.mk desk_bill]).
Proof.
  split; [|split; [|split]].
  - intros log. rewrite bill_extract_run. reflexivity.
  - apply parse_obj_error_document.
  - vm_compute. reflexivity.
  - eexists. split; [vm_compute; reflexivity|reflexivity].
Qed.

(** Whenever a document's agent raises, so does its turn of the loop,
    whatever the other documents are. *)
Lemma process_from_raises (w : World) (file_path : string) (t : DocumentType)
    (ag : BaseExtractionAgent) (rest : list (string * DocumentType))
    (acc : list ClaimDocument.t) (log log' : Log) (e : Exn) :
  ClaimProcessor.agents t = Some ag ->
  process ag w (TPath file_path) None log = (inl e, log') ->
  ClaimProcessor.process_from w ((file_path, t) :: rest) acc log = (inl union_error, log').
Proof.
  intros Hag Hp. cbn [ClaimProcessor.process_from].
  unfold mbind at 1; unfold M_bind at 1.
  rewrite (process_one_raises _ _ _ _ _ _ _ Hag Hp). reflexivity.
Qed.

(** ** Classification of a batch *)

Lemma classify_single_doc_run (w : World) (file_path : string) (log : Log) :
  exists t log',
    ClaimProcessor._classify_single_doc w file_path log = (inr (file_path, t), log') /\
    ClassifierAgent.classify_document w file_path log = (inr t, log') /\
    (length log' <= S (length log))%nat.
Proof.
  unfold ClaimProcessor._classify_single_doc, try_except.
  unfold mbind at 1; unfold M_bind at 1.
  rewrite classify_document_run.
  destruct (_extract_text w file_path) as [e|text].
  - exists UNKNOWN, log. split; [reflexivity|]. split; [reflexivity|lia].
  - cbv zeta. destruct (generate_content w log _) as [e|response].
    + eexists UNKNOWN, _. split; [reflexivity|]. split; [reflexivity|].
      rewrite length_app. cbn. lia.
    + eexists _, _. split; [reflexivity|]. split; [reflexivity|].
      rewrite length_app. cbn. lia.
Qed.

Lemma classify_documents_run (w : World) (file_paths : list string) :
  forall log, exists cds log',
    ClaimProcessor._classify_documents w file_paths log = (inr cds, log') /\
    cds.*1 = file_paths /\
    (length log' <= length log + length file_paths)%nat.
Proof.
  unfold ClaimProcessor._classify_documents.
  induction file_paths as [|p rest IH]; intros log.
  - exists [], log. split; [reflexivity|]. split; [reflexivity|]. cbn. lia.
  - cbn [gather]. unfold mbind at 1; unfold M_bind at 1.
    destruct (classify_single_doc_run w p log) as (t & l1 & -> & _ & Hl1).
    unfold mbind at 1; unfold M_bind at 1.
    destruct (IH l1) as (cds & l2 & -> & Hfst & Hl2).
    exists ((p, t) :: cds), l2. split; [reflexivity|].
    split; [cbn; now rewrite Hfst|]. cbn [length]. lia.
Qed.

(** X1. Classifying a batch never raises and keeps the batch in order:
    [_classify_documents] returns one (path, type) pair per input path,
    the paths in input order, and hands the backend at most one prompt
    per path. *)
Theorem classify_documents_total (w : World) (file_paths : list string) (log : Log) :
  exists cds log',
    ClaimProcessor._classify_documents w file_paths log = (inr cds, log') /\
    cds.*1 = file_paths /\
    length cds = length file_paths /\
    (length log' <= length log + length file_paths)%nat.
Proof.
  destruct (classify_documents_run w file_paths log) as (cds & log' & H & Hf & Hl).
  exists cds, log'. repeat split; try assumption.
  rewrite <- Hf, length_fmap. reflexivity.
Qed.

(** ** What can leave the orchestrator *)

Lemma process_one_error (w : World) (file_path : string) (t : DocumentType)
    (log log' : Log) (e : Exn) :
  ClaimProcessor.process_one w file_path t log = (inl e, log') -> e = union_error.
Proof.
  unfold ClaimProcessor.process_one.
  destruct (decide (t = UNKNOWN)); [discriminate|].
  unfold try_except.
  match goal with
  | |- context [match ?b log with _ => _ end] => destruct (b log) as [[e'|r] l]
  end.
  - unfold mbind, M_bind, lift. rewrite parse_obj_error_document.
    intros [= <- _]. reflexivity.
  - discriminate.
Qed.

Lemma process_from_error (w : World) (cds : list (string * DocumentType)) :
  forall (acc : list ClaimDocument.t) (log log' : Log) (e : Exn),
    ClaimProcessor.process_from w cds acc log = (inl e, log') -> e = union_error.
Proof.
  induction cds as [|[p t] rest IH]; intros acc log log' e; [discriminate|].
  cbn [ClaimProcessor.process_from]. unfold mbind at 1; unfold M_bind at 1.
  destruct (ClaimProcessor.process_one w p t log) as [[e'|r] l] eqn:E.
  - intros [= <- _]. eapply process_one_error, E.
  - apply IH.
Qed.

Lemma filter_length_le {A} (f : A -> bool) (l : list A) :
  (length (List.filter f l) <= length l)%nat.
Proof. induction l as [|x l IH]; cbn; [lia|]. destruct (f x); cbn; lia. Qed.

Lemma process_claim_run (w : World) (file_paths : list string) (log : Log) :
  exists cds log1,
    ClaimProcessor._classify_documents w file_paths log = (inr cds, log1) /\
    cds.*1 = file_paths /\
    ClaimProcessor.process_claim w file_paths log =
    match ClaimProcessor._process_documents w cds log1 with
    | (inl e, log') => (inl e, log')
    | (inr docs, log') =>
        let validation :=
          {| missing_documents := both_missing w;
             discrepancies := [];
             is_valid := false |} in
        (inr {| documents := docs;
                validation := validation;
                decision := ClaimProcessor._make_decision docs validation |}, log')
    end.
Proof.
  destruct (classify_documents_run w file_paths log) as (cds & log1 & H & Hf & _).
  exists cds, log1. split; [exact H|]. split; [exact Hf|].
  unfold ClaimProcessor.process_claim.
  unfold mbind at 1; unfold M_bind at 1. rewrite H.
  unfold mbind at 1; unfold M_bind at 1.
  destruct (ClaimProcessor._process_documents w cds log1) as [[e|docs] l];
    [reflexivity|].
  unfold mbind, M_bind, lift. rewrite validate_claim_run. reflexivity.
Qed.

(** X2. The only exception that can leave [process_claim] is the
    [ValidationError] raised in the [except] branch of
    [_process_documents]: classification failures, backend failures,
    extraction errors and file-system errors never reach the caller as
    such. *)
Theorem process_claim_only_validation_error
    (w : World) (file_paths : list string) (log log' : Log) (e : Exn) :
  ClaimProcessor.process_claim w file_paths log = (inl e, log') ->
  e = union_error /\ exn_kind e = ValidationError.
Proof.
  destruct (process_claim_run w file_paths log) as (cds & log1 & _ & _ & ->).
  destruct (ClaimProcessor._process_documents w cds log1) as [[e'|docs] l] eqn:E;
    [|discriminate].
  intros [= <- _]. apply process_from_error in E as ->. split; reflexivity.
Qed.

Lemma process_claim_only_validation_error_desk :
  union_error = union_error /\ exn_kind union_error = ValidationError.
Proof.
  apply (process_claim_only_validation_error desk_world three_bills []
           ["a.pdf: claims/a.pdf"; "b.pdf: claims/b.pdf"; "c.pdf: claims/c.pdf"]).
  vm_compute. reflexivity.
Defined.

(** ** Batches the classifier does not recognise *)

Lemma process_from_unknown (w : World) (cds : list (string * DocumentType)) :
  forall (acc : list ClaimDocument.t) (log : Log),
    Forall (fun cd => cd.2 = UNKNOWN) cds ->
    ClaimProcessor.process_from w cds acc log = (inr acc, log).
Proof.
  induction cds as [|[p t] rest IH]; intros acc log H; [reflexivity|].
  apply Forall_cons in H as [Ht H]. cbn [snd] in Ht. subst t.
  cbn [ClaimProcessor.process_from]. unfold mbind at 1; unfold M_bind at 1.
  rewrite process_one_unknown. apply IH, H.
Qed.

Lemma classify_documents_unknown (w : World) (file_paths : list string) :
  (forall p l, In p file_paths ->
     exists l', ClassifierAgent.classify_document w p l = (inr UNKNOWN, l')) ->
  forall log, exists cds log',
    ClaimProcessor._classify_documents w file_paths log = (inr cds, log') /\
    Forall (fun cd => cd.2 = UNKNOWN) cds.
Proof.
  unfold ClaimProcessor._classify_documents.
  induction file_paths as [|p rest IH]; intros H log.
  - exists [], log. split; [reflexivity|constructor].
  - cbn [gather]. unfold mbind at 1; unfold M_bind at 1.
    destruct (classify_single_doc_run w p log) as (t & l1 & -> & Hc & _).
    destruct (H p log (or_introl eq_refl)) as [l' Hu]. rewrite Hu in Hc.
    injection Hc as <- <-.
    unfold mbind at 1; unfold M_bind at 1.
    destruct (IH (fun q l Hq => H q l (or_intror Hq)) l') as (cds & l2 & -> & HF).
    exists ((p, UNKNOWN) :: cds), l2.
    split; [reflexivity|]. constructor; [reflexivity|exact HF].
Qed.

(** X8. A batch in which the classifier recognises nothing - the empty
    batch included - is still answered: [process_claim] returns a claim
    without documents, not valid, rejected for the missing bill and ID
    card, with both amounts 0. *)
Theorem process_claim_all_unknown (w : World) (file_paths : list string) (log : Log) :
  (forall p l, In p file_paths ->
     exists l', ClassifierAgent.classify_document w p l = (inr UNKNOWN, l')) ->
  exists claim log',
    ClaimProcessor.process_claim w file_paths log = (inr claim, log') /\
    documents claim = [] /\
    is_valid (validation claim) = false /\
    status (decision claim) = rejected /\
    occurs_in "medical bill" (reason (decision claim)) /\
    occurs_in "insurance ID card" (reason (decision claim)) /\
    amount_approved (decision claim) = Some 0%float /\
    amount_rejected (decision claim) = Some 0%float.
Proof.
  intros H.
  destruct (classify_documents_unknown w file_paths H log) as (cds & l1 & Hc & HF).
  unfold ClaimProcessor.process_claim.
  unfold mbind at 1; unfold M_bind at 1. rewrite Hc.
  unfold mbind at 1; unfold M_bind at 1.
  unfold ClaimProcessor._process_documents. rewrite (process_from_unknown _ _ _ _ HF).
  eexists _, _. split; [reflexivity|]. cbn [documents validation decision].
  split; [reflexivity|].
  unfold ClaimProcessor._validate_claim, ClaimProcessor.required_docs.
  destruct (bill_first w); vm_compute; repeat split;
    try (exists "Missing required documents: ", ", insurance ID card"; reflexivity);
    try (exists "Missing required documents: medical bill, ", ""; reflexivity);
    try (exists "Missing required documents: insurance ID card, ", ""; reflexivity);
    try (exists "Missing required documents: ", ", medical bill"; reflexivity).
Qed.

Lemma process_claim_all_unknown_notes :
  exists claim log',
    ClaimProcessor.process_claim desk_world ["claims/notes.txt"] [] = (inr claim, log') /\
    documents claim = [] /\
    is_valid (validation claim) = false /\
    status (decision claim) = rejected /\
    occurs_in "medical bill" (reason (decision claim)) /\
    occurs_in "insurance ID card" (reason (decision claim)) /\
    amount_approved (decision claim) = Some 0%float /\
    amount_rejected (decision claim) = Some 0%float.
Proof.
  apply (process_claim_all_unknown desk_world ["claims/notes.txt"] []).
  intros p l [<-|[]]. eexists. rewrite classify_document_run. reflexivity.
Defined.

(** ** What a processed claim holds *)




(** ** What a claim costs in backend calls *)

Lemma classify_single_doc_log (w : World) (file_path : string) (log : Log) :
  exists sent,
    snd (ClaimProcessor._classify_single_doc w file_path log) = log ++ sent /\
    (length sent <= 1)%nat.
Proof.
  unfold ClaimProcessor._classify_single_doc, try_except.
  unfold mbind at 1; unfold M_bind at 1.
  rewrite classify_document_run.
  destruct (_extract_text w file_path) as [e|text].
  - exists []. rewrite app_nil_r. split; [reflexivity|cbn; lia].
  - cbv zeta. destruct (generate_content w log _) as [e|response];
      eexists [_]; (split; [reflexivity|cbn; lia]).
Qed.

Lemma classify_documents_log (w : World) (file_paths : list string) :
  forall log, exists sent,
    snd (ClaimProcessor._classify_documents w file_paths log) = log ++ sent /\
    (length sent <= length file_paths)%nat.
Proof.
  unfold ClaimProcessor._classify_documents.
  induction file_paths as [|p rest IH]; intros log.
  - exists []. rewrite app_nil_r. split; [reflexivity|cbn; lia].
  - cbn [gather]. unfold mbind at 1; unfold M_bind at 1.
    destruct (classify_single_doc_log w p log) as (s1 & H1 & L1).
    destruct (classify_single_doc_run w p log) as (t & l1 & E1 & _ & _).
    rewrite E1 in *. cbn [snd] in H1. subst l1.
    unfold mbind at 1; unfold M_bind at 1.
    destruct (IH (log ++ s1)) as (s2 & H2 & L2).
    destruct (gather (ClaimProcessor._classify_single_doc w) rest (log ++ s1))
      as [[e|cds] l2]; cbn [snd] in *; subst l2;
      exists (s1 ++ s2); rewrite app_assoc, length_app; (split; [reflexivity|cbn; lia]).
Qed.

Lemma process_one_log (w : World) (file_path : string) (t : DocumentType) (log : Log) :
  snd (ClaimProcessor.process_one w file_path t log) = log.
Proof.
  unfold ClaimProcessor.process_one.
  destruct (decide (t = UNKNOWN)) as [->|Hne]; [reflexivity|].
  destruct (ClaimProcessor.agents t) as [ag|] eqn:Hag;
    [|destruct t; discriminate || now contradiction Hne].
  pose proof (agent_process_log t ag w (TPath file_path) None log Hag) as Hs.
  unfold try_except. unfold mbind at 1; unfold M_bind at 1.
  destruct (process ag w (TPath file_path) None log) as [[e|x] l]; cbn [snd] in Hs;
    subst l; unfold mbind, M_bind, lift.
  - destruct (ClaimDocument.parse_obj _); reflexivity.
  - destruct (st_size w file_path) as [e|size].
    + destruct (ClaimDocument.parse_obj _); reflexivity.
    + destruct (ClaimDocument.parse_obj _) as [e|doc]; [|reflexivity].
      destruct (ClaimDocument.parse_obj _); reflexivity.
Qed.

Lemma process_from_log (w : World) (cds : list (string * DocumentType)) :
  forall (acc : list ClaimDocument.t) (log : Log),
    snd (ClaimProcessor.process_from w cds acc log) = log.
Proof.
  induction cds as [|[p t] rest IH]; intros acc log; [reflexivity|].
  cbn [ClaimProcessor.process_from]. unfold mbind at 1; unfold M_bind at 1.
  pose proof (process_one_log w p t log) as H1.
  destruct (ClaimProcessor.process_one w p t log) as [[e|r] l1]; cbn [snd] in H1;
    subst l1; [reflexivity|].
  apply IH.
Qed.

(** X18. Processing a claim only ever appends to the record of prompts
    sent to the backend, and what it appends are the prompts of the
    classifier, at most one per submitted file: the agents send nothing.
    This holds whether the claim is returned or an exception escapes. *)
Theorem process_claim_prompt_budget (w : World) (file_paths : list string) (log : Log) :
  exists sent,
    snd (ClaimProcessor.process_claim w file_paths log) = log ++ sent /\
    snd (ClaimProcessor._classify_documents w file_paths log) = log ++ sent /\
    (length sent <= length file_paths)%nat /\
    (length sent <= 2 * length file_paths)%nat.
Proof.
  destruct (process_claim_run w file_paths log) as (cds & log1 & Hc & Hf & ->).
  destruct (classify_documents_log w file_paths log) as (s1 & H1 & L1).
  rewrite Hc in H1 |- *. cbn [snd] in H1 |- *. subst log1.
  pose proof (process_from_log w cds [] (log ++ s1)) as H2.
  fold (ClaimProcessor._process_documents w cds) in H2.
  exists s1. split; [|split; [reflexivity|lia]].
  destruct (ClaimProcessor._process_documents w cds (log ++ s1)) as [[e|docs] l];
    exact H2.
Qed.

(** ** The verdict on a returned claim *)




(** ** Date normalization *)

Lemma isdigit_digit_char (v : Z) : PyStr.isdigit (Datetime.digit_char v) = true.
Proof.
  unfold Datetime.digit_char.
  assert (H : 0 <= v mod 10 < 10) by (apply Z.mod_pos_bound; lia).
  assert (E : v mod 10 = 0 \/ v mod 10 = 1 \/ v mod 10 = 2 \/ v mod 10 = 3 \/
              v mod 10 = 4 \/ v mod 10 = 5 \/ v mod 10 = 6 \/ v mod 10 = 7 \/
              v mod 10 = 8 \/ v mod 10 = 9) by lia.
  destruct E as [->|[->|[->|[->|[->|[->|[->|[->|[->| ->]]]]]]]]]; reflexivity.
Qed.

(** From the year 1000 on the year is written with four digits. *)
Lemma strftime_Ymd_four (d : Datetime.date) :
  1000 <= Datetime.year d ->
  Datetime.strftime_Ymd d
  = Datetime.pad4 (Datetime.year d) +:+ "-" +:+ Datetime.pad2 (Datetime.month d)
      +:+ "-" +:+ Datetime.pad2 (Datetime.day d).
Proof.
  intros Hy. unfold Datetime.strftime_Ymd, Datetime.year_digits.
  destruct (Z.ltb_spec (Datetime.year d) 10); [lia|].
  destruct (Z.ltb_spec (Datetime.year d) 100); [lia|].
  destruct (Z.ltb_spec (Datetime.year d) 1000); [lia|]. reflexivity.
Qed.

(** [strftime('%Y-%m-%d')] has the shape [dddd-dd-dd] from the year 1000
    on. *)
Lemma is_Ymd_strftime (d : Datetime.date) :
  1000 <= Datetime.year d ->
  Datetime.is_Ymd (Datetime.strftime_Ymd d) = true.
Proof.
  intros Hy. rewrite (strftime_Ymd_four d Hy).
  cbv [Datetime.pad4 Datetime.pad2 append Datetime.is_Ymd].
  cbn [forallb]. rewrite !isdigit_digit_char. reflexivity.
Qed.

Lemma first_format_none (fmts : list string) (s : string) :
  Datetime.first_format fmts s = None <->
  Forall (fun fmt => Datetime.strptime s fmt = None) fmts.
Proof.
  induction fmts as [|fmt rest IH]; cbn [Datetime.first_format].
  - split; [constructor|reflexivity].
  - destruct (Datetime.strptime s fmt) as [d|] eqn:E.
    + split; [discriminate|]. intros H. inversion H; congruence.
    + rewrite IH. split; [intros H; constructor; assumption|].
      intros H. inversion H; assumption.
Qed.

Lemma first_format_some (fmts : list string) (s : string) :
  Exists (fun fmt => Datetime.strptime s fmt <> None) fmts ->
  exists d, Datetime.first_format fmts s = Some d.
Proof.
  intros H. destruct (Datetime.first_format fmts s) as [d|] eqn:E; [eauto|].
  apply first_format_none in E. apply Exists_exists in H as (fmt & Hin & Hne).
  rewrite Forall_forall in E. contradiction Hne. apply E, Hin.
Qed.

Lemma bill_parse_date_nonempty (s : string) :
  s <> "" ->
  BillAgent._parse_date s =
  match Datetime.first_format BillAgent.date_formats (PyStr.strip s) with
  | Some dt => Datetime.strftime_Ymd dt
  | None => PyStr.strip s
  end.
Proof.
  intros H. unfold BillAgent._parse_date.
  destruct (String.eqb_spec s ""); [contradiction|reflexivity].
Qed.

Lemma parse_date_formats_nonempty (fmts : list string) (s : string) :
  s <> "" ->
  parse_date_formats fmts s
  = Datetime.strftime_Ymd <$> Datetime.first_format fmts (PyStr.strip s).
Proof.
  intros H. unfold parse_date_formats.
  destruct (String.eqb_spec s ""); [contradiction|reflexivity].
Qed.

(** ** Dates in canonical form *)

Lemma digit_val_digit_char (v : Z) :
  PyStr.digit_val (Datetime.digit_char v) = Some (v mod 10).
Proof.
  unfold Datetime.digit_char.
  assert (H : 0 <= v mod 10 < 10) by (apply Z.mod_pos_bound; lia).
  assert (E : v mod 10 = 0 \/ v mod 10 = 1 \/ v mod 10 = 2 \/ v mod 10 = 3 \/
              v mod 10 = 4 \/ v mod 10 = 5 \/ v mod 10 = 6 \/ v mod 10 = 7 \/
              v mod 10 = 8 \/ v mod 10 = 9) by lia.
  destruct E as [->|[->|[->|[->|[->|[->|[->|[->|[->| ->]]]]]]]]]; reflexivity.
Qed.

Lemma isspace_digit_char (v : Z) : PyStr.isspace (Datetime.digit_char v) = false.
Proof.
  unfold Datetime.digit_char.
  assert (H : 0 <= v mod 10 < 10) by (apply Z.mod_pos_bound; lia).
  assert (E : v mod 10 = 0 \/ v mod 10 = 1 \/ v mod 10 = 2 \/ v mod 10 = 3 \/
              v mod 10 = 4 \/ v mod 10 = 5 \/ v mod 10 = 6 \/ v mod 10 = 7 \/
              v mod 10 = 8 \/ v mod 10 = 9) by lia.
  destruct E as [->|[->|[->|[->|[->|[->|[->|[->|[->| ->]]]]]]]]]; reflexivity.
Qed.

Lemma digit2_digit_char (a b : Z) (r : string) :
  Datetime.digit2 0 9 0 9
    (String (Datetime.digit_char a) (String (Datetime.digit_char b) r))
  = [(10 * (a mod 10) + b mod 10, r)].
Proof.
  assert (Ha : 0 <= a mod 10 < 10) by (apply Z.mod_pos_bound; lia).
  assert (Hb : 0 <= b mod 10 < 10) by (apply Z.mod_pos_bound; lia).
  unfold Datetime.digit2, Datetime.digit1, Datetime.in_range.
  rewrite digit_val_digit_char.
  replace ((0 <=? a mod 10) && (a mod 10 <=? 9)) with true
    by (symmetry; apply andb_true_iff; split; apply Z.leb_le; lia).
  cbn [mbind list_bind flat_map app]. rewrite digit_val_digit_char.
  replace ((0 <=? b mod 10) && (b mod 10 <=? 9)) with true
    by (symmetry; apply andb_true_iff; split; apply Z.leb_le; lia).
  reflexivity.
Qed.

Lemma alternatives_DY_pad4 (f : Datetime.found) (y : Z) (r : string) :
  0 <= y <= 9999 ->
  Datetime.alternatives Datetime.DY f
    (String (Datetime.digit_char (y / 100 / 10))
       (String (Datetime.digit_char (y / 100))
          (String (Datetime.digit_char (y / 10))
             (String (Datetime.digit_char y) r))))
  = [(Datetime.mkfound y (Datetime.fm f) (Datetime.fd f), r)].
Proof.
  intros Hy. unfold Datetime.alternatives.
  rewrite digit2_digit_char. cbn [mbind list_bind flat_map app].
  rewrite digit2_digit_char. cbn [mbind list_bind flat_map app].
  do 3 f_equal. Z.div_mod_to_equations. lia.
Qed.

Lemma matches_month_day (y m d : Z) :
  1 <= m <= 12 -> 1 <= d <= 31 ->
  exists rest,
    Datetime.matches
      [Datetime.DLit "-"; Datetime.Dm; Datetime.DLit "-"; Datetime.Dd]
      (Datetime.mkfound y 1 1)
      (String "-" (Datetime.pad2 m +:+ String "-" (Datetime.pad2 d)))
    = (Datetime.mkfound y m d, EmptyString) :: rest.
Proof.
  intros Hm Hd.
  assert (Em : m = 1 \/ m = 2 \/ m = 3 \/ m = 4 \/ m = 5 \/ m = 6 \/ m = 7 \/ m = 8 \/ m = 9 \/ m = 10 \/ m = 11 \/ m = 12) by lia.
  assert (Ed : d = 1 \/ d = 2 \/ d = 3 \/ d = 4 \/ d = 5 \/ d = 6 \/ d = 7 \/ d = 8 \/ d = 9 \/ d = 10 \/ d = 11 \/ d = 12 \/ d = 13 \/ d = 14 \/ d = 15 \/ d = 16 \/ d = 17 \/ d = 18 \/ d = 19 \/ d = 20 \/ d = 21 \/ d = 22 \/ d = 23 \/ d = 24 \/ d = 25 \/ d = 26 \/ d = 27 \/ d = 28 \/ d = 29 \/ d = 30 \/ d = 31) by lia.
  clear Hm Hd.
  destruct Em as [->|[->|[->|[->|[->|[->|[->|[->|[->|[->|[->| ->]]]]]]]]]]];
    destruct Ed as [->|[->|[->|[->|[->|[->|[->|[->|[->|[->|[->|[->|[->|[->|[->|[->|[->|[->|[->|[->|[->|[->|[->|[->|[->|[->|[->|[->|[->|[->| ->]]]]]]]]]]]]]]]]]]]]]]]]]]]]]];
    eexists; vm_compute; reflexivity.
Qed.

Lemma valid_date_bounds (y m d : Z) :
  Datetime.valid_date (Datetime.mkdate y m d) = true ->
  1 <= y <= 9999 /\ 1 <= m <= 12 /\ 1 <= d <= 31.
Proof.
  unfold Datetime.valid_date. cbn [Datetime.year Datetime.month Datetime.day].
  rewrite !andb_true_iff, !Z.leb_le. intros [[[[[H1 H2] H3] H4] H5] H6].
  assert (Datetime.days_in_month y m <= 31).
  { unfold Datetime.days_in_month.
    destruct (m =? 2); [destruct (Datetime.is_leap y); lia|].
    destruct ((m =? 4) || (m =? 6) || (m =? 9) || (m =? 11)); lia. }
  lia.
Qed.

Lemma strptime_valid (s fmt : string) (d : Datetime.date) :
  Datetime.strptime s fmt = Some d -> Datetime.valid_date d = true.
Proof.
  unfold Datetime.strptime.
  destruct (Datetime.matches _ _ _) as [|[f [|c r]] l]; try discriminate.
  destruct (Datetime.valid_date _) eqn:E; [|discriminate].
  intros [= <-]. exact E.
Qed.

Lemma first_format_valid (fmts : list string) (s : string) (d : Datetime.date) :
  Datetime.first_format fmts s = Some d -> Datetime.valid_date d = true.
Proof.
  induction fmts as [|fmt rest IH]; cbn [Datetime.first_format]; [discriminate|].
  destruct (Datetime.strptime s fmt) as [d'|] eqn:E; [|exact IH].
  intros [= <-]. eapply strptime_valid, E.
Qed.

(** Reading a date written by [strftime('%Y-%m-%d')] gives the date
    back. *)
Lemma strptime_strftime (d : Datetime.date) :
  Datetime.valid_date d = true -> 1000 <= Datetime.year d ->
  Datetime.strptime (Datetime.strftime_Ymd d) "%Y-%m-%d" = Some d.
Proof.
  intros Hv Hy4. rewrite (strftime_Ymd_four d Hy4). revert Hv. clear Hy4.
  destruct d as [y m dd]. intros Hv.
  destruct (valid_date_bounds _ _ _ Hv) as (Hy & Hm & Hd).
  cbn [Datetime.year Datetime.month Datetime.day].
  unfold Datetime.strptime.
  change (Datetime.compile "%Y-%m-%d")
    with [Datetime.DY; Datetime.DLit "-"; Datetime.Dm; Datetime.DLit "-"; Datetime.Dd].
  change (Datetime.pad4 y +:+ "-" +:+ Datetime.pad2 m +:+ "-" +:+ Datetime.pad2 dd)
    with (String (Datetime.digit_char (y / 100 / 10))
           (String (Datetime.digit_char (y / 100))
              (String (Datetime.digit_char (y / 10))
                 (String (Datetime.digit_char y)
                    (String "-" (Datetime.pad2 m +:+ String "-" (Datetime.pad2 dd))))))).
  change (Datetime.matches (Datetime.DY :: ?ds) ?f ?s)
    with ('(f', r) ← Datetime.alternatives Datetime.DY f s; Datetime.matches ds f' r).
  rewrite alternatives_DY_pad4 by lia.
  cbn [mbind list_bind flat_map app Datetime.found0 Datetime.fm Datetime.fd].
  destruct (matches_month_day y m dd Hm Hd) as [rest ->].
  cbn [app Datetime.fY Datetime.fm Datetime.fd]. rewrite Hv. reflexivity.
Qed.

Lemma rstrip_idem (s : string) : PyStr.rstrip (PyStr.rstrip s) = PyStr.rstrip s.
Proof.
  induction s as [|c s IH]; [reflexivity|].
  cbn [PyStr.rstrip]. destruct (PyStr.rstrip s) as [|a r] eqn:E.
  - destruct (PyStr.isspace c) eqn:Ec; [reflexivity|].
    cbn [PyStr.rstrip]. rewrite Ec. reflexivity.
  - change (PyStr.rstrip (String c (String a r)))
      with (match PyStr.rstrip (String a r) with
            | EmptyString => if PyStr.isspace c then EmptyString else String c EmptyString
            | r' => String c r'
            end).
    rewrite IH. reflexivity.
Qed.

Lemma lstrip_head (s : string) :
  PyStr.lstrip s = EmptyString \/
  exists c t, PyStr.lstrip s = String c t /\ PyStr.isspace c = false.
Proof.
  induction s as [|c s IH]; [left; reflexivity|].
  cbn [PyStr.lstrip]. destruct (PyStr.isspace c) eqn:Ec; [exact IH|].
  right. exists c, s. split; [reflexivity|exact Ec].
Qed.

Lemma strip_idem (s : string) : PyStr.strip (PyStr.strip s) = PyStr.strip s.
Proof.
  unfold PyStr.strip. destruct (lstrip_head s) as [->|(c & t & -> & Hc)]; [reflexivity|].
  assert (H : PyStr.lstrip (PyStr.rstrip (String c t)) = PyStr.rstrip (String c t)).
  { cbn [PyStr.rstrip]. destruct (PyStr.rstrip t); rewrite ?Hc; cbn [PyStr.lstrip];
      rewrite Hc; reflexivity. }
  rewrite H. apply rstrip_idem.
Qed.

Lemma strip_strftime (d : Datetime.date) :
  PyStr.strip (Datetime.strftime_Ymd d) = Datetime.strftime_Ymd d.
Proof.
  unfold Datetime.strftime_Ymd, Datetime.year_digits.
  destruct (Datetime.year d <? 10); [|destruct (Datetime.year d <? 100);
    [|destruct (Datetime.year d <? 1000)]];
    cbv [Datetime.pad4 Datetime.pad2 append PyStr.strip];
    cbn [PyStr.lstrip]; rewrite isspace_digit_char;
    cbn [PyStr.rstrip]; rewrite !isspace_digit_char; reflexivity.
Qed.

Lemma strftime_nonempty (d : Datetime.date) : Datetime.strftime_Ymd d <> "".
Proof.
  unfold Datetime.strftime_Ymd, Datetime.year_digits.
  destruct (Datetime.year d <? 10); [|destruct (Datetime.year d <? 100);
    [|destruct (Datetime.year d <? 1000)]];
    cbv [Datetime.pad4 Datetime.pad2 append]; discriminate.
Qed.

Lemma first_format_iso (rest : list string) (d : Datetime.date) :
  Datetime.valid_date d = true -> 1000 <= Datetime.year d ->
  Datetime.first_format ("%Y-%m-%d" :: rest) (Datetime.strftime_Ymd d) = Some d.
Proof.
  intros Hv Hy. cbn [Datetime.first_format]. rewrite (strptime_strftime _ Hv Hy).
  reflexivity.
Qed.

Lemma bill_parse_date_canonical (d : Datetime.date) :
  Datetime.valid_date d = true -> 1000 <= Datetime.year d ->
  BillAgent._parse_date (Datetime.strftime_Ymd d) = Datetime.strftime_Ymd d.
Proof.
  intros Hv Hy. rewrite bill_parse_date_nonempty by apply strftime_nonempty.
  rewrite strip_strftime. unfold BillAgent.date_formats.
  rewrite (first_format_iso _ _ Hv Hy). reflexivity.
Qed.

Lemma parse_date_formats_canonical (rest : list string) (d : Datetime.date) :
  Datetime.valid_date d = true -> 1000 <= Datetime.year d ->
  parse_date_formats ("%Y-%m-%d" :: rest) (Datetime.strftime_Ymd d)
  = Some (Datetime.strftime_Ymd d).
Proof.
  intros Hv Hy. rewrite parse_date_formats_nonempty by apply strftime_nonempty.
  rewrite strip_strftime, (first_format_iso _ _ Hv Hy). reflexivity.
Qed.

(** C8, as the code has it. The bill, ID card, prescription and lab
    report agents try a date string, stripped of surrounding white space,
    against their format list, which starts with ISO [%Y-%m-%d], and
    write the date of the first format that parses with
    [strftime('%Y-%m-%d')]: that is [YYYY-MM-DD] for every year from 1000
    on (an earlier year is written without leading zeros). A string in
    ISO form is therefore read as such by all four, and ["04/10/2024"]
    and ["2024-04-10"] both give ["2024-04-10"]. When no format parses
    the bill agent returns the stripped string, the other three return
    [None]. *)
Theorem parse_date_normalization :
  (* the ISO format comes first *)
  (forall fmts,
     In fmts [BillAgent.date_formats; IdCardAgent.date_formats;
              PrescriptionAgent.date_formats; LabReportAgent.date_formats] ->
     exists rest, fmts = "%Y-%m-%d" :: rest)
  (* the first format that parses is written back *)
  /\ (forall s, s <> "" ->
        BillAgent._parse_date s
          = match Datetime.first_format BillAgent.date_formats (PyStr.strip s) with
            | Some dt => Datetime.strftime_Ymd dt
            | None => PyStr.strip s
            end /\
        IdCardAgent._parse_date s
          = Datetime.strftime_Ymd
              <$> Datetime.first_format IdCardAgent.date_formats (PyStr.strip s) /\
        PrescriptionAgent._parse_date s
          = Datetime.strftime_Ymd
              <$> Datetime.first_format PrescriptionAgent.date_formats (PyStr.strip s) /\
        LabReportAgent._parse_date s
          = Datetime.strftime_Ymd
              <$> Datetime.first_format LabReportAgent.date_formats (PyStr.strip s))
  (* a string in ISO form is read as ISO *)
  /\ (forall s d, s <> "" ->
        Datetime.strptime (PyStr.strip s) "%Y-%m-%d" = Some d ->
        BillAgent._parse_date s = Datetime.strftime_Ymd d /\
        IdCardAgent._parse_date s = Some (Datetime.strftime_Ymd d) /\
        PrescriptionAgent._parse_date s = Some (Datetime.strftime_Ymd d) /\
        LabReportAgent._parse_date s = Some (Datetime.strftime_Ymd d))
  (* what is written is YYYY-MM-DD from the year 1000 on *)
  /\ (forall fmts s dt,
        Datetime.first_format fmts s = Some dt ->
        Datetime.valid_date dt = true /\
        (1000 <= Datetime.year dt ->
         Datetime.is_Ymd (Datetime.strftime_Ymd dt) = true /\
         Datetime.strptime (Datetime.strftime_Ymd dt) "%Y-%m-%d" = Some dt))
  (* no match: the stripped string, or nothing *)
  /\ (forall s,
        Forall (fun fmt => Datetime.strptime (PyStr.strip s) fmt = None)
          BillAgent.date_formats ->
        BillAgent._parse_date s = PyStr.strip s)
  /\ (forall s,
        (Forall (fun fmt => Datetime.strptime (PyStr.strip s) fmt = None)
           IdCardAgent.date_formats -> IdCardAgent._parse_date s = None) /\
        (Forall (fun fmt => Datetime.strptime (PyStr.strip s) fmt = None)
           PrescriptionAgent.date_formats -> PrescriptionAgent._parse_date s = None) /\
        (Forall (fun fmt => Datetime.strptime (PyStr.strip s) fmt = None)
           LabReportAgent.date_formats -> LabReportAgent._parse_date s = None))
  (* the empty string *)
  /\ (BillAgent._parse_date "" = "" /\
      IdCardAgent._parse_date "" = None /\
      PrescriptionAgent._parse_date "" = None /\
      LabReportAgent._parse_date "" = None)
  (* the examples of the design document, for the four agents *)
  /\ (BillAgent._parse_date "04/10/2024" = "2024-04-10" /\
      BillAgent._parse_date "2024-04-10" = "2024-04-10" /\
      IdCardAgent._parse_date "04/10/2024" = Some "2024-04-10" /\
      IdCardAgent._parse_date "2024-04-10" = Some "2024-04-10" /\
      PrescriptionAgent._parse_date "04/10/2024" = Some "2024-04-10" /\
      PrescriptionAgent._parse_date "2024-04-10" = Some "2024-04-10" /\
      LabReportAgent._parse_date "04/10/2024" = Some "2024-04-10" /\
      LabReportAgent._parse_date "2024-04-10" = Some "2024-04-10")
  /\ (BillAgent._parse_date "not-a-date" = "not-a-date" /\
      IdCardAgent._parse_date "not-a-date" = None /\
      PrescriptionAgent._parse_date "not-a-date" = None /\
      LabReportAgent._parse_date "not-a-date" = None)
  (* a year below 1000 *)
  /\ (BillAgent._parse_date "0999-01-01" = "999-01-01" /\
      IdCardAgent._parse_date "0999-01-01" = Some "999-01-01").
Proof.
  split.
  { intros fmts [<-|[<-|[<-|[<-|[]]]]]; eexists; reflexivity. }
  split.
  { intros s Hs. split; [apply bill_parse_date_nonempty, Hs|].
    unfold IdCardAgent._parse_date, PrescriptionAgent._parse_date,
      LabReportAgent._parse_date.
    rewrite !parse_date_formats_nonempty by exact Hs. auto. }
  split.
  { intros s d Hs Hd.
    rewrite bill_parse_date_nonempty by exact Hs.
    unfold IdCardAgent._parse_date, PrescriptionAgent._parse_date,
      LabReportAgent._parse_date.
    rewrite !parse_date_formats_nonempty by exact Hs.
    unfold BillAgent.date_formats, IdCardAgent.date_formats,
      PrescriptionAgent.date_formats, LabReportAgent.date_formats.
    cbn [Datetime.first_format]. rewrite Hd. auto. }
  split.
  { intros fmts s dt H. pose proof (first_format_valid _ _ _ H) as Hv.
    split; [exact Hv|]. intros Hy.
    split; [apply is_Ymd_strftime, Hy|apply strptime_strftime; assumption]. }
  split.
  { intros s H. apply first_format_none in H. unfold BillAgent._parse_date.
    destruct (String.eqb_spec s "") as [->|_]; [reflexivity|]. rewrite H. reflexivity. }
  split.
  { intros s.
    unfold IdCardAgent._parse_date, PrescriptionAgent._parse_date,
      LabReportAgent._parse_date, parse_date_formats.
    split; [|split]; intros H; apply first_format_none in H;
      (destruct (String.eqb s ""); [reflexivity|]); rewrite H; reflexivity. }
  split; [repeat split|].
  split; [repeat split; vm_compute; reflexivity|].
  split; repeat split; vm_compute; reflexivity.
Qed.

(** An ISO date with white space around it, read by every agent. *)
Lemma parse_date_normalization_iso :
  BillAgent._parse_date " 2024-04-10 " = "2024-04-10" /\
  IdCardAgent._parse_date " 2024-04-10 " = Some "2024-04-10" /\
  PrescriptionAgent._parse_date " 2024-04-10 " = Some "2024-04-10" /\
  LabReportAgent._parse_date " 2024-04-10 " = Some "2024-04-10".
Proof.
  apply (proj1 (proj2 (proj2 parse_date_normalization)) " 2024-04-10 "
           (Datetime.mkdate 2024 4 10)).
  - discriminate.
  - reflexivity.
Defined.

(** The ID card agent returns nothing for a string that is not a date:
    the design document has the raw string come back. *)
Lemma id_card_parse_date_unmatched :
  IdCardAgent._parse_date "not-a-date" = None
  /\ IdCardAgent._parse_date "not-a-date" <> Some "not-a-date".
Proof. split; [vm_compute; reflexivity|vm_compute; discriminate]. Qed.

(** The prescription and lab report agents likewise. *)
Example parse_date_unmatched_others :
  PrescriptionAgent._parse_date "not-a-date" = None
  /\ LabReportAgent._parse_date "not-a-date" = None.
Proof. split; vm_compute; reflexivity. Qed.

(** The bill agent strips what it passes through. *)
Example bill_parse_date_strips :
  BillAgent._parse_date " not-a-date " = "not-a-date".
Proof. vm_compute. reflexivity. Qed.

(** The discharge agent reads the ISO form only. *)
Example discharge_parse_date :
  DischargeAgent._parse_date "2024-04-10" = Some (Datetime.mkdate 2024 4 10)
  /\ DischargeAgent._parse_date "04/10/2024" = None.
Proof. split; vm_compute; reflexivity. Qed.

(** Day-first dates are read month-first when both readings exist. *)
Example bill_parse_date_month_first :
  BillAgent._parse_date "04/10/2024" = "2024-04-10"
  /\ BillAgent._parse_date "13/10/2024" = "2024-10-13".
Proof. split; vm_compute; reflexivity. Qed.

(** X15. A date in canonical form survives every reader of the
    pipeline: for a valid calendar date from the year 1000 on (so that
    [strftime] writes its year with four digits) the text written by
    [strftime('%Y-%m-%d')] is parsed back to the same date by
    [strptime], by the discharge agent's helper and by the model's date
    field, and it is a fixed point of the date helpers of the bill, ID
    card, prescription and lab report agents. *)
Theorem canonical_date_roundtrip (d : Datetime.date) :
  Datetime.valid_date d = true ->
  1000 <= Datetime.year d ->
  Datetime.strptime (Datetime.strftime_Ymd d) "%Y-%m-%d" = Some d /\
  DischargeAgent._parse_date (Datetime.strftime_Ymd d) = Some d /\
  Pydantic.as_date (VStr (Datetime.strftime_Ymd d)) = Some d /\
  BillAgent._parse_date (Datetime.strftime_Ymd d) = Datetime.strftime_Ymd d /\
  IdCardAgent._parse_date (Datetime.strftime_Ymd d) = Some (Datetime.strftime_Ymd d) /\
  PrescriptionAgent._parse_date (Datetime.strftime_Ymd d)
    = Some (Datetime.strftime_Ymd d) /\
  LabReportAgent._parse_date (Datetime.strftime_Ymd d) = Some (Datetime.strftime_Ymd d).
Proof.
  intros Hv Hy. pose proof (strptime_strftime d Hv Hy) as Hrt.
  split; [exact Hrt|]. split.
  { unfold DischargeAgent._parse_date.
    destruct (String.eqb_spec (Datetime.strftime_Ymd d) "") as [E|_];
      [now apply strftime_nonempty in E|exact Hrt]. }
  split.
  { cbn [Pydantic.as_date]. unfold Pydantic.date_fromisoformat.
    rewrite (is_Ymd_strftime d Hy). exact Hrt. }
  split; [apply bill_parse_date_canonical; assumption|].
  split; [apply parse_date_formats_canonical; assumption|].
  split; apply parse_date_formats_canonical; assumption.
Qed.

Lemma canonical_date_roundtrip_leap_day :
  Datetime.strptime "2024-02-29" "%Y-%m-%d" = Some (Datetime.mkdate 2024 2 29).
Proof.
  apply (canonical_date_roundtrip (Datetime.mkdate 2024 2 29));
    [reflexivity|cbn; lia].
Defined.

(** A date before the year 1000 does not survive: the year is written
    without leading zeros and no reader takes it back. *)
Example short_year_is_not_read_back :
  Datetime.valid_date (Datetime.mkdate 999 1 1) = true
  /\ Datetime.strftime_Ymd (Datetime.mkdate 999 1 1) = "999-01-01"
  /\ Datetime.strptime "999-01-01" "%Y-%m-%d" = None
  /\ IdCardAgent._parse_date "0999-01-01" = Some "999-01-01"
  /\ IdCardAgent._parse_date "999-01-01" = None
  /\ IdCardAgent._parse_date "0012-03-04" = Some "12-03-04"
  /\ IdCardAgent._parse_date "12-03-04" = Some "2004-12-03".
Proof. repeat split; vm_compute; reflexivity. Qed.

(** X16. Normalizing a date twice is the same as normalizing it once,
    as long as the date read is of the year 1000 or later: under that
    condition the bill agent's helper is idempotent, and what the helpers
    of the ID card, prescription and lab report agents return they return
    again when given their own result. A string in which none of the bill
    agent's formats parses is also left alone by a second pass. *)
Theorem parse_date_idempotent :
  (forall s,
     (forall dt, Datetime.first_format BillAgent.date_formats (PyStr.strip s) = Some dt ->
                 1000 <= Datetime.year dt) ->
     BillAgent._parse_date (BillAgent._parse_date s) = BillAgent._parse_date s) /\
  (forall fmts s s',
     In fmts [IdCardAgent.date_formats; PrescriptionAgent.date_formats;
              LabReportAgent.date_formats] ->
     parse_date_formats fmts s = Some s' ->
     (forall dt, Datetime.first_format fmts (PyStr.strip s) = Some dt ->
                 1000 <= Datetime.year dt) ->
     parse_date_formats fmts s' = Some s').
Proof.
  split.
  - intros s Hy. destruct (String.eqb_spec s "") as [->|Hs]; [reflexivity|].
    rewrite (bill_parse_date_nonempty s Hs).
    destruct (Datetime.first_format BillAgent.date_formats (PyStr.strip s))
      as [dt|] eqn:E.
    + apply bill_parse_date_canonical; [eapply first_format_valid, E|].
      apply Hy. reflexivity.
    + destruct (String.eqb_spec (PyStr.strip s) "") as [->|Ht]; [reflexivity|].
      rewrite (bill_parse_date_nonempty _ Ht), strip_idem, E. reflexivity.
  - intros fmts s s' Hin.
    assert (Hf : exists rest, fmts = "%Y-%m-%d" :: rest).
    { destruct Hin as [<-|[<-|[<-|[]]]]; eexists; reflexivity. }
    destruct Hf as [rest ->]. unfold parse_date_formats at 1.
    destruct (String.eqb s ""); [discriminate|].
    destruct (Datetime.first_format _ _) as [dt|] eqn:E; [|discriminate].
    intros [= <-] Hy. apply parse_date_formats_canonical.
    + eapply first_format_valid, E.
    + apply Hy. reflexivity.
Qed.

Lemma parse_date_idempotent_us_date :
  IdCardAgent._parse_date "2024-04-10" = Some "2024-04-10".
Proof.
  apply (proj2 parse_date_idempotent IdCardAgent.date_formats "04/10/2024"
           "2024-04-10").
  - left. reflexivity.
  - vm_compute. reflexivity.
  - intros dt H. vm_compute in H. injection H as <-. cbn. lia.
Defined.

(** ** The response parser of the discharge agent *)

Lemma fill_missing_lookup (data : PyDict) (k : string) :
  DischargeAgent.fill_missing data !! k =
    match data !! k with
    | Some v => Some v
    | None =>
        if bool_decide (k = "patient_name") || bool_decide (k = "diagnosis") then Some VNone
        else if bool_decide (k = "procedures") || bool_decide (k = "medications")
        then Some (VList [])
        else None
    end.
Proof.
  unfold DischargeAgent.fill_missing. cbn [fold_left].
  assert (Hstep : forall (d : PyDict) (f : string) (v : PyVal),
    match d !! f with None => <[f := v]> d | Some _ => d end !! k =
    match d !! k with
    | Some x => Some x
    | None => if bool_decide (k = f) then Some v else None
    end).
  { intros d f v. destruct (decide (k = f)) as [->|Hne].
    - rewrite bool_decide_eq_true_2 by reflexivity.
      destruct (d !! f) eqn:E; [rewrite E; reflexivity|].
      rewrite lookup_insert_eq. reflexivity.
    - rewrite bool_decide_eq_false_2 by exact Hne.
      destruct (d !! f) eqn:E.
      + destruct (d !! k); reflexivity.
      + rewrite lookup_insert_ne by congruence. destruct (d !! k); reflexivity. }
  rewrite !Hstep. destruct (data !! k); [reflexivity|].
  repeat case_bool_decide; subst; try reflexivity; try discriminate.
Qed.

(** X11. The response parser of the discharge agent fails only with an
    AgentError, whatever the response and whatever [json.loads] raises.
    When it returns, the response contained a brace-delimited span that
    [json.loads] read as an object; every entry of that object is kept
    unchanged, the keys patient_name, diagnosis, procedures and
    medications are always present (null and the empty list stand in for
    absent ones) and no other key is added. *)
Theorem discharge_parse_extraction_response (w : World) (response : string) :
  (forall e, DischargeAgent._parse_extraction_response w response = inl e ->
     exn_kind e = AgentError) /\
  (forall r, DischargeAgent._parse_extraction_response w response = inr r ->
     (forall k, In k ["patient_name"; "diagnosis"; "procedures"; "medications"] ->
        is_Some (r !! k)) /\
     exists js je data,
       json_start response = Some js /\ json_end response = Some je /\
       json_loads w (slice js je response) = inr (VDict data) /\
       (forall k v, data !! k = Some v -> r !! k = Some v) /\
       (forall k, data !! k = None ->
          r !! k = (if bool_decide (k = "patient_name") || bool_decide (k = "diagnosis")
                    then Some VNone
                    else if bool_decide (k = "procedures") || bool_decide (k = "medications")
                    then Some (VList [])
                    else None))).
Proof.
  unfold DischargeAgent._parse_extraction_response.
  destruct (json_start response) as [js|]; [destruct (json_end response) as [je|]|].
  - destruct (json_loads w (slice js je response)) as [e|v] eqn:Ej.
    + split; [|intros r H; destruct (exn_kind e); discriminate H].
      intros e' H. destruct (exn_kind e); injection H as <-; reflexivity.
    + destruct v as [|b|z|f|s|dt|t|l|d]; try (split; [intros e' H; injection H as <-; reflexivity
                              |intros r H; discriminate H]).
      split; [intros e' H; discriminate H|].
      intros r H. injection H as <-. split.
      * intros k Hk. rewrite fill_missing_lookup.
        destruct (_ !! k); [eexists; reflexivity|].
        cbn in Hk. destruct Hk as [<-|[<-|[<-|[<-|[]]]]]; eexists; reflexivity.
      * exists js, je, d. split; [reflexivity|]. split; [reflexivity|].
        split; [exact Ej|]. split.
        -- intros k v Hk. rewrite fill_missing_lookup, Hk. reflexivity.
        -- intros k Hk. rewrite fill_missing_lookup, Hk. reflexivity.
  - split; [intros e' H; injection H as <-; reflexivity|intros r H; discriminate H].
  - split; [intros e' H; injection H as <-; reflexivity|intros r H; discriminate H].
Qed.

Lemma discharge_parse_extraction_response_empty_object :
  is_Some (DischargeAgent.fill_missing ∅ !! "procedures").
Proof.
  refine (proj1 (proj2 (discharge_parse_extraction_response empty_object_world
                          "Here it is: {} (end)")
                   (DischargeAgent.fill_missing ∅) _) "procedures" _).
  - vm_compute. reflexivity.
  - right. right. left. reflexivity.
Defined.

(** ** What the document models enforce *)

Lemma required_inl {T} (d : PyDict) (k : string) (f : PyVal -> option T) (e : Exn) :
  Pydantic.required d k f = inl e -> exn_kind e = ValidationError.
Proof.
  unfold Pydantic.required, Pydantic.invalid.
  destruct (d !! k) as [v|]; [destruct (f v)|]; intros [= <-]; reflexivity.
Qed.

Lemma defaulted_inl {T} (d : PyDict) (k : string) (f : PyVal -> option T) (x : T)
    (e : Exn) :
  Pydantic.defaulted d k f x = inl e -> exn_kind e = ValidationError.
Proof.
  unfold Pydantic.defaulted, Pydantic.invalid.
  destruct (d !! k) as [v|]; [destruct (f v)|]; intros [= <-]; reflexivity.
Qed.

Lemma required_present {T} (d : PyDict) (k : string) (f : PyVal -> option T) (x : T) :
  Pydantic.required d k f = inr x -> bool_decide (is_Some (d !! k)) = true.
Proof.
  intros H. apply required_ok in H as (v & -> & _). apply bool_decide_eq_true. eauto.
Qed.

Ltac validate_step :=
  lazymatch goal with
  | |- mbind _ ?m = _ -> _ =>
      let E := fresh "E" in destruct m eqn:E; cbn [mbind Result_bind]
  end.

Ltac validate_kind :=
  repeat (validate_step;
          [intros [= <-];
           solve [eapply required_inl; eassumption | eapply defaulted_inl; eassumption]|]);
  discriminate.

Ltac validate_fields :=
  repeat (validate_step; [discriminate|]);
  intros _; unfold all_in; cbn [forallb];
  repeat match goal with
         | H : Pydantic.required _ _ _ = inr _ |- _ =>
             apply required_present in H; rewrite H; clear H
         end;
  reflexivity.

Lemma output_model_kind (t : DocumentType) (ag : BaseExtractionAgent) (d : PyDict)
    (e : Exn) :
  ClaimProcessor.agents t = Some ag -> validate ag d = inl e ->
  exn_kind e = ValidationError.
Proof.
  unfold validate.
  destruct t; intros [= <-]; cbn [output_model BillAgent.agent DischargeAgent.agent
    IdCardAgent.agent PrescriptionAgent.agent LabReportAgent.agent].
  - assert (H : forall e, BillDocument.validate d = inl e -> exn_kind e = ValidationError).
    { clear e. intros e. unfold BillDocument.validate. validate_kind. }
    destruct (BillDocument.validate d) as [e'|x]; [|discriminate].
    intros [= <-]. apply H. reflexivity.
  - assert (H : forall e, DischargeSummaryDocument.validate d = inl e ->
                          exn_kind e = ValidationError).
    { clear e. intros e. unfold DischargeSummaryDocument.validate. validate_kind. }
    destruct (DischargeSummaryDocument.validate d) as [e'|x]; [|discriminate].
    intros [= <-]. apply H. reflexivity.
  - assert (H : forall e, IdCardDocument.validate d = inl e -> exn_kind e = ValidationError).
    { clear e. intros e. unfold IdCardDocument.validate. validate_kind. }
    destruct (IdCardDocument.validate d) as [e'|x]; [|discriminate].
    intros [= <-]. apply H. reflexivity.
  - assert (H : forall e, PrescriptionDocument.validate d = inl e ->
                          exn_kind e = ValidationError).
    { clear e. intros e. unfold PrescriptionDocument.validate. validate_kind. }
    destruct (PrescriptionDocument.validate d) as [e'|x]; [|discriminate].
    intros [= <-]. apply H. reflexivity.
  - assert (H : forall e, LabReportDocument.validate d = inl e ->
                          exn_kind e = ValidationError).
    { clear e. intros e. unfold LabReportDocument.validate. validate_kind. }
    destruct (LabReportDocument.validate d) as [e'|x]; [|discriminate].
    intros [= <-]. apply H. reflexivity.
Qed.

Lemma output_model_fields (t : DocumentType) (ag : BaseExtractionAgent) (d : PyDict)
    (x : Document) :
  ClaimProcessor.agents t = Some ag -> validate ag d = inr x ->
  all_in (model_required t) d = true.
Proof.
  unfold validate.
  destruct t; intros [= <-]; cbn [output_model BillAgent.agent DischargeAgent.agent
    IdCardAgent.agent PrescriptionAgent.agent LabReportAgent.agent model_required].
  - assert (H : forall y, BillDocument.validate d = inr y ->
      all_in ["hospital_name"; "total_amount"; "date_of_service"] d = true).
    { intros y. unfold BillDocument.validate. validate_fields. }
    destruct (BillDocument.validate d) as [e'|y]; [discriminate|].
    intros _. eapply H. reflexivity.
  - assert (H : forall y, DischargeSummaryDocument.validate d = inr y ->
      all_in ["patient_name"; "admission_date"; "discharge_date"; "diagnosis"] d = true).
    { intros y. unfold DischargeSummaryDocument.validate. validate_fields. }
    destruct (DischargeSummaryDocument.validate d) as [e'|y]; [discriminate|].
    intros _. eapply H. reflexivity.
  - assert (H : forall y, IdCardDocument.validate d = inr y ->
      all_in ["insurance_provider"; "policy_number"; "member_id"; "member_name"] d = true).
    { intros y. unfold IdCardDocument.validate. validate_fields. }
    destruct (IdCardDocument.validate d) as [e'|y]; [discriminate|].
    intros _. eapply H. reflexivity.
  - assert (H : forall y, PrescriptionDocument.validate d = inr y ->
      all_in ["patient_name"; "date_prescribed"; "medications"] d = true).
    { intros y. unfold PrescriptionDocument.validate. validate_fields. }
    destruct (PrescriptionDocument.validate d) as [e'|y]; [discriminate|].
    intros _. eapply H. reflexivity.
  - assert (H : forall y, LabReportDocument.validate d = inr y ->
      all_in ["patient_name"; "date_collected"; "date_reported"; "test_results"] d = true).
    { intros y. unfold LabReportDocument.validate. validate_fields. }
    destruct (LabReportDocument.validate d) as [e'|y]; [discriminate|].
    intros _. eapply H. reflexivity.
Qed.

(** X13. After a successful extraction the only thing [process] can
    still raise is the model's ValidationError, and it does raise it
    whenever the extracted record lacks a field the model declares with
    [Field(...)], whether or not the agent's own required-field check
    knows that field: a bill without [hospital_name] passes the bill
    agent's check and is rejected here. *)
Theorem process_enforces_model_fields
    (t : DocumentType) (ag : BaseExtractionAgent) (w : World) (text : TextArg)
    (file_path : option string) (log log' : Log) (d : PyDict) :
  ClaimProcessor.agents t = Some ag ->
  extract ag w text file_path log = (inr d, log') ->
  (forall e l, process ag w text file_path log = (inl e, l) ->
     exn_kind e = ValidationError /\ l = log') /\
  (all_in (model_required t) d = false ->
   exists e, process ag w text file_path log = (inl e, log') /\
             exn_kind e = ValidationError).
Proof.
  intros Hag Hex.
  assert (Hrun : process ag w text file_path log = (validate ag d, log')).
  { unfold process. unfold mbind, M_bind. rewrite Hex. reflexivity. }
  rewrite Hrun. split.
  - intros e l [= Hv <-]. split; [|reflexivity]. eapply output_model_kind; eauto.
  - intros Hmiss. destruct (validate ag d) as [e|x] eqn:Ev.
    + exists e. split; [reflexivity|]. eapply output_model_kind; eauto.
    + rewrite (output_model_fields _ _ _ _ Hag Ev) in Hmiss. discriminate Hmiss.
Qed.

Lemma process_enforces_model_fields_nameless_bill :
  exists e,
    process BillAgent.agent nameless_bill_world (TStr "bill text") None []
      = (inl e, []) /\
    exn_kind e = ValidationError.
Proof.
  apply (process_enforces_model_fields BILL BillAgent.agent nameless_bill_world
           (TStr "bill text") None [] [] nameless_bill_record).
  - reflexivity.
  - vm_compute. reflexivity.
  - vm_compute. reflexivity.
Defined.

(** ** Reading the classifier's answer *)

(** X17. The classification answer is read by exact match after
    stripping and lower-casing: an answer whose stripped, lower-cased
    text is the value of a member of [DocumentType] is read as that
    member, surrounding white space does not matter, and an answer is
    read as a known type only if its stripped, lower-cased text is one of
    the thirteen labels of the table, so an answer with any extra word or
    punctuation is UNKNOWN. *)
Theorem parse_classification_response_labels :
  (forall response t,
     PyStr.lower (PyStr.strip response) = DocumentType_value t ->
     ClassifierAgent._parse_classification_response response = t) /\
  (forall response,
     ClassifierAgent._parse_classification_response (PyStr.strip response)
     = ClassifierAgent._parse_classification_response response) /\
  (forall response,
     ClassifierAgent._parse_classification_response response <> UNKNOWN ->
     In (PyStr.lower (PyStr.strip response))
        ["bill"; "discharge"; "discharge summary"; "discharge_summary"; "id";
         "id card"; "id_card"; "insurance card"; "prescription"; "lab";
         "lab report"; "lab_report"; "test results"]).
Proof.
  split; [|split].
  - intros response t H. unfold ClassifierAgent._parse_classification_response.
    cbv zeta. rewrite H. destruct t; reflexivity.
  - intros response. unfold ClassifierAgent._parse_classification_response.
    rewrite strip_idem. reflexivity.
  - intros response. unfold ClassifierAgent._parse_classification_response. cbv zeta.
    destruct (ClassifierAgent.type_mapping !! PyStr.lower (PyStr.strip response))
      as [t|] eqn:E; [|intros H; now contradiction H].
    intros _. unfold ClassifierAgent.type_mapping in E.
    apply elem_of_list_to_map_2 in E.
    apply list_elem_of_In in E. cbn [In] in E. cbn [In].
    repeat (destruct E as [E|E];
            [injection E as E _; rewrite <- E; tauto|]).
    destruct E.
Qed.

Lemma parse_classification_response_labels_padded :
  ClassifierAgent._parse_classification_response "  Discharge_Summary " = DISCHARGE_SUMMARY.
Proof.
  apply (proj1 parse_classification_response_labels). reflexivity.
Defined.

(** ** Reading files *)

(** X19. Text extraction fails only with an AgentError whose message
    starts with [Failed to extract text: ]; this holds for a missing
    file, an unsupported suffix and any exception of the PDF reader or of
    the file system. When it returns, the file exists and either its
    suffix is [.pdf] (in any letter case) and the text is the pages'
    texts joined by newlines, or its suffix is [.txt], [.md] or [.csv]
    and the text is the file's content. *)
Theorem extract_text_outcomes (dk : BaseAgent.Disk) (file_path : string) :
  (forall e, BaseAgent._extract_text dk file_path = inl e ->
     exn_kind e = AgentError /\
     PyStr.startswith "Failed to extract text: " (exn_msg e) = true) /\
  (forall text, BaseAgent._extract_text dk file_path = inr text ->
     BaseAgent.path_is_there dk file_path = true /\
     ((PyStr.lower (BaseAgent.suffix file_path) = ".pdf" /\
       exists text_parts,
         BaseAgent.pdf_pages dk file_path = inr text_parts /\
         text = PyStr.join BaseAgent.newline text_parts) \/
      (In (PyStr.lower (BaseAgent.suffix file_path)) [".txt"; ".md"; ".csv"] /\
       BaseAgent.read_replace dk file_path = inr text))).
Proof.
  unfold BaseAgent._extract_text. cbv zeta.
  destruct (BaseAgent.path_is_there dk file_path); cbn [negb].
  2:{ split; [intros e [= <-]; split; reflexivity|intros text H; discriminate H]. }
  destruct (String.eqb_spec (PyStr.lower (BaseAgent.suffix file_path)) ".pdf") as [Hp|Hp].
  { destruct (BaseAgent.pdf_pages dk file_path) as [e0|parts].
    - split; [intros e [= <-]; split; reflexivity|intros text H; discriminate H].
    - split; [intros e H; discriminate H|].
      intros text [= <-]. split; [reflexivity|]. left. split; [exact Hp|].
      exists parts. split; reflexivity. }
  destruct (bool_decide
              (PyStr.lower (BaseAgent.suffix file_path) ∈ BaseAgent.text_suffixes)) eqn:Ht.
  - apply bool_decide_eq_true in Ht. apply list_elem_of_In in Ht.
    destruct (BaseAgent.read_replace dk file_path) as [e0|content].
    + split; [intros e [= <-]; split; reflexivity|intros text H; discriminate H].
    + split; [intros e H; discriminate H|].
      intros text [= <-]. split; [reflexivity|]. right. split; [exact Ht|reflexivity].
  - split; [intros e [= <-]; split; reflexivity|intros text H; discriminate H].
Qed.

Lemma extract_text_outcomes_scan :
  exn_kind (mkExn AgentError
              "Failed to extract text: Unsupported file format: .jpg") = AgentError /\
  PyStr.startswith "Failed to extract text: "
    (exn_msg (mkExn AgentError
                "Failed to extract text: Unsupported file format: .jpg")) = true.
Proof.
  apply (proj1 (extract_text_outcomes full_disk "claims/scan.jpg")).
  vm_compute. reflexivity.
Defined.

Lemma extract_text_unreadable (dk : BaseAgent.Disk) (file_path : string) :
  BaseAgent.path_is_there dk file_path = false \/ readable_suffix file_path = false ->
  exists e, BaseAgent._extract_text dk file_path = inl e.
Proof.
  unfold BaseAgent._extract_text, readable_suffix. cbv zeta.
  intros [H|H].
  - rewrite H. eexists. reflexivity.
  - apply orb_false_iff in H as [-> ->].
    destruct (BaseAgent.path_is_there dk file_path); eexists; reflexivity.
Qed.

Lemma classify_documents_unreadable (w : World) (file_paths : list string) :
  (forall p, In p file_paths -> exists e, _extract_text w p = inl e) ->
  forall log,
    ClaimProcessor._classify_documents w file_paths log
    = (inr ((fun p => (p, UNKNOWN)) <$> file_paths), log).
Proof.
  unfold ClaimProcessor._classify_documents.
  induction file_paths as [|p rest IH]; intros H log; [reflexivity|].
  cbn [gather]. unfold mbind at 1; unfold M_bind at 1.
  assert (Hp : ClaimProcessor._classify_single_doc w p log = (inr (p, UNKNOWN), log)).
  { unfold ClaimProcessor._classify_single_doc, try_except.
    unfold mbind at 1; unfold M_bind at 1. rewrite classify_document_run.
    destruct (H p (or_introl eq_refl)) as [e ->]. reflexivity. }
  rewrite Hp. unfold mbind at 1; unfold M_bind at 1.
  rewrite (IH (fun q Hq => H q (or_intror Hq))). reflexivity.
Qed.

(** X20. Files the classifier cannot read are dropped without a word
    to the backend: when every submitted file is missing or has a suffix
    other than [.pdf], [.txt], [.md] and [.csv] (an image, say, or no
    suffix at all), [process_claim] sends no prompt, returns a claim
    without documents and rejects it. *)
Theorem unreadable_files_are_dropped
    (dk : BaseAgent.Disk) (w : World) (file_paths : list string) (log : Log) :
  _extract_text w = BaseAgent._extract_text dk ->
  (forall p, In p file_paths ->
     BaseAgent.path_is_there dk p = false \/ readable_suffix p = false) ->
  exists claim,
    ClaimProcessor.process_claim w file_paths log = (inr claim, log) /\
    documents claim = [] /\
    is_valid (validation claim) = false /\
    status (decision claim) = rejected.
Proof.
  intros Hw H.
  assert (Hc := classify_documents_unreadable w file_paths
                  (fun p Hp => eq_ind_r (fun f => exists e, f p = inl e)
                                 (extract_text_unreadable dk p (H p Hp)) Hw) log).
  unfold ClaimProcessor.process_claim.
  unfold mbind at 1; unfold M_bind at 1. rewrite Hc.
  unfold mbind at 1; unfold M_bind at 1.
  unfold ClaimProcessor._process_documents. rewrite process_from_unknown.
  2:{ apply Forall_fmap, Forall_forall. intros p _. reflexivity. }
  eexists. split; [reflexivity|]. cbn [documents validation decision].
  split; [reflexivity|].
  unfold ClaimProcessor._validate_claim, ClaimProcessor.required_docs.
  destruct (bill_first w); vm_compute; split; reflexivity.
Qed.

Lemma unreadable_files_are_dropped_scans :
  exists claim,
    ClaimProcessor.process_claim desk_on_disk scans [] = (inr claim, []) /\
    documents claim = [] /\
    is_valid (validation claim) = false /\
    status (decision claim) = rejected.
Proof.
  apply (unreadable_files_are_dropped full_disk desk_on_disk scans []).
  - reflexivity.
  - intros p [<-|[<-|[<-|[]]]]; right; vm_compute; reflexivity.
Defined.

(** ** The bill agent's response parser and its empty input *)

(** X21. The bill agent's response parser, read forwards. A response
    without a brace-delimited span gives the empty record, and so does a
    span on which [json.loads] raises [JSONDecodeError], which is never
    let out. A span that [json.loads] reads as an object gives that
    object with every entry other than [date_of_service] unchanged; a
    [date_of_service] string in one of the five bill formats is replaced
    by what [strftime('%Y-%m-%d')] writes for its date, one in no format
    is stored stripped, a blank one and a value that is not a string are
    left as they are. *)
Theorem bill_parse_llm_response (w : World) (response : string) :
  (forall e, BillAgent._parse_llm_response w response = inl e ->
     exn_kind e <> JSONDecodeError)
  /\ ((forall js je, json_start response = Some js -> json_end response = Some je ->
        (je <= js)%nat) ->
      BillAgent._parse_llm_response w response = inr ∅)
  /\ (forall js je,
        json_start response = Some js -> json_end response = Some je -> (js < je)%nat ->
        (forall e, json_loads w (slice js je response) = inl e ->
           exn_kind e = JSONDecodeError ->
           BillAgent._parse_llm_response w response = inr ∅)
        /\ (forall data, json_loads w (slice js je response) = inr (VDict data) ->
              exists r,
                BillAgent._parse_llm_response w response = inr r /\
                (forall k, k <> "date_of_service" -> r !! k = data !! k) /\
                r !! "date_of_service"
                = match data !! "date_of_service" with
                  | Some (VStr s) =>
                      Some (VStr
                        (if String.eqb (PyStr.strip s) "" then s
                         else match Datetime.first_format BillAgent.date_formats
                                      (PyStr.strip s) with
                              | Some dt => Datetime.strftime_Ymd dt
                              | None => PyStr.strip s
                              end))
                  | other => other
                  end))
  /\ (forall r, BillAgent._parse_llm_response w response = inr r ->
        r = ∅ \/
        exists js je data,
          json_start response = Some js /\ json_end response = Some je /\
          (js < je)%nat /\
          json_loads w (slice js je response) = inr (VDict data)).
Proof.
  assert (Hempty : Datetime.first_format BillAgent.date_formats "" = None)
    by (vm_compute; reflexivity).
  assert (Hdict : forall data : PyDict,
    exists r : PyDict,
      match data !! "date_of_service" with
      | Some (VStr s) =>
          let parsed_date := BillAgent._parse_date s in
          if String.eqb parsed_date "" then Ok data
          else Ok (<["date_of_service" := VStr parsed_date]> data)
      | _ => Ok data
      end = inr r /\
      (forall k, k <> "date_of_service" -> r !! k = data !! k) /\
      r !! "date_of_service"
      = match data !! "date_of_service" with
        | Some (VStr s) =>
            Some (VStr
              (if String.eqb (PyStr.strip s) "" then s
               else match Datetime.first_format BillAgent.date_formats (PyStr.strip s) with
                    | Some dt => Datetime.strftime_Ymd dt
                    | None => PyStr.strip s
                    end))
        | other => other
        end).
  { intros data. destruct (data !! "date_of_service") as [v|] eqn:Ed.
    2:{ exists data. split; [reflexivity|]. split; [reflexivity|exact Ed]. }
    destruct v as [|b|z|f|s|dt0|t|l|d0];
      try (exists data; split; [reflexivity|]; split; [reflexivity|exact Ed]).
    cbv zeta. unfold BillAgent._parse_date.
    destruct (String.eqb_spec s "") as [->|Hs].
    { exists data. split; [reflexivity|]. split; [reflexivity|exact Ed]. }
    destruct (String.eqb_spec (PyStr.strip s) "") as [E|Hne].
    { rewrite E, Hempty. exists data. split; [reflexivity|].
      split; [reflexivity|exact Ed]. }
    destruct (Datetime.first_format BillAgent.date_formats (PyStr.strip s)) as [dt|].
    - destruct (String.eqb_spec (Datetime.strftime_Ymd dt) "") as [E|_];
        [now apply strftime_nonempty in E|].
      eexists. split; [reflexivity|]. split.
      + intros k Hk. apply lookup_insert_ne. congruence.
      + apply lookup_insert_eq.
    - destruct (String.eqb_spec (PyStr.strip s) "") as [E|_]; [contradiction|].
      eexists. split; [reflexivity|]. split.
      + intros k Hk. apply lookup_insert_ne. congruence.
      + apply lookup_insert_eq. }
  unfold BillAgent._parse_llm_response.
  destruct (json_start response) as [js|];
    [|split; [intros e H; discriminate H|]; split; [reflexivity|];
      split; [intros js' je' H1 H2; discriminate
             |intros r [= <-]; left; reflexivity]].
  destruct (json_end response) as [je|];
    [|split; [intros e H; discriminate H|]; split; [reflexivity|];
      split; [intros js' je' H1 H2; discriminate
             |intros r [= <-]; left; reflexivity]].
  destruct (Nat.ltb_spec js je) as [Hlt|Hge].
  2:{ split; [discriminate|]. split; [reflexivity|]. split.
      - intros js' je' [= <-] [= <-] Hlt. lia.
      - intros r [= <-]. left. reflexivity. }
  destruct (json_loads w (slice js je response)) as [e0|v] eqn:Ej.
  { split.
    { intros e. destruct (exn_kind e0) eqn:Ek; try (intros [= <-]; rewrite Ek);
        discriminate. }
    split.
    { intros H. specialize (H js je eq_refl eq_refl). lia. }
    split.
    { intros js' je' [= <-] [= <-] _. rewrite Ej. split.
      - intros e [= <-] ->. reflexivity.
      - intros data H. discriminate H. }
    intros r. destruct (exn_kind e0); try discriminate.
    intros [= <-]. left. reflexivity. }
  destruct v as [|b|z|f|s0|dt0|t|l|data].
  9:{ destruct (Hdict data) as (r & Hr & Hk & Hd). cbv zeta in Hr. rewrite Hr.
      split; [discriminate|].
      split.
      { intros H. specialize (H js je eq_refl eq_refl). lia. }
      split.
      { intros js' je' [= <-] [= <-] _. rewrite Ej. split; [discriminate|].
        intros data' [= <-]. exists r. auto. }
      intros r' [= <-]. right. exists js, je, data. auto. }
  all: split; [intros e [= <-]; discriminate|];
    (split; [intros H; specialize (H js je eq_refl eq_refl); lia|]);
    (split; [|discriminate]);
    intros js' je' [= <-] [= <-] _; rewrite Ej; split; discriminate.
Qed.

(** A bill dated the American way, with white space around the date. *)
Example bill_parse_llm_response_american :
  BillAgent._parse_llm_response american_bill_world "Bill: {...}"
    = inr (<["date_of_service" := VStr "2024-04-10"]> american_bill_json)
  /\ BillAgent._parse_llm_response american_bill_world "no braces here" = inr ∅
  /\ BillAgent._parse_llm_response quiet_world "Bill: {...}" = inr ∅.
Proof. repeat split; vm_compute; reflexivity. Qed.

(** X22. A bill without text is refused before either pass runs: when
    the bill agent is given an empty text, or a path ending in [.pdf] in
    which the PDF extractor finds nothing, and no other file to fall back
    on, [extract] and [process] raise the ValueError [No text content
    found in the document] and nothing is sent to the backend. *)
Theorem bill_without_text_is_refused (w : World) (text : TextArg) (log : Log) :
  text = TStr "" \/
  (PyStr.endswith (str_of text) ".pdf" = true /\
   _extract_text_from_pdf w (str_of text) = inr "") ->
  BillAgent.extract w text None log
    = (inl (mkExn ValueError "No text content found in the document"), log) /\
  process BillAgent.agent w text None log
    = (inl (mkExn ValueError "No text content found in the document"), log).
Proof.
  intros H.
  assert (Ht : bill_text w text None
               = inl (mkExn ValueError "No text content found in the document")).
  { unfold bill_text. destruct H as [->|[Hp Hx]].
    - reflexivity.
    - rewrite Hp, Hx. reflexivity. }
  assert (He : BillAgent.extract w text None log
               = (inl (mkExn ValueError "No text content found in the document"), log)).
  { rewrite bill_extract_run, Ht. reflexivity. }
  split; [exact He|].
  unfold process. cbn [extract BillAgent.agent]. unfold mbind, M_bind.
  rewrite He. reflexivity.
Qed.

Lemma bill_without_text_is_refused_blank_pdf :
  BillAgent.extract blank_pdf_world (TPath "claims/blank.pdf") None []
    = (inl (mkExn ValueError "No text content found in the document"), []) /\
  process BillAgent.agent blank_pdf_world (TPath "claims/blank.pdf") None []
    = (inl (mkExn ValueError "No text content found in the document"), []).
Proof.
  apply (bill_without_text_is_refused blank_pdf_world (TPath "claims/blank.pdf") []).
  right. split; reflexivity.
Defined.

(** ** The union of the document models *)

Lemma bill_nonpositive_rejected (x : BillDocument.t) (file_name : string) (size : Z) :
  PrimFloat.ltb 0 (BillDocument.total_amount x) = false ->
  exists e,
    BillDocument.validate
      (<["file_size" := VInt size]>
         (<["file_name" := VStr file_name]> (BillDocument.dict x))) = inl e.
Proof.
  intros Hneg. destruct x. cbn [BillDocument.total_amount] in Hneg.
  unfold BillDocument.validate, BillDocument.dict, Pydantic.required, Pydantic.defaulted.
  cbn [list_to_map foldr fst snd BillDocument.hospital_name BillDocument.total_amount
       BillDocument.date_of_service BillDocument.patient_name BillDocument.patient_id
       BillDocument.items BillDocument.diagnosis_codes BillDocument.procedure_codes].
  lookup_simpl. rewrite as_literal_same, !as_opt_str.
  unfold Pydantic.as_float_gt0. cbn [Pydantic.as_float mbind option_bind Result_bind].
  rewrite Hneg. eexists. reflexivity.
Qed.

Lemma parse_obj_unknown_type (d : PyDict) :
  d !! "type" = Some (VDocType UNKNOWN) -> ClaimDocument.parse_obj d = inl union_error.
Proof.
  intros Ht. unfold ClaimDocument.parse_obj.
  destruct (validate_other_type BillDocument.validate _ _ BILL
              (bill_validate_type _ _) Ht) as [e1 ->]; [discriminate|].
  destruct (validate_other_type DischargeSummaryDocument.validate _ _ DISCHARGE_SUMMARY
              (discharge_validate_type _ _) Ht) as [e2 ->]; [discriminate|].
  destruct (validate_other_type IdCardDocument.validate _ _ ID_CARD
              (id_card_validate_type _ _) Ht) as [e3 ->]; [discriminate|].
  destruct (validate_other_type PrescriptionDocument.validate _ _ PRESCRIPTION
              (prescription_validate_type _ _) Ht) as [e4 ->]; [discriminate|].
  destruct (validate_other_type LabReportDocument.validate _ _ LAB_REPORT
              (lab_report_validate_type _ _) Ht) as [e5 ->]; [discriminate|].
  reflexivity.
Qed.

(** X24. Dumping a document, adding the file's name and size and
    validating the result against the union gives the same document
    back, provided a bill's total is positive; a bill whose total is not
    positive is refused by every member of the union. A dictionary that
    carries a [type] entry is only ever accepted as a document of that
    type, and one typed UNKNOWN is never accepted, whatever else it
    holds. *)
Theorem claim_document_revalidation :
  (forall (x : Document) (file_path : string) (size : Z),
     (Document_wf x ->
      ClaimDocument.parse_obj (with_file_metadata x file_path size)
      = inr (ClaimDocument.mk x)) /\
     (~ Document_wf x ->
      ClaimDocument.parse_obj (with_file_metadata x file_path size) = inl union_error)) /\
  (forall (d : PyDict) (t : DocumentType) (doc : ClaimDocument.t),
     d !! "type" = Some (VDocType t) ->
     ClaimDocument.parse_obj d = inr doc -> Document_type (ClaimDocument.root doc) = t) /\
  (forall d : PyDict,
     d !! "type" = Some (VDocType UNKNOWN) ->
     ClaimDocument.parse_obj d = inl union_error).
Proof.
  split; [|split; [exact parse_obj_type|exact parse_obj_unknown_type]].
  intros x file_path size. split; [apply parse_obj_roundtrip|].
  intros Hwf. pose proof (with_file_metadata_type x file_path size) as Ht.
  destruct x as [b|x|x|x|x]; try (now contradiction Hwf).
  cbn [Document_wf] in Hwf. apply not_true_is_false in Hwf.
  cbn [Document_type] in Ht. unfold ClaimDocument.parse_obj.
  destruct (bill_nonpositive_rejected b (path_name file_path) size Hwf) as [e1 E1].
  unfold with_file_metadata, Document_dict in *. rewrite E1.
  destruct (validate_other_type DischargeSummaryDocument.validate _ _ DISCHARGE_SUMMARY
              (discharge_validate_type _ _) Ht) as [e2 ->]; [discriminate|].
  destruct (validate_other_type IdCardDocument.validate _ _ ID_CARD
              (id_card_validate_type _ _) Ht) as [e3 ->]; [discriminate|].
  destruct (validate_other_type PrescriptionDocument.validate _ _ PRESCRIPTION
              (prescription_validate_type _ _) Ht) as [e4 ->]; [discriminate|].
  destruct (validate_other_type LabReportDocument.validate _ _ LAB_REPORT
              (lab_report_validate_type _ _) Ht) as [e5 ->]; [discriminate|].
  reflexivity.
Qed.

Lemma claim_document_revalidation_desk_bill :
  ClaimDocument.parse_obj (with_file_metadata desk_bill "claims/a.pdf" 1)
  = inr (ClaimDocument.mk desk_bill).
Proof.
  apply (proj1 (proj1 claim_document_revalidation desk_bill "claims/a.pdf" 1)).
  reflexivity.
Defined.

